(** * Homework submission flow: session, response and submission logic

    A shallow embedding of [lib/homeworkUtils.ts], of the mock gateway
    [mocks/mockDatabase.ts] with the data of [mocks/mockAssignment.ts], of
    the handlers of [pages/student/assignment/[id].tsx] and of the image
    component [components/ReliableImage.tsx].

    JavaScript values are an inductive type, objects are finite maps from
    property names to values, asynchronous functions are programs over the
    calls they make to the gateway, interpreted against an environment:
    the mock of the repository, or any other gateway that answers the same
    chains.  The first part holds the model, the second the properties:
    what a save, a session lookup, a progress update and a submission do
    for every gateway, and what they do on the mock. *)

From Stdlib Require Import ZArith QArith Ascii String List Bool.
From stdpp Require Import base option list gmap strings pretty.

Set Warnings "-register-all".

Local Open Scope string_scope.
Local Open Scope list_scope.

(** ** JavaScript values *)

(** A JS number: NaN or a finite number.  The program only carries numbers
    around and tests them with [isNaN]; it never does arithmetic on them, so
    finite numbers are kept as exact rationals (-0 and the infinities are
    not told apart from the finite numbers). *)
Inductive number : Type :=
| NaN
| Num (q : Q).

Inductive value : Type :=
| VUndefined
| VNull
| VBool (b : bool)
| VNum (n : number)
| VStr (s : string)
| VArr (items : list value)
| VObj (props : gmap string value).

Abbreviation object := (gmap string value).

Definition isNaN (n : number) : bool :=
  match n with NaN => true | Num _ => false end.

(** ToBoolean. *)
Definition truthy (v : value) : bool :=
  match v with
  | VUndefined | VNull => false
  | VBool b => b
  | VNum NaN => false
  | VNum (Num q) => negb (Qeq_bool q 0)
  | VStr s => negb (String.eqb s "")
  | VArr _ | VObj _ => true
  end.

(** [v.k] for a value that is known not to be null or undefined: own
    properties of objects; reading a property of a primitive, or a property
    an object does not have, gives undefined. *)
Definition get (v : value) (k : string) : value :=
  match v with
  | VObj o => default VUndefined (o !! k)
  | _ => VUndefined
  end.

(** SameValueZero, the comparison of [Set.prototype.has].  Arrays and
    objects compare by reference: the two sides are always taken from two
    different parses or literals here, so they are never the same object. *)
Definition sameValueZero (a b : value) : bool :=
  match a, b with
  | VUndefined, VUndefined => true
  | VNull, VNull => true
  | VBool x, VBool y => Bool.eqb x y
  | VNum NaN, VNum NaN => true
  | VNum (Num p), VNum (Num q) => Qeq_bool p q
  | VStr s, VStr t => String.eqb s t
  | _, _ => false
  end.

(** ** Strings

    Strings are byte strings; the string functions below are those of
    JavaScript on ASCII text (the white space of [trim] and [parseInt] is
    TAB, LF, VT, FF, CR and SPACE, the letters of [toLowerCase] are A-Z). *)

Definition isWhiteSpace (c : ascii) : bool :=
  match c with
  | "009"%char | "010"%char | "011"%char | "012"%char | "013"%char
  | " "%char => true
  | _ => false
  end.

Fixpoint trimStart (s : string) : string :=
  match s with
  | String c r => if isWhiteSpace c then trimStart r else s
  | EmptyString => EmptyString
  end.

Fixpoint trimEnd (s : string) : string :=
  match s with
  | String c r =>
      match trimEnd r with
      | EmptyString => if isWhiteSpace c then EmptyString else String c EmptyString
      | r' => String c r'
      end
  | EmptyString => EmptyString
  end.

Definition trim (s : string) : string := trimEnd (trimStart s).

Definition lowerChar (c : ascii) : ascii :=
  let n := N_of_ascii c in
  if ((65 <=? n) && (n <=? 90))%N then ascii_of_N (n + 32) else c.

Fixpoint toLowerCase (s : string) : string :=
  match s with
  | String c r => String (lowerChar c) (toLowerCase r)
  | EmptyString => EmptyString
  end.

Definition digit (c : ascii) : option Z :=
  let n := N_of_ascii c in
  if ((48 <=? n) && (n <=? 57))%N then Some (Z.of_N (n - 48)) else None.

(** The longest prefix of decimal digits, read as a number; [None] when the
    string does not start with a digit. *)
Fixpoint digits (acc : option Z) (s : string) : option Z :=
  match s with
  | String c r =>
      match digit c with
      | Some d => digits (Some (10 * default 0%Z acc + d)%Z) r
      | None => acc
      end
  | EmptyString => acc
  end.

(** [parseInt(s, 10)]: leading white space, an optional sign, then digits;
    NaN when there is no digit. *)
Definition parseInt (s : string) : number :=
  let '(sign, rest) :=
    match trimStart s with
    | String "-"%char r => ((-1)%Z, r)
    | String "+"%char r => (1%Z, r)
    | t => (1%Z, t)
    end in
  match digits None rest with
  | Some n => Num (inject_Z (sign * n))
  | None => NaN
  end.

(** ** Built-ins taken as given

    [JSON.parse] ([None] when it throws a SyntaxError) and the conversion
    [String(v)] of a value that is not a string. *)
Class Builtins : Type := {
  JSON_parse : string -> option value;
  String_of : value -> string
}.

(** ** Gateway calls

    Every access to the backend is a chain of method calls that starts at
    [mockSupabase.from(table)]; the chain is kept as data, so that a gateway
    decides what each call of the chain does. *)

Inductive call : Type :=
| dot_select (columns : string)
| dot_eq (column : string) (v : value)
| dot_single
| dot_maybeSingle
| dot_limit (count : Z)
| dot_order (column : string) (options : value)
| dot_insert (data : value)
| dot_update (data : value)
| dot_upsert (data : value) (options : value).

(** A request to the gateway object: [from(table)] followed by its chain,
    or [auth.getUser()]. *)
Inductive Query : Type :=
| from (table : string) (calls : list call)
| auth_getUser.

Inductive exn : Type :=
| TypeError (message : string)
| SyntaxError (message : string)
| JsError (message : string).

(** What an awaited chain gives: the object that is destructured into
    [{ data, error }] (a member the object does not have is undefined), or
    an exception thrown at the call or by the rejected promise. *)
Record Reply : Type := { data : value; error : value }.

Inductive Outcome : Type :=
| Fulfilled (r : Reply)
| Rejected (e : exn).

(** ** Programs

    An async function is a tree of the effects it performs: gateway chains,
    readings of the clock ([new Date().toISOString()]), console messages and
    reads of the module-level [mockResponsesStorage]; [Throw] is an
    exception on its way to the enclosing [catch]. *)

Inductive level : Type := console_error | console_warn.

Inductive Prog (A : Type) : Type :=
| Ret (a : A)
| Throw (e : exn)
| Call (q : Query) (k : Outcome -> Prog A)
| Now (k : string -> Prog A)
| Console (l : level) (msg : string) (k : Prog A)
| ReadStorage (k : object -> Prog A).

Arguments Ret {A} a.
Arguments Throw {A} e.
Arguments Call {A} q k.
Arguments Now {A} k.
Arguments Console {A} l msg k.
Arguments ReadStorage {A} k.

Fixpoint bind {A B : Type} (p : Prog A) (f : A -> Prog B) : Prog B :=
  match p with
  | Ret a => f a
  | Throw e => Throw e
  | Call q k => Call q (fun o => bind (k o) f)
  | Now k => Now (fun t => bind (k t) f)
  | Console l m k => Console l m (bind k f)
  | ReadStorage k => ReadStorage (fun s => bind (k s) f)
  end.

#[global] Instance Prog_ret : MRet Prog := @Ret.
#[global] Instance Prog_bind : MBind Prog := fun A B f p => bind p f.

(** [try { p } catch (e) { h e }] *)
Fixpoint try_catch {A : Type} (p : Prog A) (h : exn -> Prog A) : Prog A :=
  match p with
  | Ret a => Ret a
  | Throw e => h e
  | Call q k => Call q (fun o => try_catch (k o) h)
  | Now k => Now (fun t => try_catch (k t) h)
  | Console l m k => Console l m (try_catch k h)
  | ReadStorage k => ReadStorage (fun s => try_catch (k s) h)
  end.

(** [await chain]: a rejection is thrown at the await. *)
Definition await (q : Query) : Prog Reply :=
  Call q (fun o => match o with Fulfilled r => Ret r | Rejected e => Throw e end).

Definition date_now : Prog string := Now Ret.
Definition log (l : level) (msg : string) : Prog unit := Console l msg (Ret tt).

(** ** Environments and runs *)

(** An environment answers the gateway chains, tells the time and holds
    [mockResponsesStorage]. *)
Record Env (W : Type) : Type := {
  send : Query -> W -> Outcome * W;
  now : W -> string;
  responsesStorage : W -> object
}.

Arguments send {W} _ _ _.
Arguments now {W} _ _.
Arguments responsesStorage {W} _ _.

Inductive entry : Type :=
| Sent (q : Query) (o : Outcome)
| Logged (l : level) (msg : string).

Inductive Result (A : Type) : Type :=
| Returned (a : A)
| Threw (e : exn).

Arguments Returned {A} a.
Arguments Threw {A} e.

Record Ran (W A : Type) : Type := {
  trace : list entry;
  world : W;
  result : Result A
}.

Arguments trace {W A} _.
Arguments world {W A} _.
Arguments result {W A} _.

Definition logged {W A} (e : entry) (r : Ran W A) : Ran W A :=
  {| trace := e :: trace r; world := world r; result := result r |}.

Fixpoint run {W A : Type} (E : Env W) (p : Prog A) (w : W) : Ran W A :=
  match p with
  | Ret a => {| trace := []; world := w; result := Returned a |}
  | Throw e => {| trace := []; world := w; result := Threw e |}
  | Call q k =>
      let '(o, w') := send E q w in
      logged (Sent q o) (run E (k o) w')
  | Now k => run E (k (now E w)) w
  | Console l m k => logged (Logged l m) (run E k w)
  | ReadStorage k => run E (k (responsesStorage E w)) w
  end.

(** ** Mock data ([mocks/mockAssignment.ts]) *)

Inductive QuestionType : Type :=
| multiple_choice | short_answer | long_answer | tickbox | grid.

Definition QuestionType_string (t : QuestionType) : string :=
  match t with
  | multiple_choice => "multiple-choice"
  | short_answer => "short-answer"
  | long_answer => "long-answer"
  | tickbox => "tickbox"
  | grid => "grid"
  end.

Module HomeworkQuestion.
(** Optional members are values; an absent one is undefined. *)
Record t : Type := {
  id : string;
  assignment_id : number;
  question_type : QuestionType;
  question_text : string;
  options : value;
  correct_answer : value;
  sample_answer : value;
  image_url : value;
  image_urls : value;
  question_order : number;
  points : number;
  context_text : value;
  context_image_url : value;
  created_at : string;
  updated_at : string
}.

Definition to_value (q : t) : value :=
  VObj (list_to_map [
    ("id", VStr (id q));
    ("assignment_id", VNum (assignment_id q));
    ("question_type", VStr (QuestionType_string (question_type q)));
    ("question_text", VStr (question_text q));
    ("options", options q);
    ("correct_answer", correct_answer q);
    ("sample_answer", sample_answer q);
    ("image_url", image_url q);
    ("image_urls", image_urls q);
    ("question_order", VNum (question_order q));
    ("points", VNum (points q));
    ("context_text", context_text q);
    ("context_image_url", context_image_url q);
    ("created_at", VStr (created_at q));
    ("updated_at", VStr (updated_at q))]).
End HomeworkQuestion.

Definition int (z : Z) : number := Num (inject_Z z).

Definition optionWithImage (text : string) : value :=
  VObj (list_to_map [("text", VStr text); ("image_url", VUndefined)]).

Definition mockQuestion1 : HomeworkQuestion.t := {|
  HomeworkQuestion.id := "q1-uuid-mock";
  HomeworkQuestion.assignment_id := int 1;
  HomeworkQuestion.question_type := multiple_choice;
  HomeworkQuestion.question_text := "What do plants need to grow?";
  HomeworkQuestion.options :=
    VArr [optionWithImage "Water and sunlight"; optionWithImage "Only water";
          optionWithImage "Only soil"; optionWithImage "Nothing"];
  HomeworkQuestion.correct_answer := VStr "Water and sunlight";
  HomeworkQuestion.sample_answer := VUndefined;
  HomeworkQuestion.image_url :=
    VStr "https://images.unsplash.com/photo-1416339442236-8ceb164046f8?w=500";
  HomeworkQuestion.image_urls := VArr [];
  HomeworkQuestion.question_order := int 0;
  HomeworkQuestion.points := int 5;
  HomeworkQuestion.context_text := VUndefined;
  HomeworkQuestion.context_image_url := VUndefined;
  HomeworkQuestion.created_at := "2025-09-01T10:00:00Z";
  HomeworkQuestion.updated_at := "2025-09-01T10:00:00Z"
|}.

Definition mockQuestion2 : HomeworkQuestion.t := {|
  HomeworkQuestion.id := "q2-uuid-mock";
  HomeworkQuestion.assignment_id := int 1;
  HomeworkQuestion.question_type := short_answer;
  HomeworkQuestion.question_text := "Name one animal that lives in water.";
  HomeworkQuestion.options := VUndefined;
  HomeworkQuestion.correct_answer := VStr "Fish";
  HomeworkQuestion.sample_answer := VStr "Examples: Fish, Dolphin, Whale, Octopus";
  HomeworkQuestion.image_url := VUndefined;
  HomeworkQuestion.image_urls := VArr [];
  HomeworkQuestion.question_order := int 1;
  HomeworkQuestion.points := int 5;
  HomeworkQuestion.context_text := VUndefined;
  HomeworkQuestion.context_image_url := VUndefined;
  HomeworkQuestion.created_at := "2025-09-01T10:00:00Z";
  HomeworkQuestion.updated_at := "2025-09-01T10:00:00Z"
|}.

Definition mockQuestion3 : HomeworkQuestion.t := {|
  HomeworkQuestion.id := "q3-uuid-mock";
  HomeworkQuestion.assignment_id := int 1;
  HomeworkQuestion.question_type := tickbox;
  HomeworkQuestion.question_text := "Select all living things from the list below:";
  HomeworkQuestion.options :=
    VArr [VStr "Tree"; VStr "Rock"; VStr "Dog"; VStr "Car"; VStr "Flower"; VStr "Cloud"];
  HomeworkQuestion.correct_answer := VArr [VStr "Tree"; VStr "Dog"; VStr "Flower"];
  HomeworkQuestion.sample_answer := VUndefined;
  HomeworkQuestion.image_url := VUndefined;
  HomeworkQuestion.image_urls := VArr [];
  HomeworkQuestion.question_order := int 2;
  HomeworkQuestion.points := int 10;
  HomeworkQuestion.context_text := VUndefined;
  HomeworkQuestion.context_image_url := VUndefined;
  HomeworkQuestion.created_at := "2025-09-01T10:00:00Z";
  HomeworkQuestion.updated_at := "2025-09-01T10:00:00Z"
|}.

Module AssignmentWithQuestions.
Record t : Type := {
  id : number;
  title : string;
  description : value;
  due_date : value;
  class_code : string;
  questions : list HomeworkQuestion.t;
  total_points : number
}.

Definition to_value (a : t) : value :=
  VObj (list_to_map [
    ("id", VNum (id a));
    ("title", VStr (title a));
    ("description", description a);
    ("due_date", due_date a);
    ("class_code", VStr (class_code a));
    ("total_points", VNum (total_points a));
    ("questions", VArr (map HomeworkQuestion.to_value (questions a)))]).
End AssignmentWithQuestions.

Definition mockAssignment : AssignmentWithQuestions.t := {|
  AssignmentWithQuestions.id := int 1;
  AssignmentWithQuestions.title := "Science Quiz - Living Things";
  AssignmentWithQuestions.description :=
    VStr "Complete all questions about living organisms and their characteristics. Take your time and read each question carefully.";
  AssignmentWithQuestions.due_date := VStr "2025-10-15T23:59:59Z";
  AssignmentWithQuestions.class_code := "SCI-101";
  AssignmentWithQuestions.total_points := int 20;
  AssignmentWithQuestions.questions := [mockQuestion1; mockQuestion2; mockQuestion3]
|}.

(** A session is the object the gateway hands back, whatever its members. *)
Definition mockSession : object :=
  list_to_map [
    ("id", VStr "session-123-uuid");
    ("student_id", VStr "student-user-123");
    ("assignment_id", VNum (int 1));
    ("current_question_index", VNum (int 0));
    ("is_completed", VBool false);
    ("started_at", VStr "2025-09-30T10:00:00Z");
    ("completed_at", VUndefined);
    ("last_activity", VStr "2025-09-30T10:15:00Z");
    ("created_at", VStr "2025-09-30T10:00:00Z");
    ("updated_at", VStr "2025-09-30T10:15:00Z")].

Definition mockUser : object :=
  list_to_map [
    ("id", VStr "student-user-123");
    ("email", VStr "student@example.com");
    ("role", VStr "student")].

(** ** The mock gateway ([mocks/mockDatabase.ts])

    [simulateNetworkDelay] and [simulateNetworkFailure] are defined there but
    every call to them is commented out: the mock answers at once and never
    fails on its own. *)

Section Mock.
Context `{Builtins}.

(** The objects reachable from [mockSupabase.from(table)], by the methods
    each of them has. *)
Inductive builder : Type :=
| queryBuilder (table : string)
| selectBuilder (table : string)
| eqBuilder (table : string)
| limitBuilder
| orderBuilder
| orderLimitBuilder
| insertBuilder (table : string) (data : value)
| insertSelectBuilder (table : string) (data : value)
| updateBuilder
| promise (o : Outcome).

Definition call_name (c : call) : string :=
  match c with
  | dot_select _ => "select"
  | dot_eq _ _ => "eq"
  | dot_single => "single"
  | dot_maybeSingle => "maybeSingle"
  | dot_limit _ => "limit"
  | dot_order _ _ => "order"
  | dot_insert _ => "insert"
  | dot_update _ => "update"
  | dot_upsert _ _ => "upsert"
  end.

(** Calling a member the object does not have. *)
Definition not_a_function (c : call) : exn :=
  TypeError (call_name c ++ " is not a function").

Definition ok (d : value) : Outcome := Fulfilled {| data := d; error := VNull |}.

(** The own enumerable properties copied by [{...v}]. *)
Definition spread (v : value) : object :=
  match v with
  | VObj o => o
  | VArr l => list_to_map (imap (fun i x => (pretty i, x)) l)
  | VStr s =>
      list_to_map (imap (fun i c => (pretty i, VStr (String c EmptyString)))
                        (list_ascii_of_string s))
  | _ => ∅
  end.

Definition to_property_key (v : value) : string :=
  match v with VStr s => s | _ => String_of v end.

(** [o[k] = v] on an object created by a literal: the name [__proto__] is
    the accessor of [Object.prototype], which ignores a value that is not
    an object (giving it an object is not modelled). *)
Definition assign (k : string) (v : value) (o : object) : object :=
  if String.eqb k "__proto__" then o else <[k:=v]> o.

(** The body of [upsert]; reading a member of null or undefined throws
    inside the async function. *)
Definition mock_upsert (table : string) (d : value) (s : object) : Outcome * object :=
  if String.eqb table "homework_responses" then
    match d with
    | VUndefined | VNull =>
        (Rejected (TypeError "Cannot read properties of undefined"), s)
    | _ => (Fulfilled {| data := VUndefined; error := VNull |},
            assign (to_property_key (get d "question_id")) (get d "response_text") s)
    end
  else (Fulfilled {| data := VUndefined; error := VNull |}, s).

Definition invoke (b : builder) (c : call) (s : object) : (builder + exn) * object :=
  match b, c with
  | queryBuilder t, dot_select _ => (inl (selectBuilder t), s)
  | queryBuilder t, dot_insert d => (inl (insertBuilder t d), s)
  | queryBuilder t, dot_update _ => (inl updateBuilder, s)
  | queryBuilder t, dot_upsert d _ =>
      let '(o, s') := mock_upsert t d s in (inl (promise o), s')
  | selectBuilder t, dot_eq _ _ => (inl (eqBuilder t), s)
  | eqBuilder t, dot_single =>
      (inl (promise
         (if String.eqb t "homework_sessions" then ok (VObj mockSession)
          else if String.eqb t "assignments"
               then ok (AssignmentWithQuestions.to_value mockAssignment)
          else Fulfilled {| data := VNull;
                            error := VObj {["message" := VStr "Not found"]} |})), s)
  | eqBuilder t, dot_maybeSingle =>
      (inl (promise
         (if String.eqb t "homework_sessions" then ok (VObj mockSession)
          else ok VNull)), s)
  | eqBuilder t, dot_limit _ => (inl limitBuilder, s)
  | eqBuilder t, dot_order _ _ => (inl orderBuilder, s)
  | limitBuilder, dot_single => (inl (promise (ok (VObj mockSession))), s)
  | orderBuilder, dot_limit _ => (inl orderLimitBuilder, s)
  | orderLimitBuilder, dot_single => (inl (promise (ok (VObj mockSession))), s)
  | insertBuilder t d, dot_select _ => (inl (insertSelectBuilder t d), s)
  | insertSelectBuilder t d, dot_single =>
      (inl (promise
         (if String.eqb t "homework_sessions"
          then ok (VObj (spread d ∪ mockSession))
          else ok (VObj (spread d ∪ {["id" := VStr "new-id"]})))), s)
  | updateBuilder, dot_eq _ _ =>
      (inl (promise (Fulfilled {| data := VUndefined; error := VNull |})), s)
  | _, _ => (inr (not_a_function c), s)
  end.

(** What awaiting the last object of the chain gives: the settled promise,
    or the object itself when it is not a promise (it has no [data] and no
    [error] member). *)
Definition settle (b : builder) : Outcome :=
  match b with
  | promise o => o
  | _ => Fulfilled {| data := VUndefined; error := VUndefined |}
  end.

Fixpoint chain (b : builder) (cs : list call) (s : object) : Outcome * object :=
  match cs with
  | [] => (settle b, s)
  | c :: cs' =>
      match invoke b c s with
      | (inl b', s') => chain b' cs' s'
      | (inr e, s') => (Rejected e, s')
      end
  end.

Definition mockSupabase (q : Query) (s : object) : Outcome * object :=
  match q with
  | from t cs => chain (queryBuilder t) cs s
  | auth_getUser => (ok (VObj {["user" := VObj mockUser]}), s)
  end.

(** The state of the running mock: the responses object and the clock. *)
Record MockWorld : Type := {
  mockResponsesStorage : object;
  clock : string
}.

Definition mock : Env MockWorld := {|
  send q w :=
    let '(o, s) := mockSupabase q (mockResponsesStorage w) in
    (o, {| mockResponsesStorage := s; clock := clock w |});
  now := clock;
  responsesStorage := mockResponsesStorage
|}.
End Mock.

(** ** The homework utilities ([lib/homeworkUtils.ts]) *)

(** An object literal. *)
Definition obj (members : list (string * value)) : value :=
  VObj (list_to_map members).

(** [v !== s] for a string literal [s] is [negb (is_string v s)]. *)
Definition is_string (v : value) (s : string) : bool :=
  match v with VStr t => String.eqb t s | _ => false end.

(** The type [number | string] of the [assignmentId] arguments.  The
    [studentId] and [sessionId] arguments are declared as strings and are
    handed members of gateway objects ([user.id], [session.id]): they are
    values here, and a [sessionId] left out is undefined. *)
Inductive AssignmentId : Type :=
| id_number (n : number)
| id_string (s : string).

(** [typeof assignmentId === 'string' ? parseInt(assignmentId, 10) : assignmentId] *)
Definition assignmentIdNum (assignmentId : AssignmentId) : number :=
  match assignmentId with
  | id_string s => parseInt s
  | id_number n => n
  end.

Definition getOptionText `{Builtins} (option : value) : string :=
  match option with
  | VStr s => s
  | VObj _ | VArr _ =>
      match get option "text" with
      | VStr text => text
      | _ => String_of option
      end
  | _ => String_of option
  end.

Definition getHomeworkAssignment (assignmentId : AssignmentId)
  : Prog (option AssignmentWithQuestions.t) :=
  try_catch
    (let n := assignmentIdNum assignmentId in
     if isNaN n then
       log console_error "Invalid assignment ID:";; mret None
     else
       r ← await (from "assignments" [dot_select "*"; dot_eq "id" (VNum n); dot_single]);
       if truthy (error r) then
         log console_error "Assignment query error:";; mret None
       else if negb (truthy (data r)) then
         log console_error "No assignment found with ID:";; mret None
       else mret (Some mockAssignment))
    (fun _ => log console_error "Error in getHomeworkAssignment:";; mret None).

(** The three chains of [getOrCreateHomeworkSession]. *)
Definition existingSession_query (studentId : value) (n : number) : Query :=
  from "homework_sessions"
    [dot_select "*"; dot_eq "student_id" studentId;
     dot_eq "assignment_id" (VNum n); dot_maybeSingle].

Definition lastActivity_query (existingSession : value) (t : string) : Query :=
  from "homework_sessions"
    [dot_update (obj [("last_activity", VStr t)]);
     dot_eq "id" (get existingSession "id")].

Definition newSession_query (studentId : value) (n : number) (t1 t2 : string) : Query :=
  from "homework_sessions"
    [dot_insert (obj [("student_id", studentId);
                      ("assignment_id", VNum n);
                      ("current_question_index", VNum (int 0));
                      ("is_completed", VBool false);
                      ("started_at", VStr t1);
                      ("last_activity", VStr t2)]);
     dot_select "*"; dot_single].

Definition getOrCreateHomeworkSession (studentId : value) (assignmentId : AssignmentId)
  : Prog value :=
  try_catch
    (let n := assignmentIdNum assignmentId in
     if isNaN n then
       log console_error "Invalid assignment ID in session:";; mret VNull
     else
       (* Try to get existing session *)
       r ← await (existingSession_query studentId n);
       let existingSession := data r in
       let sessionError := error r in
       if truthy existingSession && negb (truthy sessionError) then
         (* Update last activity *)
         t ← date_now;
         await (lastActivity_query existingSession t);;
         mret existingSession
       else
         (if truthy sessionError && negb (is_string (get sessionError "code") "PGRST116")
          then log console_error "Error fetching existing session:"
          else mret tt);;
         (* Create new session *)
         t1 ← date_now;
         t2 ← date_now;
         c ← await (newSession_query studentId n t1 t2);
         if truthy (error c) then
           log console_error "Error creating homework session:";; mret VNull
         else mret (data c))
    (fun _ => log console_error "Error in getOrCreateHomeworkSession:";; mret VNull).

(** *** Auto-grading *)

(** [new Set(v)]: the elements, or [None] when [v] is not iterable. *)
Definition new_Set (v : value) : option (list value) :=
  match v with
  | VArr l => Some l
  | VStr s => Some (map (fun c => VStr (String c EmptyString)) (list_ascii_of_string s))
  | VUndefined | VNull => Some []
  | _ => None
  end.

Definition Set_has (s : list value) (x : value) : bool :=
  existsb (sameValueZero x) s.

(** [v.every(p)]: [None] when [v] has no [every] method. *)
Definition every (v : value) (p : value -> bool) : option bool :=
  match v with
  | VArr l => Some (forallb p l)
  | _ => None
  end.

(** The correct answers of a tickbox question: the array itself, the parse
    of a string ([correct_answer || '[]']), or nothing. *)
Definition correctAnswers `{Builtins} (question : HomeworkQuestion.t) : option value :=
  match HomeworkQuestion.correct_answer question with
  | VArr l => Some (VArr l)
  | VStr s => JSON_parse (if String.eqb s "" then "[]" else s)
  | _ => Some (VArr [])
  end.

(** The [try] block of the tickbox branch; [None] when it throws. *)
Definition gradeTickbox `{Builtins} (question : HomeworkQuestion.t) (responseText : string)
  : option bool :=
  studentAnswers ← JSON_parse responseText;
  correctAnswers ← correctAnswers question;
  studentSet ← new_Set studentAnswers;
  correctSet ← new_Set correctAnswers;
  hasAllCorrect ← every correctAnswers (fun answer => Set_has studentSet answer);
  hasNoIncorrect ← every studentAnswers (fun answer => Set_has correctSet answer);
  Some (hasAllCorrect && hasNoIncorrect).

(** [isCorrect] (a boolean, or undefined) and [pointsEarned]. *)
Definition grade `{Builtins} (question : HomeworkQuestion.t) (responseText : string)
  : Prog (value * number) :=
  match HomeworkQuestion.question_type question with
  | multiple_choice =>
      let correctAnswer :=
        match HomeworkQuestion.correct_answer question with
        | VStr s => s
        | _ => ""
        end in
      let isCorrect :=
        String.eqb (toLowerCase (trim responseText)) (toLowerCase (trim correctAnswer)) in
      mret (VBool isCorrect, if isCorrect then HomeworkQuestion.points question else int 0)
  | tickbox =>
      match gradeTickbox question responseText with
      | Some isCorrect =>
          mret (VBool isCorrect,
                if isCorrect then HomeworkQuestion.points question else int 0)
      | None =>
          log console_error "Error auto-grading tickbox question:";;
          mret (VBool false, int 0)
      end
  | _ => mret (VUndefined, int 0)
  end.

Definition onConflict (columns : string) : value := obj [("onConflict", VStr columns)].

Definition responseData (studentId : value) (questionId : string) (n : number)
    (responseText : string) (isCorrect : value) (pointsEarned : number)
    (sessionId : value) : value :=
  let d : object :=
    list_to_map [("student_id", studentId);
                 ("question_id", VStr questionId);
                 ("assignment_id", VNum n);
                 ("response_text", VStr responseText);
                 ("is_correct", isCorrect);
                 ("points_earned", VNum pointsEarned)] in
  if truthy sessionId then VObj (<["session_id" := sessionId]> d) else VObj d.

Definition response_upsert (d : value) : Query :=
  from "homework_responses"
    [dot_upsert d (onConflict "student_id,question_id,assignment_id")].

Definition saveHomeworkResponse `{Builtins} (studentId : value) (questionId : string)
    (assignmentId : AssignmentId) (responseText : string)
    (question : HomeworkQuestion.t) (sessionId : value) : Prog bool :=
  try_catch
    (let n := assignmentIdNum assignmentId in
     if isNaN n then
       log console_error "Invalid assignment ID in response:";; mret false
     else
       (* Auto-grade multiple-choice and tickbox questions *)
       '(isCorrect, pointsEarned) ← grade question responseText;
       (* Save to mock database *)
       r ← await (response_upsert (responseData studentId questionId n responseText
                                                isCorrect pointsEarned sessionId));
       if truthy (error r) then
         log console_error "Error saving homework response:";; mret false
       else mret true)
    (fun _ => log console_error "Error in saveHomeworkResponse:";; mret false).

Definition updateData (currentQuestionIndex : number) (isCompleted : bool)
    (t1 t2 : string) : value :=
  let d : object :=
    list_to_map [("current_question_index", VNum currentQuestionIndex);
                 ("last_activity", VStr t1)] in
  if isCompleted
  then VObj (<["completed_at" := VStr t2]> (<["is_completed" := VBool true]> d))
  else VObj d.

Definition progress_query (sessionId : value) (d : value) : Query :=
  from "homework_sessions" [dot_update d; dot_eq "id" sessionId].

Definition updateHomeworkSessionProgress (sessionId : value)
    (currentQuestionIndex : number) (isCompleted : bool) : Prog bool :=
  try_catch
    (t1 ← date_now;
     t2 ← (if isCompleted then date_now else mret t1);
     r ← await (progress_query sessionId
                  (updateData currentQuestionIndex isCompleted t1 t2));
     if truthy (error r) then
       log console_error "Error updating homework session:";; mret false
     else mret true)
    (fun _ => log console_error "Error in updateHomeworkSessionProgress:";; mret false).

(** The arguments are not used: the result is a copy of the whole of
    [mockResponsesStorage]. *)
Definition getStudentHomeworkResponsesMap (studentId : value)
    (assignmentId : AssignmentId) : Prog object :=
  try_catch
    (ReadStorage (fun mockResponsesStorage => mret mockResponsesStorage))
    (fun _ => log console_error "Error in getStudentHomeworkResponsesMap:";; mret ∅).

(** The two chains of [submitHomeworkAssignment]. *)
Definition completeSession_query (studentId : value) (n : number) (t : string) : Query :=
  from "homework_sessions"
    [dot_update (obj [("is_completed", VBool true); ("completed_at", VStr t)]);
     dot_eq "student_id" studentId;
     dot_eq "assignment_id" (VNum n)].

Definition submission_upsert (studentId : value) (n : number) (t : string) : Query :=
  from "submissions"
    [dot_upsert (obj [("student_id", studentId);
                      ("assignment_id", VNum n);
                      ("score", VNum (Num (3 # 4)));
                      ("submitted_at", VStr t)])
                (onConflict "student_id,assignment_id")].

Definition submitHomeworkAssignment (studentId : value) (assignmentId : AssignmentId)
  : Prog bool :=
  try_catch
    (let n := assignmentIdNum assignmentId in
     if isNaN n then
       log console_error "Invalid assignment ID in submission:";; mret false
     else
       (* Mark session as completed *)
       t ← date_now;
       s ← await (completeSession_query studentId n t);
       (* Continue anyway - this is a non-critical error *)
       (if truthy (error s)
        then log console_error "Error completing homework session:"
        else mret tt);;
       (* Create submission record *)
       t' ← date_now;
       r ← await (submission_upsert studentId n t');
       if truthy (error r) then
         log console_error "Error creating submission record:";; mret false
       else mret true)
    (fun _ => log console_error "Error in submitHomeworkAssignment:";; mret false).

(** ** The answer handler of the assignment page
    ([pages/student/assignment/[id].tsx]) *)

Module Page.
(** The [useState] cells of [AssignmentTaker]. *)
Record State : Type := {
  assignment : option AssignmentWithQuestions.t;
  session : value;
  currentQuestion : nat;
  answers : object;
  isSubmitting : bool;
  isSubmitted : bool;
  loading : bool;
  error : option string
}.

Definition setAnswers (a : object) (st : State) : State :=
  {| assignment := assignment st; session := session st;
     currentQuestion := currentQuestion st; answers := a;
     isSubmitting := isSubmitting st; isSubmitted := isSubmitted st;
     loading := loading st; error := error st |}.

(** [assignment?.questions[currentQuestion]] *)
Definition question (st : State) : option HomeworkQuestion.t :=
  a ← assignment st; AssignmentWithQuestions.questions a !! currentQuestion st.

(** Reading a member in a destructuring pattern throws on null and
    undefined. *)
Definition member (v : value) (k : string) : Prog value :=
  match v with
  | VUndefined | VNull => Throw (TypeError "Cannot destructure property")
  | _ => mret (get v k)
  end.

Definition handleAnswer `{Builtins} (st : State) (option : value) : Prog State :=
  match question st, assignment st, truthy (session st) with
  | Some question, Some assignment, true =>
      let answer := getOptionText option in
      let st' :=
        setAnswers (<[HomeworkQuestion.id question := VStr answer]> (answers st)) st in
      (* Save response to database with error handling *)
      try_catch
        (r ← await auth_getUser;
         user ← member (data r) "user";
         if truthy user then
           success ← saveHomeworkResponse (get user "id")
                       (HomeworkQuestion.id question)
                       (id_number (AssignmentWithQuestions.id assignment))
                       answer question (get (session st) "id");
           if negb success then
             log console_warn "Failed to save response, continuing with local state";;
             mret st'
           else mret st'
         else mret st')
        (fun _ => log console_error "Error saving response:";; mret st')
  | _, _, _ => mret st
  end.
End Page.

(** ** Calls in flight

    An async function runs up to its next gateway call and waits there; the
    gateway answers the waiting calls in an order of its own, and the
    function goes on when its call is answered. *)

Inductive task (A : Type) : Type :=
| Waiting (q : Query) (k : Outcome -> Prog A)
| Settled (r : Result A).

Arguments Waiting {A} q k.
Arguments Settled {A} r.

(** Run a program up to its next gateway call. *)
Fixpoint advance {W A : Type} (E : Env W) (p : Prog A) (w : W) : list entry * task A :=
  match p with
  | Ret a => ([], Settled (Returned a))
  | Throw e => ([], Settled (Threw e))
  | Call q k => ([], Waiting q k)
  | Now k => advance E (k (now E w)) w
  | Console l m k => let '(t, x) := advance E k w in (Logged l m :: t, x)
  | ReadStorage k => advance E (k (responsesStorage E w)) w
  end.

Record Loop (W A : Type) : Type := {
  tasks : list (task A);
  store : W;
  history : list entry
}.

Arguments tasks {W A} _.
Arguments store {W A} _.
Arguments history {W A} _.

Inductive action (A : Type) : Type :=
| start (p : Prog A)
| answer (i : nat).

Arguments start {A} p.
Arguments answer {A} i.

Definition step {W A : Type} (E : Env W) (l : Loop W A) (a : action A) : Loop W A :=
  match a with
  | start p =>
      let '(t, x) := advance E p (store l) in
      {| tasks := tasks l ++ [x]; store := store l; history := history l ++ t |}
  | answer i =>
      match tasks l !! i with
      | Some (Waiting q k) =>
          let '(o, w') := send E q (store l) in
          let '(t, x) := advance E (k o) w' in
          {| tasks := <[i:=x]> (tasks l); store := w';
             history := history l ++ Sent q o :: t |}
      | _ => l
      end
  end.

Definition schedule {W A : Type} (E : Env W) (w : W) (acts : list (action A)) : Loop W A :=
  foldl (step E) {| tasks := []; store := w; history := [] |} acts.


(** ** Environments for concrete runs *)

(** A gateway given by a table of answers: the [n]-th request it receives is
    answered by [reply n]. *)
Record OracleWorld : Type := {
  requests : nat;
  time : string;
  stored : object
}.

Definition oracle (reply : nat -> Query -> Outcome) : Env OracleWorld := {|
  send q w := (reply (requests w) q,
               {| requests := S (requests w); time := time w; stored := stored w |});
  now := time;
  responsesStorage := stored
|}.

(** [JSON.stringify] and [JSON.parse] on arrays of strings that need no
    escape; [String] on undefined, null, booleans, NaN and integers. *)
Definition quoted (s : string) : string :=
  String "034" (s ++ String "034" EmptyString).

Definition stringify (l : list string) : string :=
  "[" ++ String.concat "," (map quoted l) ++ "]".

Fixpoint string_literal (s : string) : option (string * string) :=
  match s with
  | String c r =>
      if Ascii.eqb c "034" then Some (EmptyString, r)
      else if Ascii.eqb c "\" || (N_of_ascii c <? 32)%N then None
      else '(t, rest) ← string_literal r; Some (String c t, rest)
  | EmptyString => None
  end.

Fixpoint string_items (fuel : nat) (s : string) : option (list string) :=
  match fuel, s with
  | S fuel', String "034" r =>
      '(t, rest) ← string_literal r;
      match rest with
      | String "]" EmptyString => Some [t]
      | String "," rest' => l ← string_items fuel' rest'; Some (t :: l)
      | _ => None
      end
  | _, _ => None
  end.

Definition parse_string_array (s : string) : option value :=
  match s with
  | String "[" (String "]" EmptyString) => Some (VArr [])
  | String "[" r => l ← string_items (String.length r) r; Some (VArr (map VStr l))
  | _ => None
  end.

Definition string_of_scalar (v : value) : string :=
  match v with
  | VUndefined => "undefined"
  | VNull => "null"
  | VBool true => "true"
  | VBool false => "false"
  | VNum NaN => "NaN"
  | VNum (Num q) => pretty (Qnum q / Zpos (Qden q))%Z
  | VStr s => s
  | VArr _ | VObj _ => "[object Object]"
  end.

Definition string_arrays : Builtins := {|
  JSON_parse := parse_string_array;
  String_of := string_of_scalar
|}.

(** ** Reading traces *)

(** The requests of a trace, in the order they were sent. *)
Definition sent (t : list entry) : list Query :=
  omap (fun e => match e with Sent q _ => Some q | Logged _ _ => None end) t.

(** A gateway call that did not go through: it threw, or it came back with
    an error. *)
Definition failed (o : Outcome) : bool :=
  match o with
  | Rejected _ => true
  | Fulfilled r => truthy (error r)
  end.

(** What the console shows when the write of a response fails. *)
Definition save_failure_log (o : Outcome) : list entry :=
  match o with
  | Rejected _ => [Logged console_error "Error in saveHomeworkResponse:"]
  | Fulfilled r =>
      if truthy (error r)
      then [Logged console_error "Error saving homework response:"]
      else []
  end.

(** What [getOrCreateHomeworkSession] returns after its insert. *)
Definition created (o : Outcome) : value :=
  match o with
  | Fulfilled c => if truthy (error c) then VNull else data c
  | Rejected _ => VNull
  end.

(** What the console shows when the insert, the lookup or the submission
    write fails. *)
Definition create_failure_log (o : Outcome) : list entry :=
  match o with
  | Fulfilled c =>
      if truthy (error c)
      then [Logged console_error "Error creating homework session:"]
      else []
  | Rejected _ => [Logged console_error "Error in getOrCreateHomeworkSession:"]
  end.

Definition lookup_failure_log (r : Reply) : list entry :=
  if truthy (error r) && negb (is_string (get (error r) "code") "PGRST116")
  then [Logged console_error "Error fetching existing session:"]
  else [].

Definition submit_failure_log (o : Outcome) : list entry :=
  match o with
  | Fulfilled r =>
      if truthy (error r)
      then [Logged console_error "Error creating submission record:"]
      else []
  | Rejected _ => [Logged console_error "Error in submitHomeworkAssignment:"]
  end.

(** A request that marks a session completed, and a request that writes a
    submission record. *)
Definition is_completion (q : Query) : bool :=
  match q with
  | from t (dot_update d :: _) =>
      String.eqb t "homework_sessions" && truthy (get d "is_completed")
  | _ => false
  end.

Definition is_submission (q : Query) : bool :=
  match q with
  | from t (dot_upsert _ _ :: _) => String.eqb t "submissions"
  | _ => false
  end.

Definition failed_submission (e : entry) : bool :=
  match e with
  | Sent q o => is_submission q && failed o
  | Logged _ _ => false
  end.

(** The gateway accepted a completion write, and a submission write sent
    after it failed. *)
Fixpoint completed_before_failed_submission (t : list entry) : bool :=
  match t with
  | Sent q o :: t' =>
      (is_completion q && negb (failed o) && existsb failed_submission t')
      || completed_before_failed_submission t'
  | Logged _ _ :: t' => completed_before_failed_submission t'
  | [] => false
  end.

(** An insert of a session row. *)
Definition is_session_insert (q : Query) : bool :=
  match q with
  | from t (dot_insert _ :: _) => String.eqb t "homework_sessions"
  | _ => false
  end.



(** ** Composing runs

    The run of [p] followed by the run of what comes after it: [f] when
    [p] returns, [h] when it throws. *)

Definition after {W A B : Type} (r : Ran W A) (f : A -> W -> Ran W B)
    (h : exn -> W -> Ran W B) : Ran W B :=
  let r' := match result r with
            | Returned a => f a (world r)
            | Threw e => h e (world r)
            end in
  {| trace := trace r ++ trace r'; world := world r'; result := result r' |}.

Definition rethrow {W B : Type} (e : exn) (w : W) : Ran W B :=
  {| trace := []; world := w; result := Threw e |}.

Definition return_ {W A : Type} (a : A) (w : W) : Ran W A :=
  {| trace := []; world := w; result := Returned a |}.

(** ** Gateways, worlds and calls for concrete runs

    The mock never fails and keeps no session; the gateways below answer
    the same chains as a backend with failures or with rows of its own
    would, each by a table of replies. *)

(** The error [simulateNetworkFailure] throws. *)
Definition network_timeout : Outcome :=
  Rejected (JsError "Network timeout - simulated failure").

(** A gateway whose tables time out on the requests numbered below [k] and
    accept everything afterwards; [auth.getUser()] always answers. *)
Definition down_until (k : nat) (n : nat) (q : Query) : Outcome :=
  match q with
  | auth_getUser => ok (VObj {["user" := VObj mockUser]})
  | from _ _ => if (n <? k)%nat then network_timeout else ok VUndefined
  end.

(** A gateway whose submissions table times out; the other tables accept
    what they are sent. *)
Definition submissions_down (n : nat) (q : Query) : Outcome :=
  match q with
  | from t _ => if String.eqb t "submissions" then network_timeout else ok VUndefined
  | auth_getUser => ok (VObj {["user" := VObj mockUser]})
  end.

(** A lookup that came back with an error instead of a row. *)
Definition network_error : Reply :=
  {| data := VNull; error := obj [("message", VStr "Network timeout")] |}.

(** A gateway that holds the mock session for the student, and whose first
    request comes back with a network error; an insert gives the new row an
    id of its own. *)
Definition lookup_fails_once (n : nat) (q : Query) : Outcome :=
  match q with
  | from _ (dot_select _ :: _) =>
      if (n =? 0)%nat then Fulfilled network_error else ok (VObj mockSession)
  | from _ (dot_insert d :: _) =>
      ok (VObj (<["id" := VStr ("session-" ++ pretty n)]> (spread d)))
  | _ => ok VUndefined
  end.


(** Worlds to start from. *)
Definition midnight : OracleWorld :=
  {| requests := 0; time := "2025-10-01T00:00:00.000Z"; stored := ∅ |}.

Definition one_request_later : OracleWorld :=
  {| requests := 1; time := "2025-10-01T00:00:00.000Z"; stored := ∅ |}.

Definition fresh : MockWorld :=
  {| mockResponsesStorage := ∅; clock := "2025-10-01T00:00:00.000Z" |}.

Definition student : value := VStr "student-user-123".
Definition session_id : value := VStr "session-123-uuid".

(** The student answers question 1 with [text]. *)
Definition answer_q1 (text : string) : Prog bool :=
  saveHomeworkResponse (H:=string_arrays) student "q1-uuid-mock" (id_number (int 1))
                       text mockQuestion1 session_id.

(** The page loads the session of the student for assignment 1. *)
Definition first_load : Prog value :=
  getOrCreateHomeworkSession student (id_string "1").

(** The page once loaded, on question 1. *)
Definition answering_page : Page.State := {|
  Page.assignment := Some mockAssignment;
  Page.session := VObj mockSession;
  Page.currentQuestion := 0;
  Page.answers := ∅;
  Page.isSubmitting := false;
  Page.isSubmitted := false;
  Page.loading := false;
  Page.error := None
|}.

(** * More of the code

    The rest of [lib/homeworkUtils.ts], the other handlers of the
    assignment page and the image component it renders. *)

(** ** Option helpers ([lib/homeworkUtils.ts]) *)

Definition is_array (v : value) : bool :=
  match v with VArr _ => true | _ => false end.

(** [typeof v === 'object' && v !== null] *)
Definition is_object (v : value) : bool :=
  match v with VObj _ | VArr _ => true | _ => false end.

Definition isOptionWithImage (option : value) : bool :=
  is_object option && match get option "text" with VStr _ => true | _ => false end.

Definition isStringOption (option : value) : bool :=
  match option with VStr _ => true | _ => false end.

Definition isGridQuestionOptions (options : value) : bool :=
  is_object options && is_array (get options "rows") && is_array (get options "columns").

(** The four beginnings [getOptionImageUrl] accepts. *)
Definition image_url_accepted (url : string) : bool :=
  String.prefix "http://" url || String.prefix "https://" url
  || String.prefix "/" url || String.prefix "data:" url.

(** [image_url.trim()] throws when the member is set to something that is
    not a string. *)
Definition getOptionImageUrl (option : value) : Prog value :=
  if isOptionWithImage option && truthy (get option "image_url") then
    match get option "image_url" with
    | VStr image_url =>
        let url := trim image_url in
        if image_url_accepted url then mret (VStr url)
        else log console_warn "Invalid image URL format:";; mret VUndefined
    | _ => Throw (TypeError "option.image_url.trim is not a function")
    end
  else mret VUndefined.

Definition canStudentAccessAssignment (studentId : value) (assignmentId : AssignmentId)
  : Prog bool :=
  mret true.

(** ** The other handlers of the assignment page *)

(** [JSON.stringify], taken as given like [JSON.parse]. *)
Class Stringify : Type := { JSON_stringify : value -> string }.

(** What a handler does besides setting state: navigation, a navigation
    on a timer, an analytics event ([trackFeatureClickAuto], which logs
    it), and the value handed to [setCurrentQuestion]. *)
Inductive ui : Type :=
| router_push (route : string)
| router_push_after (ms : Z) (route : string)
| tracked (featureName : string)
| cursor_set (v : value).

Definition setAssignment (a : option AssignmentWithQuestions.t) (st : Page.State)
  : Page.State :=
  {| Page.assignment := a; Page.session := Page.session st;
     Page.currentQuestion := Page.currentQuestion st; Page.answers := Page.answers st;
     Page.isSubmitting := Page.isSubmitting st; Page.isSubmitted := Page.isSubmitted st;
     Page.loading := Page.loading st; Page.error := Page.error st |}.

Definition setSession (s : value) (st : Page.State) : Page.State :=
  {| Page.assignment := Page.assignment st; Page.session := s;
     Page.currentQuestion := Page.currentQuestion st; Page.answers := Page.answers st;
     Page.isSubmitting := Page.isSubmitting st; Page.isSubmitted := Page.isSubmitted st;
     Page.loading := Page.loading st; Page.error := Page.error st |}.

Definition setCurrentQuestion (n : nat) (st : Page.State) : Page.State :=
  {| Page.assignment := Page.assignment st; Page.session := Page.session st;
     Page.currentQuestion := n; Page.answers := Page.answers st;
     Page.isSubmitting := Page.isSubmitting st; Page.isSubmitted := Page.isSubmitted st;
     Page.loading := Page.loading st; Page.error := Page.error st |}.

Definition setIsSubmitting (b : bool) (st : Page.State) : Page.State :=
  {| Page.assignment := Page.assignment st; Page.session := Page.session st;
     Page.currentQuestion := Page.currentQuestion st; Page.answers := Page.answers st;
     Page.isSubmitting := b; Page.isSubmitted := Page.isSubmitted st;
     Page.loading := Page.loading st; Page.error := Page.error st |}.

Definition setIsSubmitted (b : bool) (st : Page.State) : Page.State :=
  {| Page.assignment := Page.assignment st; Page.session := Page.session st;
     Page.currentQuestion := Page.currentQuestion st; Page.answers := Page.answers st;
     Page.isSubmitting := Page.isSubmitting st; Page.isSubmitted := b;
     Page.loading := Page.loading st; Page.error := Page.error st |}.

Definition setLoading (b : bool) (st : Page.State) : Page.State :=
  {| Page.assignment := Page.assignment st; Page.session := Page.session st;
     Page.currentQuestion := Page.currentQuestion st; Page.answers := Page.answers st;
     Page.isSubmitting := Page.isSubmitting st; Page.isSubmitted := Page.isSubmitted st;
     Page.loading := b; Page.error := Page.error st |}.

Definition setError (e : option string) (st : Page.State) : Page.State :=
  {| Page.assignment := Page.assignment st; Page.session := Page.session st;
     Page.currentQuestion := Page.currentQuestion st; Page.answers := Page.answers st;
     Page.isSubmitting := Page.isSubmitting st; Page.isSubmitted := Page.isSubmitted st;
     Page.loading := Page.loading st; Page.error := e |}.

(** [assignment?.questions.length || 0] *)
Definition totalQuestions (st : Page.State) : nat :=
  match Page.assignment st with
  | Some a => length (AssignmentWithQuestions.questions a)
  | None => 0
  end.

(** [s.includes(sub)] for a string [s]. *)
Fixpoint String_includes (sub s : string) : bool :=
  String.prefix sub s
  || match s with
     | String _ r => String_includes sub r
     | EmptyString => false
     end.

(** What [handleTickboxAnswer] makes of the answers so far and the
    option clicked; [None] when it throws: the answers so far are
    [answers[question.id] || []], on which [includes], then [filter] or a
    spread are used, whatever they hold. *)
Definition toggled (current : value) (optionText : string) : option (list value) :=
  match (if truthy current then current else VArr []) with
  | VArr l =>
      if existsb (sameValueZero (VStr optionText)) l
      then Some (filter (fun a => negb (is_string a optionText)) l)
      else Some (l ++ [VStr optionText])
  | VStr s =>
      if String_includes optionText s then None
      else Some (map (fun c => VStr (String c EmptyString)) (list_ascii_of_string s)
                 ++ [VStr optionText])
  | _ => None
  end.

Definition handleTickboxAnswer `{Builtins} `{Stringify} (st : Page.State) (option : value)
  : Prog Page.State :=
  match Page.question st, Page.assignment st, truthy (Page.session st) with
  | Some question, Some assignment, true =>
      let optionText := getOptionText option in
      match toggled (get (VObj (Page.answers st)) (HomeworkQuestion.id question))
                    optionText with
      | None => Throw (TypeError "currentAnswers.includes is not a function")
      | Some newAnswers =>
          let st' :=
            Page.setAnswers (<[HomeworkQuestion.id question := VArr newAnswers]>
                               (Page.answers st)) st in
          (* Save response to database with error handling *)
          try_catch
            (r ← await auth_getUser;
             user ← Page.member (data r) "user";
             if truthy user then
               success ← saveHomeworkResponse (get user "id")
                           (HomeworkQuestion.id question)
                           (id_number (AssignmentWithQuestions.id assignment))
                           (JSON_stringify (VArr newAnswers)) question
                           (get (Page.session st) "id");
               if negb success then
                 log console_warn
                     "Failed to save tickbox response, continuing with local state";;
                 mret st'
               else mret st'
             else mret st')
            (fun _ => log console_error "Error saving tickbox response:";; mret st')
      end
  | _, _, _ => mret st
  end.

Definition handlePrevious (st : Page.State) : Prog Page.State :=
  if (0 <? Page.currentQuestion st)%nat && truthy (Page.session st) then
    let newIndex := (Page.currentQuestion st - 1)%nat in
    let st' := setCurrentQuestion newIndex st in
    try_catch
      (updateHomeworkSessionProgress (get (Page.session st) "id")
                                     (int (Z.of_nat newIndex)) false;;
       mret st')
      (fun _ => log console_error "Error updating session progress:";; mret st')
  else mret st.

Definition handleNext (st : Page.State) : Prog Page.State :=
  if (Z.of_nat (Page.currentQuestion st) <? Z.of_nat (totalQuestions st) - 1)%Z
     && truthy (Page.session st) then
    let newIndex := (Page.currentQuestion st + 1)%nat in
    let st' := setCurrentQuestion newIndex st in
    try_catch
      (updateHomeworkSessionProgress (get (Page.session st) "id")
                                     (int (Z.of_nat newIndex)) false;;
       mret st')
      (fun _ => log console_error "Error updating session progress:";; mret st')
  else mret st.

Definition submit_failed : string := "Failed to submit assignment. Please try again.".

(** [finally] is the last step: neither the body's [return] nor the
    [catch] block gets past it. *)
Definition handleSubmit (st : Page.State) : Prog (Page.State * list ui) :=
  match Page.assignment st, truthy (Page.session st) with
  | Some assignment, true =>
      let st1 := setIsSubmitting true st in
      '(st2, effects) ←
        try_catch (A := Page.State * list ui)
          (r ← await auth_getUser;
           user ← Page.member (data r) "user";
           if negb (truthy user) then mret (st1, [])
           else
             (* Submit assignment *)
             success ← submitHomeworkAssignment (get user "id")
                         (id_number (AssignmentWithQuestions.id assignment));
             if (success : bool) then
               updateHomeworkSessionProgress (get (Page.session st) "id")
                 (int (Z.of_nat (Page.currentQuestion st))) true;;
               mret (setIsSubmitted true st1,
                     [tracked "homework_assignment_completed";
                      router_push_after 3000 "/student"])
             else mret (setError (Some submit_failed) st1, []))
          (fun _ =>
             log console_error "Error submitting assignment:";;
             mret (setError (Some submit_failed) st1, []));
      mret (setIsSubmitting false st2, effects)
  | _, _ => mret (st, [])
  end.

(** The property [k] of the answers object. *)
Definition answer_of (answers : object) (k : string) : value := get (VObj answers) k.

Definition isQuestionAnswered (st : Page.State) (questionId : string) : bool :=
  let answer := answer_of (Page.answers st) questionId in
  let questionData :=
    a ← Page.assignment st;
    find (fun q => String.eqb (HomeworkQuestion.id q) questionId)
         (AssignmentWithQuestions.questions a) in
  match answer with
  | VArr l => (0 <? length l)%nat
  | _ =>
      let plain :=
        negb (match answer with VUndefined => true | _ => false end)
        && negb (is_string answer "") in
      match questionData, answer with
      | Some q, VObj gridAnswers =>
          match HomeworkQuestion.question_type q with
          | grid =>
              let gridOptions := HomeworkQuestion.options q in
              if isGridQuestionOptions gridOptions then
                match get gridOptions "rows" with
                | VArr rows =>
                    forallb (fun index =>
                               negb (match get answer (pretty index) with
                                     | VUndefined => true
                                     | _ => false
                                     end))
                            (seq 0 (length rows))
                | _ => plain
                end
              else plain
          | _ => plain
          end
      | _, _ => plain
      end
  end.

(** [assignment?.questions.every(q => isQuestionAnswered(q.id)) || false] *)
Definition areAllQuestionsAnswered (st : Page.State) : bool :=
  match Page.assignment st with
  | Some a =>
      forallb (fun q => isQuestionAnswered st (HomeworkQuestion.id q))
              (AssignmentWithQuestions.questions a)
  | None => false
  end.

(** The images [renderQuestionImages] shows: the spread of
    [image_urls || []], with [image_url] put in front when it is set and
    not among them; [None] when the spread throws. *)
Definition allImages (question : HomeworkQuestion.t) : option (list value) :=
  urls ← (let v := HomeworkQuestion.image_urls question in
          if truthy v then
            match v with
            | VArr l => Some l
            | VStr s =>
                Some (map (fun c => VStr (String c EmptyString)) (list_ascii_of_string s))
            | _ => None
            end
          else Some []);
  let image_url := HomeworkQuestion.image_url question in
  Some (if truthy image_url && negb (existsb (sameValueZero image_url) urls)
        then image_url :: urls
        else urls).

(** The state holds the cursor as a natural number; [setCurrentQuestion]
    is handed a member of the session, whatever it is: the value is kept
    among the effects, and the state follows it when it is a natural
    number. *)
Definition cursor_of (v : value) : option nat :=
  match v with
  | VNum (Num q) =>
      if (Zpos (Qden (Qred q)) =? 1)%Z && (0 <=? Qnum (Qred q))%Z
      then Some (Z.to_nat (Qnum (Qred q)))
      else None
  | _ => None
  end.

Definition resumed (sessionData : value) (st : Page.State) : Page.State * list ui :=
  let index := get sessionData "current_question_index" in
  let st1 := setSession sessionData st in
  let st2 := match cursor_of index with
             | Some n => setCurrentQuestion n st1
             | None => st1
             end in
  (* If session is already completed, show results *)
  (if truthy (get sessionData "is_completed") then setIsSubmitted true st2 else st2,
   [cursor_set index]).

Definition load_failed : string := "Failed to load assignment. Please try again.".

(** The effect that loads the page for [router.query.id].  The [catch]
    block sees the state as the [set] calls before the exception left it. *)
Definition loadAssignmentData (id : string) (st : Page.State)
  : Prog (Page.State * list ui) :=
  let failed_load (st' : Page.State) (_ : exn) : Prog (Page.State * list ui) :=
    log console_error "Error loading assignment:";;
    mret (setLoading false (setError (Some load_failed) st'), []) in
  if String.eqb id "" then mret (st, [])
  else
    try_catch (A := Page.State * list ui)
      ((* Get current user *)
       r ← await auth_getUser;
       user ← Page.member (data r) "user";
       if negb (truthy user) then mret (st, [router_push "/"])
       else
         (* Check if student can access this assignment *)
         canAccess ← canStudentAccessAssignment (get user "id") (id_string id);
         if negb canAccess then
           mret (setLoading false
                   (setError (Some "You do not have access to this assignment.") st), [])
         else
           (* Load assignment with questions *)
           assignmentData ← getHomeworkAssignment (id_string id);
           match assignmentData with
           | None =>
               mret (setLoading false (setError (Some "Assignment not found.") st), [])
           | Some a =>
               let st1 := setAssignment (Some a) st in
               try_catch
                 ((* Get or create homework session *)
                  sessionData ← getOrCreateHomeworkSession (get user "id") (id_string id);
                  let '(st2, effects) :=
                    if truthy sessionData then resumed sessionData st1 else (st1, []) in
                  try_catch
                    ((* Load existing responses with error handling *)
                     responses ←
                       try_catch
                         (getStudentHomeworkResponsesMap (get user "id") (id_string id))
                         (fun _ =>
                            log console_error "Error loading existing responses:";;
                            mret ∅);
                     mret (setLoading false (Page.setAnswers responses st2), effects))
                    (failed_load st2))
                 (failed_load st1)
           end)
      (failed_load st).

(** ** The image component ([components/ReliableImage.tsx])

    [PLACEHOLDER_IMAGE_DATA_URI] comes from [lib/placeholderImage], which is
    not part of the sources: it is a parameter. *)

Module ReliableImage.
Section Component.
Variable PLACEHOLDER_IMAGE_DATA_URI : string.

(** The props the logic reads; [src] is [None] when undefined or null. *)
Record Props : Type := {
  src : option string;
  alt : string;
  fallbackText : option string;
  priority : bool
}.

(** The state cells, and [mountedRef.current]. *)
Record State : Type := {
  currentSrc : option string;
  fallbackLevel : nat;
  hasError : bool;
  isVisible : bool;
  mounted : bool
}.

(** The first occurrence of [sep] in [s]: what is before it and what is
    after it. *)
Fixpoint cut (sep s : string) : option (string * string) :=
  if String.prefix sep s
  then Some (EmptyString, String.substring (String.length sep) (String.length s) s)
  else match s with
       | String c r => '(b, a) ← cut sep r; Some (String c b, a)
       | EmptyString => None
       end.

(** [s.split(sep)[1]] for a string that includes [sep]. *)
Definition second_piece (sep s : string) : string :=
  match cut sep s with
  | Some (_, a) => match cut sep a with Some (b, _) => b | None => a end
  | None => EmptyString
  end.

Definition accepted (url : string) : bool :=
  String.prefix "https://" url || String.prefix "http://" url
  || String.prefix "/" url || String.prefix "data:" url
  || String.prefix "./" url || String.prefix "../" url.

Definition validateAndCleanUrl (url : string) : option string :=
  if String.eqb url "" then None
  else
    let trimmedUrl := trim url in
    if String.eqb trimmedUrl "" then None
    (* Accept valid URL patterns *)
    else if accepted trimmedUrl then Some trimmedUrl
    (* Try to fix common URL issues *)
    else if String_includes "://" trimmedUrl && negb (String.prefix "http" trimmedUrl)
    then Some ("https://" ++ second_piece "://" trimmedUrl)%string
    (* If it looks like a domain, try adding https *)
    else if String_includes "." trimmedUrl && negb (String_includes " " trimmedUrl)
            && negb (String_includes (String "010" EmptyString) trimmedUrl)
    then Some ("https://" ++ trimmedUrl)%string
    else None.

(** [s.replace(/\s+/g, '')] *)
Fixpoint without_white_space (s : string) : string :=
  match s with
  | String c r =>
      if isWhiteSpace c then without_white_space r
      else String c (without_white_space r)
  | EmptyString => EmptyString
  end.

Definition non_empty (o : option string) : bool :=
  match o with
  | Some s => negb (String.eqb s "")
  | None => false
  end.

(** The state at mount: [isVisible] starts as [priority]. *)
Definition initial (p : Props) : State :=
  {| currentSrc := None; fallbackLevel := 0; hasError := false;
     isVisible := priority p; mounted := true |}.

(** "Reset state when src prop changes" *)
Definition reset (st : State) : State :=
  {| currentSrc := None; fallbackLevel := 0; hasError := false;
     isVisible := isVisible st; mounted := mounted st |}.

(** "Initialize source when visible" *)
Definition initialize (p : Props) (st : State) : State :=
  match src p with
  | Some s =>
      if negb (String.eqb s "") && negb (non_empty (currentSrc st))
         && (fallbackLevel st =? 0)%nat && isVisible st
      then match validateAndCleanUrl s with
           | Some validatedSrc =>
               {| currentSrc := Some validatedSrc; fallbackLevel := fallbackLevel st;
                  hasError := hasError st; isVisible := isVisible st;
                  mounted := mounted st |}
           | None =>
               (* Skip to placeholder if URL is clearly invalid *)
               {| currentSrc := Some PLACEHOLDER_IMAGE_DATA_URI; fallbackLevel := 2;
                  hasError := hasError st; isVisible := isVisible st;
                  mounted := mounted st |}
           end
      else st
  | None => st
  end.

(** What [handleError] leaves: the state, the console lines and whether
    the [onError] prop was called. *)
Record Handled : Type := {
  next : State;
  logs : list string;
  onError_called : bool
}.

Definition handleError (p : Props) (st : State) : Handled :=
  let started := ["🖼️ ReliableImage Error:"] in
  (* Prevent state updates if component is unmounted *)
  if negb (mounted st) then {| next := st; logs := started; onError_called := false |}
  else
    let placeholder (logged : list string) :=
      if (fallbackLevel st <? 2)%nat then
        {| next := {| currentSrc := Some PLACEHOLDER_IMAGE_DATA_URI; fallbackLevel := 2;
                      hasError := hasError st; isVisible := isVisible st;
                      mounted := mounted st |};
           logs := logged ++ ["🖼️ Falling back to placeholder image"];
           onError_called := false |}
      else
        {| next := {| currentSrc := currentSrc st; fallbackLevel := 3;
                      hasError := true; isVisible := isVisible st;
                      mounted := mounted st |};
           logs := logged ++ ["🖼️ Falling back to text"];
           onError_called := true |} in
    match src p with
    | Some s =>
        if (fallbackLevel st =? 0)%nat && negb (String.eqb s "") then
          (* Level 1: Try cleaning the URL more aggressively *)
          let cleanedUrl := without_white_space (trim s) in
          let logged := started ++ ["🖼️ Trying cleaned URL:"] in
          if negb (bool_decide (Some cleanedUrl = currentSrc st))
             && non_empty (validateAndCleanUrl cleanedUrl)
          then {| next := {| currentSrc := Some cleanedUrl; fallbackLevel := 1;
                             hasError := hasError st; isVisible := isVisible st;
                             mounted := mounted st |};
                  logs := logged; onError_called := false |}
          else placeholder logged
        else placeholder started
    | None => placeholder started
    end.

(** The text fallback is shown instead of the image. *)
Definition shows_text (st : State) : bool :=
  hasError st || (fallbackLevel st =? 3)%nat.

(** The [src] of the [img] element. *)
Definition rendered_src (st : State) : string :=
  if isVisible st then
    match currentSrc st with
    | Some s => if String.eqb s "" then PLACEHOLDER_IMAGE_DATA_URI else s
    | None => PLACEHOLDER_IMAGE_DATA_URI
    end
  else PLACEHOLDER_IMAGE_DATA_URI.
End Component.
End ReliableImage.

(** ** What a program can return

    [returns_only P p]: whatever the gateway answers, a value [p] returns
    satisfies [P]; [settles P p]: moreover [p] does not throw. *)

Fixpoint returns_only {A : Type} (P : A -> Prop) (p : Prog A) : Prop :=
  match p with
  | Ret a => P a
  | Throw _ => True
  | Call _ k => forall o, returns_only P (k o)
  | Now k => forall t, returns_only P (k t)
  | Console _ _ k => returns_only P k
  | ReadStorage k => forall s, returns_only P (k s)
  end.

Fixpoint settles {A : Type} (P : A -> Prop) (p : Prog A) : Prop :=
  match p with
  | Ret a => P a
  | Throw _ => False
  | Call _ k => forall o, settles P (k o)
  | Now k => forall t, settles P (k t)
  | Console _ _ k => settles P k
  | ReadStorage k => forall s, settles P (k s)
  end.

(** [sends_within Q n p]: whatever the gateway answers, [p] sends at
    most [n] requests, each of which satisfies [Q]. *)
Fixpoint sends_within {A : Type} (Q : Query -> bool) (n : nat) (p : Prog A) : Prop :=
  match p with
  | Ret _ | Throw _ => True
  | Call q k =>
      Q q = true
      /\ match n with
         | O => False
         | S m => forall o, sends_within Q m (k o)
         end
  | Now k => forall t, sends_within Q n (k t)
  | Console _ _ k => sends_within Q n k
  | ReadStorage k => forall s, sends_within Q n (k s)
  end.

(** A chain on one of the [tables]. *)
Definition on_tables (tables : list string) (q : Query) : bool :=
  match q with
  | from t _ => existsb (String.eqb t) tables
  | auth_getUser => false
  end.

(** The one chain that writes to the mock's storage. *)
Definition is_response_upsert (q : Query) : bool :=
  match q with
  | from t (dot_upsert _ _ :: _) => String.eqb t "homework_responses"
  | _ => false
  end.

(** ** The page before and after loading *)

(** The initial values of the [useState] cells. *)
Definition initial_page : Page.State := {|
  Page.assignment := None;
  Page.session := VNull;
  Page.currentQuestion := 0;
  Page.answers := ∅;
  Page.isSubmitting := false;
  Page.isSubmitted := false;
  Page.loading := true;
  Page.error := None
|}.

(** [JSON.stringify] on arrays of strings that need no escape. *)
Definition stringify_strings : Stringify := {|
  JSON_stringify v :=
    match v with
    | VArr l => stringify (omap (fun x => match x with VStr s => Some s | _ => None end) l)
    | _ => string_of_scalar v
    end
|}.

(** A question whose [correct_answer] was left out. *)
Definition without_answer (q : HomeworkQuestion.t) : HomeworkQuestion.t := {|
  HomeworkQuestion.id := HomeworkQuestion.id q;
  HomeworkQuestion.assignment_id := HomeworkQuestion.assignment_id q;
  HomeworkQuestion.question_type := HomeworkQuestion.question_type q;
  HomeworkQuestion.question_text := HomeworkQuestion.question_text q;
  HomeworkQuestion.options := HomeworkQuestion.options q;
  HomeworkQuestion.correct_answer := VUndefined;
  HomeworkQuestion.sample_answer := HomeworkQuestion.sample_answer q;
  HomeworkQuestion.image_url := HomeworkQuestion.image_url q;
  HomeworkQuestion.image_urls := HomeworkQuestion.image_urls q;
  HomeworkQuestion.question_order := HomeworkQuestion.question_order q;
  HomeworkQuestion.points := HomeworkQuestion.points q;
  HomeworkQuestion.context_text := HomeworkQuestion.context_text q;
  HomeworkQuestion.context_image_url := HomeworkQuestion.context_image_url q;
  HomeworkQuestion.created_at := HomeworkQuestion.created_at q;
  HomeworkQuestion.updated_at := HomeworkQuestion.updated_at q
|}.

(** [ends E p w a w1]: run from [w], the program returns [a] and leaves
    the world [w1]. *)
Definition ends {W A : Type} (E : Env W) (p : Prog A) (w : W) (a : A) (w1 : W) : Prop :=
  result (run E p w) = Returned a /\ world (run E p w) = w1.

(** The page once loaded, on question [n], with the answers [a]. *)
Definition page_at (n : nat) (a : object) : Page.State := {|
  Page.assignment := Some mockAssignment;
  Page.session := VObj mockSession;
  Page.currentQuestion := n;
  Page.answers := a;
  Page.isSubmitting := false;
  Page.isSubmitted := false;
  Page.loading := false;
  Page.error := None
|}.

(** An option with a picture. *)
Definition pictured (text : string) (image_url : value) : value :=
  obj [("text", VStr text); ("image_url", image_url)].

(** Answers to the three questions of the mock assignment. *)
Definition all_answered : object :=
  list_to_map [("q1-uuid-mock", VStr "Only water"); ("q2-uuid-mock", VStr "Fish");
               ("q3-uuid-mock", VArr [VStr "Tree"])].

(** The answers as the responses map gives them back after Tree was
    ticked and saved: the saved text. *)
Definition restored : object := {["q3-uuid-mock" := VStr (stringify ["Tree"])]}.

(** ** More gateways for concrete runs *)

(** A gateway whose sessions table answers every update with an error; the
    other requests are accepted. *)
Definition session_updates_fail (n : nat) (q : Query) : Outcome :=
  match q with
  | from t (dot_update _ :: _) =>
      if String.eqb t "homework_sessions" then Fulfilled network_error else ok VUndefined
  | _ => ok VUndefined
  end.

(** A gateway that holds the mock session for the student and times out on
    every update. *)
Definition updates_time_out (n : nat) (q : Query) : Outcome :=
  match q with
  | from _ (dot_select _ :: _) => ok (VObj mockSession)
  | from _ (dot_update _ :: _) => network_timeout
  | _ => ok VUndefined
  end.

(** * Properties *)

(** The chains stay folded under [simpl]. *)
Arguments existingSession_query : simpl never.
Arguments lastActivity_query : simpl never.
Arguments newSession_query : simpl never.
Arguments response_upsert : simpl never.
Arguments progress_query : simpl never.
Arguments completeSession_query : simpl never.
Arguments submission_upsert : simpl never.

Lemma responseData_question_id studentId questionId n responseText isCorrect
    pointsEarned sessionId :
  get (responseData studentId questionId n responseText isCorrect pointsEarned sessionId)
      "question_id" = VStr questionId.
Proof. unfold responseData. destruct (truthy sessionId); reflexivity. Qed.

Lemma responseData_response_text studentId questionId n responseText isCorrect
    pointsEarned sessionId :
  get (responseData studentId questionId n responseText isCorrect pointsEarned sessionId)
      "response_text" = VStr responseText.
Proof. unfold responseData. destruct (truthy sessionId); reflexivity. Qed.

Lemma responseData_is_object studentId questionId n responseText isCorrect
    pointsEarned sessionId :
  exists o, responseData studentId questionId n responseText isCorrect pointsEarned
              sessionId = VObj o.
Proof. unfold responseData. destruct (truthy sessionId); eauto. Qed.

(** The mock stores a response under its question id, whoever the student
    and whatever the assignment. *)
Lemma mock_upsert_response `{Builtins} studentId questionId n responseText isCorrect
    pointsEarned sessionId (s : object) :
  mock_upsert "homework_responses"
    (responseData studentId questionId n responseText isCorrect pointsEarned sessionId) s
  = (Fulfilled {| data := VUndefined; error := VNull |},
     assign questionId (VStr responseText) s).
Proof.
  destruct (responseData_is_object studentId questionId n responseText isCorrect
              pointsEarned sessionId) as [o Ho].
  unfold mock_upsert. simpl.
  rewrite responseData_question_id, responseData_response_text. rewrite Ho.
  reflexivity.
Qed.

(** ** Auto-grading *)

Section Grading.
Context `{Builtins} {W : Type} (E : Env W).

Lemma Set_has_strings (x : string) (l : list string) :
  Set_has (VStr <$> l) (VStr x) = true <-> x ∈ l.
Proof.
  unfold Set_has. rewrite existsb_exists. split.
  - intros (v & Hin & Heq). apply list_elem_of_In, list_elem_of_fmap in Hin.
    destruct Hin as (y & -> & Hy). simpl in Heq.
    apply String.eqb_eq in Heq. by subst.
  - intros Hx. exists (VStr x). split.
    + apply list_elem_of_In, list_elem_of_fmap. eauto.
    + simpl. apply String.eqb_refl.
Qed.

Lemma every_has_strings (l k : list string) :
  forallb (fun answer => Set_has (VStr <$> k) answer) (VStr <$> l) = true
  <-> forall x, x ∈ l -> x ∈ k.
Proof.
  rewrite forallb_forall. split.
  - intros Hall x Hx. apply Set_has_strings, Hall.
    apply list_elem_of_In, list_elem_of_fmap. eauto.
  - intros Hall v Hv. apply list_elem_of_In, list_elem_of_fmap in Hv.
    destruct Hv as (x & -> & Hx). apply Set_has_strings. auto.
Qed.

(** On arrays of strings the [try] block of the tickbox branch computes
    equality of the two sets. *)
Lemma gradeTickbox_strings question responseText (selected correct : list string) :
  JSON_parse responseText = Some (VArr (VStr <$> selected)) ->
  correctAnswers question = Some (VArr (VStr <$> correct)) ->
  gradeTickbox question responseText
  = Some (bool_decide (list_to_set selected =@{gset string} list_to_set correct)).
Proof.
  intros Hs Hc. unfold gradeTickbox. rewrite Hs, Hc. simpl. f_equal.
  apply eq_true_iff_eq. rewrite andb_true_iff, !every_has_strings.
  rewrite bool_decide_eq_true. split.
  - intros [Hcs Hsc]. apply set_eq. intros x.
    rewrite !elem_of_list_to_set. split; auto.
  - intros Heq. split; intros x Hx.
    + apply (elem_of_list_to_set (C:=gset string)). rewrite Heq.
      by apply elem_of_list_to_set.
    + apply (elem_of_list_to_set (C:=gset string)). rewrite <- Heq.
      by apply elem_of_list_to_set.
Qed.

(** C7. A tickbox response is marked correct exactly when the set of the
    selected options equals the set of the correct answers; the points
    earned are the question's points when it is correct and zero
    otherwise; a response that lists the same options in another order
    is graded the same. *)
Theorem tickbox_graded_by_set_equality (w : W) (question : HomeworkQuestion.t)
    (responseText : string) (selected correct : list string) :
  HomeworkQuestion.question_type question = tickbox ->
  JSON_parse responseText = Some (VArr (VStr <$> selected)) ->
  correctAnswers question = Some (VArr (VStr <$> correct)) ->
  let isCorrect := bool_decide (list_to_set selected =@{gset string} list_to_set correct) in
  result (run E (grade question responseText) w)
  = Returned (VBool isCorrect,
              if isCorrect then HomeworkQuestion.points question else int 0)
  /\ forall reordered responseText',
       reordered ≡ₚ selected ->
       JSON_parse responseText' = Some (VArr (VStr <$> reordered)) ->
       result (run E (grade question responseText') w)
       = result (run E (grade question responseText) w).
Proof.
  intros Hty Hs Hc isCorrect.
  assert (Hgrade : forall l text,
    JSON_parse text = Some (VArr (VStr <$> l)) ->
    result (run E (grade question text) w)
    = Returned (VBool (bool_decide (list_to_set l =@{gset string} list_to_set correct)),
                if bool_decide (list_to_set l =@{gset string} list_to_set correct)
                then HomeworkQuestion.points question else int 0)).
  { intros l text Hl. unfold grade. rewrite Hty.
    rewrite (gradeTickbox_strings _ _ l correct Hl Hc). reflexivity. }
  split; [by apply Hgrade |].
  intros reordered text' Hperm Hparse.
  rewrite (Hgrade _ _ Hparse), (Hgrade _ _ Hs).
  assert (Hset : list_to_set reordered =@{gset string} list_to_set selected).
  { apply set_eq. intros x. rewrite !elem_of_list_to_set. by rewrite Hperm. }
  by rewrite Hset.
Qed.


(** A multiple-choice question whose correct answer is not a string is
    graded against the empty string. *)
Lemma multiple_choice_without_answer (w : W) (question : HomeworkQuestion.t)
    (responseText : string) :
  HomeworkQuestion.question_type question = multiple_choice ->
  HomeworkQuestion.correct_answer question = VUndefined ->
  result (run E (grade question responseText) w)
  = Returned (VBool (String.eqb (toLowerCase (trim responseText)) ""),
              if String.eqb (toLowerCase (trim responseText)) ""
              then HomeworkQuestion.points question else int 0).
Proof. intros Hty Hc. unfold grade. rewrite Hty, Hc. reflexivity. Qed.

(** The other question types are not graded. *)
Lemma ungraded (w : W) (question : HomeworkQuestion.t) (responseText : string) :
  HomeworkQuestion.question_type question <> multiple_choice ->
  HomeworkQuestion.question_type question <> tickbox ->
  result (run E (grade question responseText) w) = Returned (VUndefined, int 0).
Proof.
  intros H1 H2. unfold grade.
  destruct (HomeworkQuestion.question_type question); done.
Qed.

(** Grading touches neither the gateway nor the world. *)
Lemma grade_run (w : W) question responseText :
  exists x msgs,
    run E (grade question responseText) w
    = {| trace := msgs; world := w; result := Returned x |}
    /\ sent msgs = [].
Proof.
  unfold grade.
  destruct (HomeworkQuestion.question_type question);
    try (eexists _, []; split; reflexivity).
  destruct (gradeTickbox question responseText).
  - eexists _, []; split; reflexivity.
  - eexists _, [_]; split; reflexivity.
Qed.
End Grading.

(** ** Runs of composed programs *)

Section Runs.
Context {W : Type} (E : Env W).

Lemma run_bind {A B : Type} (p : Prog A) (f : A -> Prog B) (w : W) :
  run E (p ≫= f) w = after (run E p w) (fun a => run E (f a)) rethrow.
Proof.
  revert w. induction p as [a|e|q k IH|k IH|l m k IH|k IH]; intros w; simpl.
  - unfold after. simpl. by destruct (run E (f a) w).
  - reflexivity.
  - destruct (send E q w) as [o w']. unfold mbind in IH.
    rewrite IH. reflexivity.
  - apply IH.
  - unfold mbind in IH. rewrite IH. reflexivity.
  - apply IH.
Qed.

Lemma run_try_catch {A : Type} (p : Prog A) (h : exn -> Prog A) (w : W) :
  run E (try_catch p h) w = after (run E p w) return_ (fun e => run E (h e)).
Proof.
  revert w. induction p as [a|e|q k IH|k IH|l m k IH|k IH]; intros w; simpl.
  - reflexivity.
  - unfold after. simpl. by destruct (run E (h e) w).
  - destruct (send E q w) as [o w']. rewrite IH. reflexivity.
  - apply IH.
  - rewrite IH. reflexivity.
  - apply IH.
Qed.

Lemma run_await (q : Query) (w : W) :
  run E (await q) w
  = {| trace := [Sent q (fst (send E q w))]; world := snd (send E q w);
       result := match fst (send E q w) with
                 | Fulfilled r => Returned r
                 | Rejected e => Threw e
                 end |}.
Proof.
  unfold await. simpl. destruct (send E q w) as [[r|e] w']; reflexivity.
Qed.

Lemma sent_app (t u : list entry) : sent (t ++ u) = sent t ++ sent u.
Proof. unfold sent. apply omap_app. Qed.
End Runs.

(** Rewrite the run of the outermost [try], bind or [await] of the goal. *)
Ltac run_step :=
  match goal with
  | |- context [run ?E (try_catch ?p ?h) ?w] => rewrite (run_try_catch E p h w)
  | |- context [run ?E (@mbind _ _ _ _ ?f ?p) ?w] => rewrite (run_bind E p f w)
  | |- context [run ?E (await ?q) ?w] => rewrite (run_await E q w)
  end.

(** ** Saving a response *)

Section Saving.
Context `{Builtins} {W : Type} (E : Env W).

(** A save with a valid assignment id grades the response, sends one
    upsert that carries the grade, and returns whether it went through. *)
Lemma saveHomeworkResponse_run (w : W) studentId questionId assignmentId
    responseText question sessionId :
  isNaN (assignmentIdNum assignmentId) = false ->
  exists isCorrect pointsEarned msgs,
    run E (grade question responseText) w
    = {| trace := msgs; world := w; result := Returned (isCorrect, pointsEarned) |}
    /\ sent msgs = []
    /\ let q := response_upsert
                  (responseData studentId questionId (assignmentIdNum assignmentId)
                                responseText isCorrect pointsEarned sessionId) in
       let o := fst (send E q w) in
       run E (saveHomeworkResponse studentId questionId assignmentId responseText
                                   question sessionId) w
       = {| trace := msgs ++ Sent q o :: save_failure_log o;
            world := snd (send E q w);
            result := Returned (negb (failed o)) |}.
Proof.
  intros Hvalid.
  destruct (grade_run E w question responseText) as ([isCorrect pointsEarned] & msgs & Hrun & Hsent).
  exists isCorrect, pointsEarned, msgs. split; [done | split; [done |]].
  intros q o. unfold saveHomeworkResponse. rewrite Hvalid.
  do 2 run_step. rewrite Hrun. unfold after at 2. cbn [result world trace].
  do 2 run_step. fold q. subst o.
  destruct (send E q w) as [[r|e] w']; unfold after; simpl.
  - destruct (truthy (error r)); simpl; by rewrite ?app_nil_r.
  - by rewrite <- app_assoc.
Qed.

(** A save with an invalid assignment id is refused before any request. *)
Lemma saveHomeworkResponse_invalid (w : W) studentId questionId assignmentId
    responseText question sessionId :
  isNaN (assignmentIdNum assignmentId) = true ->
  run E (saveHomeworkResponse studentId questionId assignmentId responseText
                              question sessionId) w
  = {| trace := [Logged console_error "Invalid assignment ID in response:"];
       world := w; result := Returned false |}.
Proof. intros Hinv. unfold saveHomeworkResponse. rewrite Hinv. reflexivity. Qed.

(** C1. When the gateway fails the write of a response, the save sends
    that write once and returns false: there is no second attempt. *)
Theorem saveHomeworkResponse_single_attempt (w : W) studentId questionId
    assignmentId responseText question sessionId :
  isNaN (assignmentIdNum assignmentId) = false ->
  (forall d, failed (fst (send E (response_upsert d) w)) = true) ->
  let r := run E (saveHomeworkResponse studentId questionId assignmentId
                                       responseText question sessionId) w in
  result r = Returned false
  /\ exists d, sent (trace r) = [response_upsert d]
               /\ world r = snd (send E (response_upsert d) w).
Proof.
  intros Hvalid Hfail r.
  destruct (saveHomeworkResponse_run w studentId questionId assignmentId responseText
              question sessionId Hvalid)
    as (isCorrect & pointsEarned & msgs & _ & Hsent & Hrun).
  simpl in Hrun. subst r. rewrite Hrun. simpl. split.
  - by rewrite Hfail.
  - eexists. split; [| reflexivity].
    rewrite sent_app, Hsent. simpl.
    destruct (fst (send E _ w)) as [r|e]; simpl; [destruct (truthy (error r))|]; reflexivity.
Qed.
End Saving.

(** *** A save under a failing gateway *)

Lemma saveHomeworkResponse_single_attempt_witness :
  isNaN (assignmentIdNum (id_number (int 1))) = false
  /\ (forall d, failed (fst (send (oracle (down_until 1)) (response_upsert d) midnight))
                = true)
  /\ result (run (oracle (down_until 1))
               (saveHomeworkResponse (H:=string_arrays) student "q1-uuid-mock"
                  (id_number (int 1)) "Only water" mockQuestion1 session_id) midnight)
     = Returned false
  /\ exists d,
       sent (trace (run (oracle (down_until 1))
               (saveHomeworkResponse (H:=string_arrays) student "q1-uuid-mock"
                  (id_number (int 1)) "Only water" mockQuestion1 session_id) midnight))
       = [response_upsert d]
       /\ world (run (oracle (down_until 1))
               (saveHomeworkResponse (H:=string_arrays) student "q1-uuid-mock"
                  (id_number (int 1)) "Only water" mockQuestion1 session_id) midnight)
          = snd (send (oracle (down_until 1)) (response_upsert d) midnight).
Proof.
  split; [reflexivity |]. split; [intros d; reflexivity |].
  apply (saveHomeworkResponse_single_attempt (H:=string_arrays)
           (oracle (down_until 1)) midnight student "q1-uuid-mock"
           (id_number (int 1)) "Only water" mockQuestion1 session_id).
  - reflexivity.
  - intros d. reflexivity.
Defined.

(** The gateway would have accepted a second attempt: the save stops after
    the first one, and all that is left of the failure is a console line. *)
Example save_gives_up_after_one_timeout :
  let r := run (oracle (down_until 1))
             (saveHomeworkResponse (H:=string_arrays) student "q1-uuid-mock"
                (id_number (int 1)) "Only water" mockQuestion1 session_id) midnight in
  result r = Returned false
  /\ requests (world r) = 1
  /\ trace r
     = [Sent (response_upsert
                (responseData student "q1-uuid-mock" (int 1) "Only water"
                              (VBool false) (int 0) session_id))
             network_timeout;
        Logged console_error "Error in saveHomeworkResponse:"].
Proof. vm_compute. auto. Qed.

(** The page keeps the answer in its local state and shows no error when
    the save fails: the failure ends in [console.warn]. *)
Example handleAnswer_failure_is_only_logged :
  let r := run (oracle (down_until 2))
             (Page.handleAnswer (H:=string_arrays) answering_page
                                (optionWithImage "Only water")) midnight in
  (exists st, result r = Returned st
              /\ Page.error st = None
              /\ Page.answers st !! "q1-uuid-mock" = Some (VStr "Only water"))
  /\ length (sent (trace r)) = 2
  /\ last (trace r)
     = Some (Logged console_warn "Failed to save response, continuing with local state").
Proof.
  vm_compute. split; [| auto]. eexists. split; [reflexivity |]. auto.
Qed.

(** ** Responses in the mock store *)

Section MockStore.
Context `{Builtins}.

Lemma assign_lookup (k : string) (v : value) (s : object) :
  k <> "__proto__" -> assign k v s !! k = Some v.
Proof.
  intros Hk. unfold assign.
  destruct (String.eqb_spec k "__proto__"); [done | apply lookup_insert_eq].
Qed.

Lemma assign_idempotent (k : string) (v : value) (s : object) :
  assign k v (assign k v s) = assign k v s.
Proof.
  unfold assign. destruct (String.eqb k "__proto__"); [done | apply insert_insert_eq].
Qed.

Lemma mock_send_response (w : MockWorld) studentId questionId n responseText
    isCorrect pointsEarned sessionId :
  send mock (response_upsert (responseData studentId questionId n responseText
                                           isCorrect pointsEarned sessionId)) w
  = (Fulfilled {| data := VUndefined; error := VNull |},
     {| mockResponsesStorage :=
          assign questionId (VStr responseText) (mockResponsesStorage w);
        clock := clock w |}).
Proof.
  unfold response_upsert. cbn [send mock mockSupabase chain invoke].
  rewrite mock_upsert_response. reflexivity.
Qed.

(** On the mock a save with a valid assignment id returns true and leaves
    the response text under the question id. *)
Lemma mock_save (w : MockWorld) studentId questionId assignmentId responseText
    question sessionId :
  isNaN (assignmentIdNum assignmentId) = false ->
  let r := run mock (saveHomeworkResponse studentId questionId assignmentId
                                          responseText question sessionId) w in
  result r = Returned true
  /\ world r = {| mockResponsesStorage :=
                    assign questionId (VStr responseText) (mockResponsesStorage w);
                  clock := clock w |}
  /\ exists d, sent (trace r) = [response_upsert d].
Proof.
  intros Hvalid r.
  destruct (saveHomeworkResponse_run mock w studentId questionId assignmentId
              responseText question sessionId Hvalid)
    as (isCorrect & pointsEarned & msgs & _ & Hsent & Hrun).
  cbv zeta in Hrun. subst r. rewrite Hrun, mock_send_response.
  split; [done | split; [done |]].
  eexists. cbn [trace fst save_failure_log error truthy].
  rewrite sent_app, Hsent. reflexivity.
Qed.

(** C9. Saving the same response twice leaves the store as the first
    save left it, with exactly one record for the question, holding the
    response text: the second call, an upsert with the conflict key
    [student_id,question_id,assignment_id] like the first, changes nothing
    and adds no record. *)
Theorem saveHomeworkResponse_twice (w : MockWorld) studentId questionId assignmentId
    responseText question sessionId :
  isNaN (assignmentIdNum assignmentId) = false ->
  questionId <> "__proto__" ->
  let save := saveHomeworkResponse studentId questionId assignmentId responseText
                                   question sessionId in
  let once := run mock save w in
  let twice := run mock save (world once) in
  result once = Returned true
  /\ result twice = Returned true
  /\ world twice = world once
  /\ mockResponsesStorage (world twice) !! questionId = Some (VStr responseText)
  /\ length (filter (fun kv => kv.1 = questionId)
                    (map_to_list (mockResponsesStorage (world twice)))) = 1
  /\ exists d,
       sent (trace twice)
       = [from "homework_responses"
            [dot_upsert d (onConflict "student_id,question_id,assignment_id")]].
Proof.
  intros Hvalid Hkey save once twice.
  destruct (mock_save w studentId questionId assignmentId responseText question
              sessionId Hvalid) as (Hr1 & Hw1 & _).
  destruct (mock_save (world once) studentId questionId assignmentId responseText
              question sessionId Hvalid) as (Hr2 & Hw2 & Hs2).
  fold save in Hr1, Hw1, Hr2, Hw2, Hs2. fold once in Hr1, Hw1, Hr2, Hw2, Hs2.
  fold twice in Hr2, Hw2, Hs2.
  assert (Hsame : world twice = world once).
  { rewrite Hw2, Hw1. cbn [mockResponsesStorage clock].
    by rewrite assign_idempotent. }
  assert (Hlook : mockResponsesStorage (world twice) !! questionId
                  = Some (VStr responseText)).
  { rewrite Hsame, Hw1. cbn [mockResponsesStorage]. by apply assign_lookup. }
  split; [done |]. split; [done |]. split; [done |]. split; [done |].
  assert (Hfilter : filter (fun kv : string * value => kv.1 = questionId)
                      (map_to_list (mockResponsesStorage (world twice)))
                    ≡ₚ [(questionId, VStr responseText)]).
  { apply NoDup_Permutation.
    - apply NoDup_filter, NoDup_map_to_list.
    - apply NoDup_singleton.
    - intros [k v]. rewrite list_elem_of_filter, elem_of_map_to_list.
      rewrite list_elem_of_singleton. simpl. split.
      + intros [-> Hkv]. rewrite Hlook in Hkv. by inversion Hkv.
      + intros [= -> ->]. done. }
  split; [by rewrite Hfilter | exact Hs2].
Qed.

(** C10. The responses map is the same whatever student and assignment it
    is asked for: it is the whole store, and the mock files a response
    under its question id alone. *)
Theorem responses_map_ignores_its_arguments {W : Type} (E : Env W) (w : W)
    (studentId studentId' : value) (assignmentId assignmentId' : AssignmentId) :
  run E (getStudentHomeworkResponsesMap studentId assignmentId) w
  = run E (getStudentHomeworkResponsesMap studentId' assignmentId') w
  /\ result (run E (getStudentHomeworkResponsesMap studentId assignmentId) w)
     = Returned (responsesStorage E w)
  /\ forall (s : object) questionId responseText n n' isCorrect isCorrect'
            pointsEarned pointsEarned' sessionId sessionId',
       snd (mock_upsert "homework_responses"
              (responseData studentId questionId n responseText isCorrect
                            pointsEarned sessionId) s)
       = snd (mock_upsert "homework_responses"
                (responseData studentId' questionId n' responseText isCorrect'
                              pointsEarned' sessionId') s).
Proof.
  repeat split. intros. by rewrite !mock_upsert_response.
Qed.
End MockStore.

(** ** Two saves of one question in flight *)

Section InFlight.
Context `{Builtins}.


Lemma step_start {W A : Type} (E : Env W) (l : Loop W A) (p : Prog A) t x :
  advance E p (store l) = (t, x) ->
  step E l (start p)
  = {| tasks := tasks l ++ [x]; store := store l; history := history l ++ t |}.
Proof. intros Hp. simpl. by rewrite Hp. Qed.

Lemma step_answer {W A : Type} (E : Env W) (l : Loop W A) (i : nat) q k o w' t x :
  tasks l !! i = Some (Waiting q k) ->
  send E q (store l) = (o, w') ->
  advance E (k o) w' = (t, x) ->
  step E l (answer i)
  = {| tasks := <[i:=x]> (tasks l); store := w';
       history := history l ++ Sent q o :: t |}.
Proof. intros Hi Hq Hk. simpl. by rewrite Hi, Hq, Hk. Qed.


End InFlight.

(** *** Concrete saves on the mock *)

Lemma saveHomeworkResponse_twice_witness :
  isNaN (assignmentIdNum (id_number (int 1))) = false
  /\ "q1-uuid-mock" <> "__proto__"
  /\ result (run (mock (H:=string_arrays)) (answer_q1 "Only water") fresh)
     = Returned true
  /\ result (run (mock (H:=string_arrays)) (answer_q1 "Only water")
               (world (run (mock (H:=string_arrays)) (answer_q1 "Only water") fresh)))
     = Returned true
  /\ world (run (mock (H:=string_arrays)) (answer_q1 "Only water")
              (world (run (mock (H:=string_arrays)) (answer_q1 "Only water") fresh)))
     = world (run (mock (H:=string_arrays)) (answer_q1 "Only water") fresh)
  /\ mockResponsesStorage
       (world (run (mock (H:=string_arrays)) (answer_q1 "Only water")
                 (world (run (mock (H:=string_arrays)) (answer_q1 "Only water") fresh))))
     !! "q1-uuid-mock" = Some (VStr "Only water")
  /\ length (filter (fun kv => kv.1 = "q1-uuid-mock")
       (map_to_list (mockResponsesStorage
          (world (run (mock (H:=string_arrays)) (answer_q1 "Only water")
             (world (run (mock (H:=string_arrays)) (answer_q1 "Only water") fresh)))))))
     = 1
  /\ exists d,
       sent (trace (run (mock (H:=string_arrays)) (answer_q1 "Only water")
               (world (run (mock (H:=string_arrays)) (answer_q1 "Only water") fresh))))
       = [from "homework_responses"
            [dot_upsert d (onConflict "student_id,question_id,assignment_id")]].
Proof.
  split; [reflexivity |]. split; [discriminate |].
  apply (saveHomeworkResponse_twice (H:=string_arrays) fresh student "q1-uuid-mock"
           (id_number (int 1)) "Only water" mockQuestion1 session_id).
  - reflexivity.
  - discriminate.
Defined.



(** A response saved for one student is in the map read for any other. *)
Example responses_are_shared_between_students :
  result (run (mock (H:=string_arrays))
            (getStudentHomeworkResponsesMap (VStr "another-student") (id_number (int 7)))
            (world (run (mock (H:=string_arrays)) (answer_q1 "Only water") fresh)))
  = Returned {["q1-uuid-mock" := VStr "Only water"]}.
Proof. vm_compute. reflexivity. Qed.

(** ** Sessions *)

Section Sessions.
Context {W : Type} (E : Env W).

(** The lookup found a session and reported no error: the session is
    touched and returned, and nothing is created. *)
Lemma getOrCreate_found (w w1 : W) studentId assignmentId (r : Reply) :
  isNaN (assignmentIdNum assignmentId) = false ->
  send E (existingSession_query studentId (assignmentIdNum assignmentId)) w
  = (Fulfilled r, w1) ->
  truthy (data r) && negb (truthy (error r)) = true ->
  let touch := lastActivity_query (data r) (now E w1) in
  run E (getOrCreateHomeworkSession studentId assignmentId) w
  = {| trace :=
         Sent (existingSession_query studentId (assignmentIdNum assignmentId))
              (Fulfilled r)
         :: Sent touch (fst (send E touch w1))
         :: match fst (send E touch w1) with
            | Rejected _ =>
                [Logged console_error "Error in getOrCreateHomeworkSession:"]
            | Fulfilled _ => []
            end;
       world := snd (send E touch w1);
       result := Returned match fst (send E touch w1) with
                          | Rejected _ => VNull
                          | Fulfilled _ => data r
                          end |}.
Proof.
  intros Hvalid Hlookup Hfound touch.
  unfold getOrCreateHomeworkSession. rewrite Hvalid. simpl.
  rewrite Hlookup. simpl. rewrite Hfound. simpl. fold touch.
  destruct (send E touch w1) as [[r2|e2] w2]; reflexivity.
Qed.

(** The lookup found nothing, or reported an error: a session is
    inserted at once. *)
Lemma getOrCreate_creates (w w1 : W) studentId assignmentId (r : Reply) :
  isNaN (assignmentIdNum assignmentId) = false ->
  send E (existingSession_query studentId (assignmentIdNum assignmentId)) w
  = (Fulfilled r, w1) ->
  truthy (data r) && negb (truthy (error r)) = false ->
  let create := newSession_query studentId (assignmentIdNum assignmentId)
                                 (now E w1) (now E w1) in
  run E (getOrCreateHomeworkSession studentId assignmentId) w
  = {| trace :=
         Sent (existingSession_query studentId (assignmentIdNum assignmentId))
              (Fulfilled r)
         :: lookup_failure_log r
         ++ Sent create (fst (send E create w1))
         :: create_failure_log (fst (send E create w1));
       world := snd (send E create w1);
       result := Returned (created (fst (send E create w1))) |}.
Proof.
  intros Hvalid Hlookup Hfound create.
  unfold getOrCreateHomeworkSession. rewrite Hvalid. simpl.
  rewrite Hlookup. simpl. rewrite Hfound. unfold lookup_failure_log.
  destruct (truthy (error r) && negb (is_string (get (error r) "code") "PGRST116"));
    simpl; fold create;
    destruct (send E create w1) as [[c|e] w2]; simpl;
    try destruct (truthy (error c)); reflexivity.
Qed.

(** The lookup threw: the call ends in its [catch] and returns null. *)
Lemma getOrCreate_lookup_throws (w w1 : W) studentId assignmentId (e : exn) :
  isNaN (assignmentIdNum assignmentId) = false ->
  send E (existingSession_query studentId (assignmentIdNum assignmentId)) w
  = (Rejected e, w1) ->
  run E (getOrCreateHomeworkSession studentId assignmentId) w
  = {| trace :=
         [Sent (existingSession_query studentId (assignmentIdNum assignmentId))
               (Rejected e);
          Logged console_error "Error in getOrCreateHomeworkSession:"];
       world := w1;
       result := Returned VNull |}.
Proof.
  intros Hvalid Hlookup.
  unfold getOrCreateHomeworkSession. rewrite Hvalid. simpl.
  rewrite Hlookup. reflexivity.
Qed.

(** An invalid assignment id is refused before any request. *)
Lemma getOrCreate_invalid (w : W) studentId assignmentId :
  isNaN (assignmentIdNum assignmentId) = true ->
  run E (getOrCreateHomeworkSession studentId assignmentId) w
  = {| trace := [Logged console_error "Invalid assignment ID in session:"];
       world := w; result := Returned VNull |}.
Proof. intros Hinv. unfold getOrCreateHomeworkSession. by rewrite Hinv. Qed.

(** C4 (what the code does). When the lookup of the existing session comes
    back with an error, the call does not look again: its next request
    is the insert of a new session, and it returns what the insert gave. *)
Theorem getOrCreate_creates_on_lookup_error (w w1 : W) studentId assignmentId
    (r : Reply) :
  isNaN (assignmentIdNum assignmentId) = false ->
  send E (existingSession_query studentId (assignmentIdNum assignmentId)) w
  = (Fulfilled r, w1) ->
  truthy (error r) = true ->
  let create := newSession_query studentId (assignmentIdNum assignmentId)
                                 (now E w1) (now E w1) in
  let ran := run E (getOrCreateHomeworkSession studentId assignmentId) w in
  sent (trace ran)
  = [existingSession_query studentId (assignmentIdNum assignmentId); create]
  /\ result ran = Returned (created (fst (send E create w1))).
Proof.
  intros Hvalid Hlookup Herror create ran. subst ran.
  rewrite (getOrCreate_creates w w1 studentId assignmentId r Hvalid Hlookup)
    by (rewrite Herror; apply andb_false_r).
  fold create. cbn [trace result]. split; [| reflexivity].
  change (Sent ?q ?o :: ?l ++ ?t) with ([Sent q o] ++ l ++ t).
  rewrite !sent_app. unfold lookup_failure_log.
  destruct (_ && _); simpl;
    destruct (fst (send E create w1)) as [c|e]; simpl;
    try destruct (truthy (error c)); reflexivity.
Qed.

End Sessions.

(** ** Submission *)

Section Submission.
Context {W : Type} (E : Env W).

(** The completion update did not throw: the submission record is written
    next, whatever the update reported, and the call returns whether the
    record went through. *)
Lemma submit_run (w w1 : W) studentId assignmentId (s : Reply) :
  isNaN (assignmentIdNum assignmentId) = false ->
  send E (completeSession_query studentId (assignmentIdNum assignmentId) (now E w)) w
  = (Fulfilled s, w1) ->
  let complete := completeSession_query studentId (assignmentIdNum assignmentId)
                                        (now E w) in
  let submit := submission_upsert studentId (assignmentIdNum assignmentId)
                                  (now E w1) in
  run E (submitHomeworkAssignment studentId assignmentId) w
  = {| trace :=
         Sent complete (Fulfilled s)
         :: (if truthy (error s)
             then [Logged console_error "Error completing homework session:"]
             else [])
         ++ Sent submit (fst (send E submit w1))
         :: submit_failure_log (fst (send E submit w1));
       world := snd (send E submit w1);
       result := Returned (negb (failed (fst (send E submit w1)))) |}.
Proof.
  intros Hvalid Hcomplete complete submit. subst complete submit.
  unfold submitHomeworkAssignment. rewrite Hvalid. simpl.
  rewrite Hcomplete. simpl.
  destruct (truthy (error s)); simpl;
    destruct (send E _ w1) as [[r|e] w2]; simpl;
    try destruct (truthy (error r)); reflexivity.
Qed.

(** The completion update threw: nothing else is sent. *)
Lemma submit_completion_throws (w w1 : W) studentId assignmentId (e : exn) :
  isNaN (assignmentIdNum assignmentId) = false ->
  send E (completeSession_query studentId (assignmentIdNum assignmentId) (now E w)) w
  = (Rejected e, w1) ->
  run E (submitHomeworkAssignment studentId assignmentId) w
  = {| trace :=
         [Sent (completeSession_query studentId (assignmentIdNum assignmentId)
                                      (now E w)) (Rejected e);
          Logged console_error "Error in submitHomeworkAssignment:"];
       world := w1;
       result := Returned false |}.
Proof.
  intros Hvalid Hcomplete.
  unfold submitHomeworkAssignment. rewrite Hvalid. simpl.
  rewrite Hcomplete. reflexivity.
Qed.

Lemma submit_invalid (w : W) studentId assignmentId :
  isNaN (assignmentIdNum assignmentId) = true ->
  run E (submitHomeworkAssignment studentId assignmentId) w
  = {| trace := [Logged console_error "Invalid assignment ID in submission:"];
       world := w; result := Returned false |}.
Proof. intros Hinv. unfold submitHomeworkAssignment. by rewrite Hinv. Qed.

(** C2 (as the code has it). A submit call whose submission-record write
    fails returns false; by then the update that marks the session
    completed has been sent, before the submission write, and nothing is
    sent after the failure to take it back. *)
Theorem submit_marks_session_first (w w1 : W) studentId assignmentId (s : Reply) :
  isNaN (assignmentIdNum assignmentId) = false ->
  send E (completeSession_query studentId (assignmentIdNum assignmentId) (now E w)) w
  = (Fulfilled s, w1) ->
  failed (fst (send E (submission_upsert studentId (assignmentIdNum assignmentId)
                                         (now E w1)) w1)) = true ->
  let ran := run E (submitHomeworkAssignment studentId assignmentId) w in
  result ran = Returned false
  /\ sent (trace ran)
     = [completeSession_query studentId (assignmentIdNum assignmentId) (now E w);
        submission_upsert studentId (assignmentIdNum assignmentId) (now E w1)]
  /\ is_completion (completeSession_query studentId (assignmentIdNum assignmentId)
                                          (now E w)) = true.
Proof.
  intros Hvalid Hcomplete Hfail ran. subst ran.
  rewrite (submit_run w w1 studentId assignmentId s Hvalid Hcomplete).
  cbn [trace result]. rewrite Hfail. split; [reflexivity |]. split; [| reflexivity].
  destruct (truthy (error s)); simpl;
    destruct (fst (send E _ w1)) as [r|e]; simpl;
    try destruct (truthy (error r)); reflexivity.
Qed.
End Submission.

(** ** Progress *)

Section Progress.
Context `{Builtins}.

Lemma mock_world_eta (w : MockWorld) :
  {| mockResponsesStorage := mockResponsesStorage w; clock := clock w |} = w.
Proof. by destruct w. Qed.

(** The mock accepts a progress update and keeps nothing of it. *)
Lemma mock_update_progress (w : MockWorld) sessionId index isCompleted :
  run mock (updateHomeworkSessionProgress sessionId index isCompleted) w
  = {| trace := [Sent (progress_query sessionId
                         (updateData index isCompleted (clock w) (clock w)))
                      (Fulfilled {| data := VUndefined; error := VNull |})];
       world := w; result := Returned true |}.
Proof.
  unfold updateHomeworkSessionProgress.
  destruct isCompleted; simpl; rewrite mock_world_eta; reflexivity.
Qed.

(** The object [select().eq()] gives has no [eq] method: the lookup with
    two filters throws. *)
Lemma mock_lookup_throws (w : MockWorld) studentId n :
  send mock (existingSession_query studentId n) w
  = (Rejected (TypeError "eq is not a function"), w).
Proof. simpl. by rewrite mock_world_eta. Qed.

(** The promise [update().eq()] gives has no [eq] method either. *)
Lemma mock_completion_throws (w : MockWorld) studentId n t :
  send mock (completeSession_query studentId n t) w
  = (Rejected (TypeError "eq is not a function"), w).
Proof. simpl. by rewrite mock_world_eta. Qed.

(** On the mock no call gets a session back. *)
Lemma mock_getOrCreate (w : MockWorld) studentId assignmentId :
  result (run mock (getOrCreateHomeworkSession studentId assignmentId) w)
  = Returned VNull.
Proof.
  destruct (isNaN (assignmentIdNum assignmentId)) eqn:Hvalid.
  - by rewrite (getOrCreate_invalid mock w studentId assignmentId Hvalid).
  - by rewrite (getOrCreate_lookup_throws mock w w studentId assignmentId _ Hvalid
                  (mock_lookup_throws w _ _)).
Qed.

(** On the mock a submit call never reaches the submission record. *)
Lemma mock_submit (w : MockWorld) studentId assignmentId :
  isNaN (assignmentIdNum assignmentId) = false ->
  let ran := run mock (submitHomeworkAssignment studentId assignmentId) w in
  result ran = Returned false /\ world ran = w
  /\ existsb is_submission (sent (trace ran)) = false.
Proof.
  intros Hvalid ran. subst ran.
  rewrite (submit_completion_throws mock w w studentId assignmentId _ Hvalid
             (mock_completion_throws w _ _ _)).
  auto.
Qed.

(** C5 (what the code does). On the mock a progress update to index 2
    returns true and leaves the store as it was; the reload that follows
    gets no session back, and the session the mock hands out on a lookup
    has index 0. *)
Theorem progress_is_not_kept (w : MockWorld) sessionId studentId assignmentId :
  isNaN (assignmentIdNum assignmentId) = false ->
  let saved := run mock (updateHomeworkSessionProgress sessionId (int 2) false) w in
  result saved = Returned true
  /\ world saved = w
  /\ result (run mock (getOrCreateHomeworkSession studentId assignmentId) (world saved))
     = Returned VNull
  /\ fst (mockSupabase (from "homework_sessions"
                          [dot_select "*"; dot_eq "id" sessionId; dot_maybeSingle])
                       (mockResponsesStorage (world saved)))
     = ok (VObj mockSession)
  /\ get (VObj mockSession) "current_question_index" = VNum (int 0).
Proof.
  intros Hvalid saved. subst saved.
  rewrite (mock_update_progress w sessionId (int 2) false). cbn [result world].
  rewrite (getOrCreate_lookup_throws mock w w studentId assignmentId _ Hvalid
             (mock_lookup_throws w _ _)).
  repeat split; reflexivity.
Qed.
End Progress.

(** * Concrete runs *)

(** ** Grading the questions of the mock assignment *)

Lemma tickbox_graded_by_set_equality_witness :
  HomeworkQuestion.question_type mockQuestion3 = tickbox
  /\ JSON_parse (Builtins:=string_arrays) (stringify ["Flower"; "Tree"; "Dog"])
     = Some (VArr (VStr <$> ["Flower"; "Tree"; "Dog"]))
  /\ correctAnswers (H:=string_arrays) mockQuestion3
     = Some (VArr (VStr <$> ["Tree"; "Dog"; "Flower"]))
  /\ result (run (mock (H:=string_arrays))
               (grade (H:=string_arrays) mockQuestion3
                      (stringify ["Flower"; "Tree"; "Dog"])) fresh)
     = Returned (VBool true, int 10).
Proof.
  split; [reflexivity |]. split; [reflexivity |]. split; [reflexivity |].
  apply (tickbox_graded_by_set_equality (H:=string_arrays) (mock (H:=string_arrays))
           fresh mockQuestion3 (stringify ["Flower"; "Tree"; "Dog"])
           ["Flower"; "Tree"; "Dog"] ["Tree"; "Dog"; "Flower"]);
    reflexivity.
Defined.


Example grade_water_and_sunlight :
  result (run (mock (H:=string_arrays))
            (grade (H:=string_arrays) mockQuestion1 "  water and sunlight ") fresh)
  = Returned (VBool true, int 5).
Proof. reflexivity. Qed.

Example grade_only_water :
  result (run (mock (H:=string_arrays))
            (grade (H:=string_arrays) mockQuestion1 "Only water") fresh)
  = Returned (VBool false, int 0).
Proof. reflexivity. Qed.

Example grade_tree_flower :
  result (run (mock (H:=string_arrays))
            (grade (H:=string_arrays) mockQuestion3 (stringify ["Tree"; "Flower"])) fresh)
  = Returned (VBool false, int 0).
Proof. reflexivity. Qed.

Example grade_tree_dog_flower :
  result (run (mock (H:=string_arrays))
            (grade (H:=string_arrays) mockQuestion3
                   (stringify ["Tree"; "Dog"; "Flower"])) fresh)
  = Returned (VBool true, int 10).
Proof. reflexivity. Qed.

Example grade_with_an_extra_option :
  result (run (mock (H:=string_arrays))
            (grade (H:=string_arrays) mockQuestion3
                   (stringify ["Tree"; "Dog"; "Flower"; "Rock"])) fresh)
  = Returned (VBool false, int 0).
Proof. reflexivity. Qed.

(** A response that is not JSON is graded incorrect, with a console line. *)
Example grade_malformed_tickbox :
  run (mock (H:=string_arrays)) (grade (H:=string_arrays) mockQuestion3 "Tree") fresh
  = {| trace := [Logged console_error "Error auto-grading tickbox question:"];
       world := fresh; result := Returned (VBool false, int 0) |}.
Proof. reflexivity. Qed.

(** A short answer is left ungraded. *)
Example grade_short_answer :
  result (run (mock (H:=string_arrays))
            (grade (H:=string_arrays) mockQuestion2 "Fish") fresh)
  = Returned (VUndefined, int 0).
Proof. reflexivity. Qed.

(** ** Submitting while the submissions table is down *)

Lemma submit_marks_session_first_witness :
  isNaN (assignmentIdNum (id_number (int 1))) = false
  /\ send (oracle submissions_down)
          (completeSession_query student (assignmentIdNum (id_number (int 1)))
                                 (now (oracle submissions_down) midnight)) midnight
     = (Fulfilled {| data := VUndefined; error := VNull |}, one_request_later)
  /\ failed (fst (send (oracle submissions_down)
                    (submission_upsert student (assignmentIdNum (id_number (int 1)))
                                       (now (oracle submissions_down) one_request_later))
                    one_request_later)) = true
  /\ result (run (oracle submissions_down)
               (submitHomeworkAssignment student (id_number (int 1))) midnight)
     = Returned false
  /\ sent (trace (run (oracle submissions_down)
                    (submitHomeworkAssignment student (id_number (int 1))) midnight))
     = [completeSession_query student (assignmentIdNum (id_number (int 1)))
                              (now (oracle submissions_down) midnight);
        submission_upsert student (assignmentIdNum (id_number (int 1)))
                          (now (oracle submissions_down) one_request_later)]
  /\ is_completion (completeSession_query student
                      (assignmentIdNum (id_number (int 1)))
                      (now (oracle submissions_down) midnight)) = true.
Proof.
  split; [reflexivity |]. split; [reflexivity |]. split; [reflexivity |].
  apply (submit_marks_session_first (oracle submissions_down) midnight
           one_request_later student (id_number (int 1))
           {| data := VUndefined; error := VNull |});
    reflexivity.
Defined.

(** C2 (as stated) fails: the submissions table is down, the call returns
    false, and the gateway has already accepted the update that marks the
    session completed. *)
Lemma session_completed_though_submission_failed :
  result (run (oracle submissions_down)
            (submitHomeworkAssignment student (id_number (int 1))) midnight)
  = Returned false
  /\ completed_before_failed_submission
       (trace (run (oracle submissions_down)
                 (submitHomeworkAssignment student (id_number (int 1))) midnight))
     = true
  /\ ~ (forall (W : Type) (E : Env W) (w : W) studentId assignmentId,
          completed_before_failed_submission
            (trace (run E (submitHomeworkAssignment studentId assignmentId) w))
          = false).
Proof.
  split; [reflexivity |]. split; [reflexivity |].
  intros Hclaim.
  specialize (Hclaim OracleWorld (oracle submissions_down) midnight student
                     (id_number (int 1))).
  discriminate Hclaim.
Qed.

(** ** Looking a session up *)

Lemma getOrCreate_creates_on_lookup_error_witness :
  isNaN (assignmentIdNum (id_string "1")) = false
  /\ send (oracle lookup_fails_once)
          (existingSession_query student (assignmentIdNum (id_string "1"))) midnight
     = (Fulfilled network_error, one_request_later)
  /\ truthy (error network_error) = true
  /\ sent (trace (run (oracle lookup_fails_once)
                    (getOrCreateHomeworkSession student (id_string "1")) midnight))
     = [existingSession_query student (assignmentIdNum (id_string "1"));
        newSession_query student (assignmentIdNum (id_string "1"))
                         (now (oracle lookup_fails_once) one_request_later)
                         (now (oracle lookup_fails_once) one_request_later)]
  /\ result (run (oracle lookup_fails_once)
               (getOrCreateHomeworkSession student (id_string "1")) midnight)
     = Returned (created (fst (send (oracle lookup_fails_once)
                   (newSession_query student (assignmentIdNum (id_string "1"))
                      (now (oracle lookup_fails_once) one_request_later)
                      (now (oracle lookup_fails_once) one_request_later))
                   one_request_later))).
Proof.
  split; [reflexivity |]. split; [reflexivity |]. split; [reflexivity |].
  apply (getOrCreate_creates_on_lookup_error (oracle lookup_fails_once) midnight
           one_request_later student (id_string "1") network_error);
    reflexivity.
Defined.

(** The student has a session; the lookup fails once; the call comes back
    with a new session, although a second lookup would have found the
    stored one. *)
Example existing_session_is_shadowed :
  (exists s, result (run (oracle lookup_fails_once)
                       (getOrCreateHomeworkSession student (id_string "1")) midnight)
             = Returned s
             /\ get s "id" = VStr "session-1"
             /\ get s "current_question_index" = VNum (int 0))
  /\ fst (send (oracle lookup_fails_once)
               (existingSession_query student (assignmentIdNum (id_string "1")))
               one_request_later)
     = ok (VObj mockSession)
  /\ get (VObj mockSession) "id" = VStr "session-123-uuid".
Proof.
  split; [| split; reflexivity].
  vm_compute. eexists. split; [reflexivity |]. split; reflexivity.
Qed.


(** ** Two first loads at once *)


(** ** Progress on the mock *)

Lemma progress_is_not_kept_witness :
  isNaN (assignmentIdNum (id_string "1")) = false
  /\ result (run (mock (H:=string_arrays))
               (updateHomeworkSessionProgress session_id (int 2) false) fresh)
     = Returned true
  /\ world (run (mock (H:=string_arrays))
              (updateHomeworkSessionProgress session_id (int 2) false) fresh)
     = fresh
  /\ result (run (mock (H:=string_arrays))
               (getOrCreateHomeworkSession student (id_string "1"))
               (world (run (mock (H:=string_arrays))
                         (updateHomeworkSessionProgress session_id (int 2) false) fresh)))
     = Returned VNull
  /\ fst (mockSupabase (H:=string_arrays)
            (from "homework_sessions"
               [dot_select "*"; dot_eq "id" session_id; dot_maybeSingle])
            (mockResponsesStorage
               (world (run (mock (H:=string_arrays))
                         (updateHomeworkSessionProgress session_id (int 2) false) fresh))))
     = ok (VObj mockSession)
  /\ get (VObj mockSession) "current_question_index" = VNum (int 0).
Proof.
  split; [reflexivity |].
  apply (progress_is_not_kept (H:=string_arrays) fresh session_id student (id_string "1")).
  reflexivity.
Defined.

(** What the console shows for the reload on the mock. *)
Example reload_on_the_mock :
  run (mock (H:=string_arrays)) first_load fresh
  = {| trace := [Sent (existingSession_query student (int 1))
                      (Rejected (TypeError "eq is not a function"));
                 Logged console_error "Error in getOrCreateHomeworkSession:"];
       world := fresh; result := Returned VNull |}.
Proof. reflexivity. Qed.

(** ** One call on its own *)

Section Alone.
Context {W : Type} (E : Env W).

Lemma drain {A : Type} (p : Prog A) (w : W) (h : list entry) :
  exists n,
    foldl (step E)
          {| tasks := [snd (advance E p w)]; store := w;
             history := h ++ fst (advance E p w) |}
          (repeat (answer 0) n)
    = {| tasks := [Settled (result (run E p w))]; store := world (run E p w);
         history := h ++ trace (run E p w) |}.
Proof.
  revert w h. induction p as [a|e|q k IH|k IH|l m k IH|k IH]; intros w h.
  - by exists 0.
  - by exists 0.
  - cbn [advance run fst snd]. destruct (send E q w) as [o w'] eqn:Hsend.
    destruct (IH o w' (h ++ [Sent q o])) as [n Hn].
    exists (S n). cbn [repeat foldl].
    erewrite step_answer; [| reflexivity | exact Hsend | apply surjective_pairing].
    cbn [tasks store history]. rewrite app_nil_r.
    change (<[0:=?x]> [?y]) with [x].
    replace (h ++ Sent q o :: (advance E (k o) w').1)
      with ((h ++ [Sent q o]) ++ (advance E (k o) w').1)
      by (by rewrite <- app_assoc).
    rewrite Hn. cbn [logged trace world result]. by rewrite <- app_assoc.
  - apply IH.
  - cbn [advance run]. destruct (advance E k w) as [t x] eqn:Hadv.
    destruct (IH w (h ++ [Logged l m])) as [n Hn]. rewrite Hadv in Hn.
    exists n. cbn [fst snd] in *.
    replace (h ++ Logged l m :: t) with ((h ++ [Logged l m]) ++ t)
      by (by rewrite <- app_assoc).
    rewrite Hn. cbn [logged trace world result]. by rewrite <- app_assoc.
  - apply IH.
Qed.

(** A call that is started alone and answered until it settles does what
    [run] does. *)
Lemma schedule_alone {A : Type} (p : Prog A) (w : W) :
  exists n,
    schedule E w (start p :: repeat (answer 0) n)
    = {| tasks := [Settled (result (run E p w))]; store := world (run E p w);
         history := trace (run E p w) |}.
Proof.
  destruct (drain p w []) as [n Hn]. exists n.
  unfold schedule. cbn [foldl].
  erewrite step_start by apply surjective_pairing. exact Hn.
Qed.
End Alone.

(** * More properties *)

(** ** Programs that do not throw *)

Section Settling.
Context {W : Type} (E : Env W).

Lemma settles_returns_only {A : Type} (P : A -> Prop) (p : Prog A) :
  settles P p -> returns_only P p.
Proof. induction p; simpl; auto. Qed.

Lemma returns_only_weaken {A : Type} (P Q : A -> Prop) (p : Prog A) :
  (forall a, P a -> Q a) -> returns_only P p -> returns_only Q p.
Proof. intros HPQ. induction p; simpl; auto. Qed.

Lemma settles_weaken {A : Type} (P Q : A -> Prop) (p : Prog A) :
  (forall a, P a -> Q a) -> settles P p -> settles Q p.
Proof. intros HPQ. induction p; simpl; auto. Qed.

Lemma returns_only_bind {A B : Type} (Q : B -> Prop) (p : Prog A) (f : A -> Prog B) :
  returns_only (fun a => returns_only Q (f a)) p -> returns_only Q (p ≫= f).
Proof. induction p; simpl; auto. Qed.

Lemma settles_bind {A B : Type} (Q : B -> Prop) (p : Prog A) (f : A -> Prog B) :
  settles (fun a => settles Q (f a)) p -> settles Q (p ≫= f).
Proof. induction p; simpl; auto. Qed.

Lemma settles_try_catch {A : Type} (P : A -> Prop) (p : Prog A) (h : exn -> Prog A) :
  returns_only P p -> (forall e, settles P (h e)) -> settles P (try_catch p h).
Proof. intros Hp Hh. induction p; simpl in *; auto. Qed.

Lemma returns_only_try_catch {A : Type} (P : A -> Prop) (p : Prog A)
    (h : exn -> Prog A) :
  returns_only P p -> (forall e, returns_only P (h e)) ->
  returns_only P (try_catch p h).
Proof. intros Hp Hh. induction p; simpl in *; auto. Qed.

Lemma run_returns_only {A : Type} (P : A -> Prop) (p : Prog A) (w : W) (a : A) :
  returns_only P p -> result (run E p w) = Returned a -> P a.
Proof.
  revert w. induction p as [b|e|q k IH|k IH|l m k IH|k IH]; intros w Hp Hr; simpl in *.
  - inversion Hr. by subst.
  - discriminate.
  - destruct (send E q w) as [o w']. exact (IH o w' (Hp o) Hr).
  - exact (IH _ w (Hp _) Hr).
  - exact (IH w Hp Hr).
  - exact (IH _ w (Hp _) Hr).
Qed.

Lemma run_settles {A : Type} (P : A -> Prop) (p : Prog A) (w : W) :
  settles P p -> exists a, result (run E p w) = Returned a /\ P a.
Proof.
  revert w. induction p as [b|e|q k IH|k IH|l m k IH|k IH]; intros w Hp; simpl in *.
  - eauto.
  - contradiction.
  - destruct (send E q w) as [o w']. apply IH, Hp.
  - apply IH, Hp.
  - apply IH, Hp.
  - apply IH, Hp.
Qed.
End Settling.

(** ** White space and letter case *)

Lemma trimEnd_idempotent (s : string) : trimEnd (trimEnd s) = trimEnd s.
Proof.
  induction s as [|c r IH]; [reflexivity |]. simpl.
  destruct (trimEnd r) as [|c' r'] eqn:Hr.
  - destruct (isWhiteSpace c) eqn:Hc; simpl; [reflexivity |]. by rewrite Hc.
  - simpl. simpl in IH. rewrite IH. reflexivity.
Qed.

(** Trimming the end of a string that does not start with white space
    leaves one that does not start with white space either. *)
Lemma trimStart_trimEnd (s : string) :
  trimStart s = s -> trimStart (trimEnd s) = trimEnd s.
Proof.
  destruct s as [|c r]; [reflexivity |]. simpl.
  destruct (isWhiteSpace c) eqn:Hc.
  - intros Heq. exfalso.
    assert (Hlen : forall t, String.length (trimStart t) <= String.length t).
    { induction t as [|d t IHt]; simpl; [lia |]. destruct (isWhiteSpace d); simpl; lia. }
    specialize (Hlen r). rewrite Heq in Hlen. simpl in Hlen. lia.
  - intros _. destruct (trimEnd r); simpl; by rewrite Hc.
Qed.

Lemma trimStart_idempotent (s : string) : trimStart (trimStart s) = trimStart s.
Proof.
  induction s as [|c r IH]; [reflexivity |]. simpl.
  destruct (isWhiteSpace c) eqn:Hc; [exact IH |]. simpl. by rewrite Hc.
Qed.

Lemma trim_idempotent (s : string) : trim (trim s) = trim s.
Proof.
  unfold trim. rewrite (trimStart_trimEnd (trimStart s) (trimStart_idempotent s)).
  apply trimEnd_idempotent.
Qed.

Lemma isWhiteSpace_lowerChar (c : ascii) : isWhiteSpace (lowerChar c) = isWhiteSpace c.
Proof.
  destruct c as [[] [] [] [] [] [] [] []]; reflexivity.
Qed.

Lemma lowerChar_idempotent (c : ascii) : lowerChar (lowerChar c) = lowerChar c.
Proof.
  destruct c as [[] [] [] [] [] [] [] []]; reflexivity.
Qed.

Lemma toLowerCase_idempotent (s : string) : toLowerCase (toLowerCase s) = toLowerCase s.
Proof.
  induction s as [|c r IH]; [reflexivity |]. simpl. by rewrite lowerChar_idempotent, IH.
Qed.

Lemma trimStart_toLowerCase (s : string) :
  trimStart (toLowerCase s) = toLowerCase (trimStart s).
Proof.
  induction s as [|c r IH]; [reflexivity |]. simpl.
  rewrite isWhiteSpace_lowerChar. destruct (isWhiteSpace c); [exact IH | reflexivity].
Qed.

Lemma trimEnd_toLowerCase (s : string) :
  trimEnd (toLowerCase s) = toLowerCase (trimEnd s).
Proof.
  induction s as [|c r IH]; [reflexivity |]. simpl. rewrite IH.
  destruct (trimEnd r); simpl.
  - rewrite isWhiteSpace_lowerChar. by destruct (isWhiteSpace c).
  - reflexivity.
Qed.

Lemma trim_toLowerCase (s : string) : trim (toLowerCase s) = toLowerCase (trim s).
Proof. unfold trim. by rewrite trimStart_toLowerCase, trimEnd_toLowerCase. Qed.

(** A string of white space only. *)
Lemma trimStart_blank_app (pre s : string) :
  trimStart pre = "" -> trimStart (pre ++ s) = trimStart s.
Proof.
  induction pre as [|c r IH]; [reflexivity |]. simpl.
  destruct (isWhiteSpace c); [exact IH | discriminate].
Qed.

Lemma trimEnd_app_blank (s post : string) :
  trimStart post = "" -> trimEnd (s ++ post) = trimEnd s.
Proof.
  intros Hpost.
  assert (Hblank : trimEnd post = "").
  { clear s. induction post as [|c r IH]; [reflexivity |]. simpl in *.
    destruct (isWhiteSpace c) eqn:Hc; [| discriminate]. by rewrite (IH Hpost). }
  induction s as [|c r IH]; simpl; [exact Hblank |]. by rewrite IH.
Qed.

(** ** The utilities under any gateway *)

Section Utilities.
Context `{Builtins} {W : Type} (E : Env W).

Lemma returns_only_True {A : Type} (p : Prog A) : returns_only (fun _ => True) p.
Proof. induction p; simpl; auto. Qed.

Lemma caught {A : Type} (p : Prog A) (h : exn -> Prog A) (w : W) :
  (forall e, settles (fun _ => True) (h e)) ->
  exists a, result (run E (try_catch p h) w) = Returned a.
Proof.
  intros Hh.
  destruct (run_settles E (fun _ => True) (try_catch p h) w) as (a & Ha & _); eauto.
  apply settles_try_catch; [apply returns_only_True | exact Hh].
Qed.

(** X1. Whatever the gateway does, a rejection included, none of the six
    asynchronous utilities throws: each one returns a value. *)
Theorem utilities_never_throw (w : W) (studentId sessionId : value)
    (questionId responseText : string) (assignmentId : AssignmentId)
    (question : HomeworkQuestion.t) (index : number) (isCompleted : bool) :
  (exists a, result (run E (getHomeworkAssignment assignmentId) w) = Returned a)
  /\ (exists s, result (run E (getOrCreateHomeworkSession studentId assignmentId) w)
                = Returned s)
  /\ (exists b, result (run E (saveHomeworkResponse studentId questionId assignmentId
                                 responseText question sessionId) w) = Returned b)
  /\ (exists b, result (run E (updateHomeworkSessionProgress sessionId index
                                 isCompleted) w) = Returned b)
  /\ (exists m, result (run E (getStudentHomeworkResponsesMap studentId assignmentId) w)
                = Returned m)
  /\ (exists b, result (run E (submitHomeworkAssignment studentId assignmentId) w)
                = Returned b).
Proof.
  repeat split; apply caught; intros e; simpl; exact I.
Qed.

(** X2. An assignment is loaded with one request, and what is returned is
    the mock assignment whenever the gateway reports no error and some
    data, whatever that data is; otherwise null. *)
Theorem getHomeworkAssignment_returns_mock (w : W) (assignmentId : AssignmentId) :
  isNaN (assignmentIdNum assignmentId) = false ->
  let q := from "assignments"
             [dot_select "*"; dot_eq "id" (VNum (assignmentIdNum assignmentId));
              dot_single] in
  let ran := run E (getHomeworkAssignment assignmentId) w in
  sent (trace ran) = [q]
  /\ world ran = snd (send E q w)
  /\ result ran
     = Returned match fst (send E q w) with
                | Fulfilled r =>
                    if negb (truthy (error r)) && truthy (data r)
                    then Some mockAssignment else None
                | Rejected _ => None
                end.
Proof.
  intros Hvalid q ran. subst ran. unfold getHomeworkAssignment. rewrite Hvalid.
  simpl. fold q. destruct (send E q w) as [[r|e] w']; simpl.
  - destruct (truthy (error r)); simpl; [auto |].
    destruct (truthy (data r)); simpl; auto.
  - auto.
Qed.

(** An id that does not parse to a number is refused without a request. *)
Lemma getHomeworkAssignment_invalid (w : W) (assignmentId : AssignmentId) :
  isNaN (assignmentIdNum assignmentId) = true ->
  run E (getHomeworkAssignment assignmentId) w
  = {| trace := [Logged console_error "Invalid assignment ID:"]; world := w;
       result := Returned None |}.
Proof. intros Hinv. unfold getHomeworkAssignment. by rewrite Hinv. Qed.

(** X3. A progress update sends one update of the session with the given
    id, returns whether it went through (false when it comes back with an
    error or is rejected), and its patch carries the index and marks the
    session completed only when asked to. *)
Theorem updateHomeworkSessionProgress_one_update (w : W) (sessionId : value)
    (index : number) (isCompleted : bool) :
  let d := updateData index isCompleted (now E w) (now E w) in
  let ran := run E (updateHomeworkSessionProgress sessionId index isCompleted) w in
  sent (trace ran) = [progress_query sessionId d]
  /\ result ran = Returned (negb (failed (fst (send E (progress_query sessionId d) w))))
  /\ world ran = snd (send E (progress_query sessionId d) w)
  /\ get d "current_question_index" = VNum index
  /\ get d "is_completed" = (if isCompleted then VBool true else VUndefined)
  /\ get d "completed_at" = (if isCompleted then VStr (now E w) else VUndefined).
Proof.
  intros d ran. subst ran d. unfold updateHomeworkSessionProgress.
  destruct isCompleted; simpl;
    match goal with |- context [send E ?q w] =>
      destruct (send E q w) as [[r|e] w'] end;
    simpl; try destruct (truthy (error r)); simpl; repeat split; reflexivity.
Qed.

(** X4. When the update that marks the session completed comes back with
    an error, the submission goes on: the record is written and the call
    returns true if that write goes through. *)
Theorem submit_ignores_completion_error (w w1 : W) studentId assignmentId (s : Reply) :
  isNaN (assignmentIdNum assignmentId) = false ->
  send E (completeSession_query studentId (assignmentIdNum assignmentId) (now E w)) w
  = (Fulfilled s, w1) ->
  truthy (error s) = true ->
  failed (fst (send E (submission_upsert studentId (assignmentIdNum assignmentId)
                                         (now E w1)) w1)) = false ->
  let ran := run E (submitHomeworkAssignment studentId assignmentId) w in
  result ran = Returned true
  /\ sent (trace ran)
     = [completeSession_query studentId (assignmentIdNum assignmentId) (now E w);
        submission_upsert studentId (assignmentIdNum assignmentId) (now E w1)]
  /\ In (Logged console_error "Error completing homework session:") (trace ran).
Proof.
  intros Hvalid Hcomplete Herror Hsubmit ran. subst ran.
  rewrite (submit_run E w w1 studentId assignmentId s Hvalid Hcomplete).
  cbn [trace result]. rewrite Hsubmit, Herror. split; [reflexivity |].
  destruct (fst (send E _ w1)) as [r|e]; simpl in *; [| discriminate].
  rewrite Hsubmit. simpl. auto.
Qed.

(** X5. When the update that marks the session completed is rejected, the
    submission record is never written: the call stops there and returns
    false. *)
Theorem submit_stops_when_completion_throws (w w1 : W) studentId assignmentId
    (e : exn) :
  isNaN (assignmentIdNum assignmentId) = false ->
  send E (completeSession_query studentId (assignmentIdNum assignmentId) (now E w)) w
  = (Rejected e, w1) ->
  let ran := run E (submitHomeworkAssignment studentId assignmentId) w in
  result ran = Returned false
  /\ sent (trace ran)
     = [completeSession_query studentId (assignmentIdNum assignmentId) (now E w)]
  /\ existsb is_submission (sent (trace ran)) = false
  /\ world ran = w1.
Proof.
  intros Hvalid Hcomplete ran. subst ran.
  rewrite (submit_completion_throws E w w1 studentId assignmentId e Hvalid Hcomplete).
  repeat split.
Qed.

(** X6. A session that was found is lost when the update of its last
    activity is rejected: the call returns null, and creates nothing. *)
Theorem getOrCreate_loses_session_when_touch_throws (w w1 : W) studentId assignmentId
    (r : Reply) (e : exn) :
  isNaN (assignmentIdNum assignmentId) = false ->
  send E (existingSession_query studentId (assignmentIdNum assignmentId)) w
  = (Fulfilled r, w1) ->
  truthy (data r) = true ->
  truthy (error r) = false ->
  fst (send E (lastActivity_query (data r) (now E w1)) w1) = Rejected e ->
  let ran := run E (getOrCreateHomeworkSession studentId assignmentId) w in
  result ran = Returned VNull
  /\ sent (trace ran)
     = [existingSession_query studentId (assignmentIdNum assignmentId);
        lastActivity_query (data r) (now E w1)]
  /\ existsb is_session_insert (sent (trace ran)) = false.
Proof.
  intros Hvalid Hlookup Hdata Herror Htouch ran. subst ran.
  rewrite (getOrCreate_found E w w1 studentId assignmentId r Hvalid Hlookup)
    by (by rewrite Hdata, Herror).
  cbn [trace result]. rewrite Htouch. repeat split.
Qed.

(** X7. A save with a valid assignment id sends one upsert, which carries
    the response text, the question id, the mark and the points of the
    grading, and the session id only when one is given; the call returns
    true exactly when that upsert went through. *)
Theorem saveHomeworkResponse_one_upsert (w : W) studentId questionId assignmentId
    responseText question sessionId :
  isNaN (assignmentIdNum assignmentId) = false ->
  let ran := run E (saveHomeworkResponse studentId questionId assignmentId responseText
                                         question sessionId) w in
  exists d isCorrect pointsEarned,
    result (run E (grade question responseText) w) = Returned (isCorrect, pointsEarned)
    /\ sent (trace ran) = [response_upsert d]
    /\ get d "response_text" = VStr responseText
    /\ get d "question_id" = VStr questionId
    /\ get d "is_correct" = isCorrect
    /\ get d "points_earned" = VNum pointsEarned
    /\ get d "session_id" = (if truthy sessionId then sessionId else VUndefined)
    /\ result ran = Returned (negb (failed (fst (send E (response_upsert d) w))))
    /\ world ran = snd (send E (response_upsert d) w).
Proof.
  intros Hvalid ran. subst ran.
  destruct (saveHomeworkResponse_run E w studentId questionId assignmentId
              responseText question sessionId Hvalid)
    as (isCorrect & pointsEarned & msgs & Hgrade & Hsent & Hrun).
  cbv zeta in Hrun. rewrite Hrun, Hgrade. cbn [trace result world].
  eexists _, isCorrect, pointsEarned. split; [reflexivity |]. split.
  { rewrite sent_app, Hsent. simpl.
    destruct (fst (send E _ w)) as [r|e]; simpl; [destruct (truthy (error r))|];
      reflexivity. }
  split; [apply responseData_response_text |].
  split; [apply responseData_question_id |].
  unfold responseData. destruct (truthy sessionId); repeat split; reflexivity.
Qed.

(** X8. An assignment id that does not parse to a number is refused by
    every utility that takes one before anything is sent: the result is
    null or false and the gateway's state is as it was. *)
Theorem invalid_id_sends_nothing (w : W) studentId questionId assignmentId
    responseText question sessionId :
  isNaN (assignmentIdNum assignmentId) = true ->
  let quiet {A : Type} (p : Prog A) (a : A) :=
    result (run E p w) = Returned a /\ sent (trace (run E p w)) = []
    /\ world (run E p w) = w in
  quiet (getHomeworkAssignment assignmentId) None
  /\ quiet (getOrCreateHomeworkSession studentId assignmentId) VNull
  /\ quiet (saveHomeworkResponse studentId questionId assignmentId responseText
                                 question sessionId) false
  /\ quiet (submitHomeworkAssignment studentId assignmentId) false.
Proof.
  intros Hinv quiet. subst quiet. cbv beta.
  rewrite (getHomeworkAssignment_invalid w assignmentId Hinv),
    (getOrCreate_invalid E w studentId assignmentId Hinv),
    (saveHomeworkResponse_invalid E w studentId questionId assignmentId responseText
       question sessionId Hinv),
    (submit_invalid E w studentId assignmentId Hinv).
  repeat split.
Qed.
End Utilities.

Lemma getHomeworkAssignment_returns_mock_witness :
  isNaN (assignmentIdNum (id_string "1")) = false
  /\ result (run (mock (H:=string_arrays)) (getHomeworkAssignment (id_string "1")) fresh)
     = Returned (Some mockAssignment).
Proof.
  split; [reflexivity |].
  destruct (getHomeworkAssignment_returns_mock (mock (H:=string_arrays)) fresh
              (id_string "1") eq_refl) as (_ & _ & Hresult).
  rewrite Hresult. vm_compute. reflexivity.
Defined.

Lemma submit_ignores_completion_error_witness :
  isNaN (assignmentIdNum (id_number (int 1))) = false
  /\ truthy (error network_error) = true
  /\ result (run (oracle session_updates_fail)
               (submitHomeworkAssignment student (id_number (int 1))) midnight)
     = Returned true.
Proof.
  split; [reflexivity |]. split; [reflexivity |].
  apply (submit_ignores_completion_error (oracle session_updates_fail) midnight
           one_request_later student (id_number (int 1)) network_error);
    reflexivity.
Defined.

Lemma submit_stops_when_completion_throws_witness :
  isNaN (assignmentIdNum (id_number (int 1))) = false
  /\ result (run (oracle (down_until 1))
               (submitHomeworkAssignment student (id_number (int 1))) midnight)
     = Returned false
  /\ existsb is_submission
       (sent (trace (run (oracle (down_until 1))
                       (submitHomeworkAssignment student (id_number (int 1))) midnight)))
     = false.
Proof.
  split; [reflexivity |].
  destruct (submit_stops_when_completion_throws (oracle (down_until 1)) midnight
              one_request_later student (id_number (int 1))
              (JsError "Network timeout - simulated failure") eq_refl eq_refl)
    as (Hresult & _ & Hnone & _).
  split; [exact Hresult | exact Hnone].
Defined.

Lemma getOrCreate_loses_session_when_touch_throws_witness :
  isNaN (assignmentIdNum (id_string "1")) = false
  /\ result (run (oracle updates_time_out)
               (getOrCreateHomeworkSession student (id_string "1")) midnight)
     = Returned VNull.
Proof.
  split; [reflexivity |].
  apply (getOrCreate_loses_session_when_touch_throws (oracle updates_time_out) midnight
           one_request_later student (id_string "1")
           {| data := VObj mockSession; error := VNull |}
           (JsError "Network timeout - simulated failure"));
    reflexivity.
Defined.

Lemma saveHomeworkResponse_one_upsert_witness :
  isNaN (assignmentIdNum (id_number (int 1))) = false
  /\ exists d isCorrect pointsEarned,
       result (run (oracle (down_until 0))
                 (grade (H:=string_arrays) mockQuestion1 "Water and sunlight") midnight)
       = Returned (isCorrect, pointsEarned)
       /\ sent (trace (run (oracle (down_until 0))
                         (answer_q1 "Water and sunlight") midnight))
          = [response_upsert d]
       /\ get d "is_correct" = VBool true
       /\ get d "points_earned" = VNum (int 5)
       /\ result (run (oracle (down_until 0)) (answer_q1 "Water and sunlight") midnight)
          = Returned true.
Proof.
  split; [reflexivity |].
  destruct (saveHomeworkResponse_one_upsert (H:=string_arrays) (oracle (down_until 0))
              midnight student "q1-uuid-mock" (id_number (int 1)) "Water and sunlight"
              mockQuestion1 session_id eq_refl)
    as (d & isCorrect & pointsEarned & Hgrade & Hsent & _ & _ & Hmark & Hpoints & _
        & Hresult & _).
  exists d, isCorrect, pointsEarned. split; [exact Hgrade |]. split; [exact Hsent |].
  assert (Hpair : (isCorrect, pointsEarned) = (VBool true, int 5)).
  { rewrite <- (f_equal (fun r => match r with Returned x => x
                                  | Threw _ => (isCorrect, pointsEarned) end) Hgrade).
    reflexivity. }
  injection Hpair as -> ->.
  split; [exact Hmark |]. split; [exact Hpoints |]. exact Hresult.
Defined.

Lemma invalid_id_sends_nothing_witness :
  isNaN (assignmentIdNum (id_string "abc")) = true
  /\ result (run (oracle (down_until 0))
               (submitHomeworkAssignment student (id_string "abc")) midnight)
     = Returned false
  /\ sent (trace (run (oracle (down_until 0))
                    (getOrCreateHomeworkSession student (id_string "abc")) midnight))
     = [].
Proof.
  split; [reflexivity |].
  destruct (invalid_id_sends_nothing (H:=string_arrays) (oracle (down_until 0)) midnight
              student "q1-uuid-mock" (id_string "abc") "Only water" mockQuestion1
              session_id eq_refl)
    as (_ & (_ & Hnone & _) & _ & (Hfalse & _)).
  split; [exact Hfalse | exact Hnone].
Defined.

(** ** Grading *)

Lemma toLowerCase_empty (s : string) : toLowerCase s = "" <-> s = "".
Proof. destruct s; simpl; split; congruence. Qed.

Lemma trimStart_app (s post : string) :
  trimStart s <> "" -> trimStart (s ++ post) = (trimStart s ++ post)%string.
Proof.
  induction s as [|c r IH]; simpl; [congruence |].
  destruct (isWhiteSpace c); [exact IH | reflexivity].
Qed.

Lemma trimStart_blank_trimEnd (s : string) : trimStart s = "" -> trimEnd s = "".
Proof.
  induction s as [|c r IH]; [reflexivity |]. simpl.
  destruct (isWhiteSpace c); [| discriminate]. intros Hr. by rewrite (IH Hr).
Qed.

(** White space around a string is trimmed away. *)
Lemma trim_padded (pre s post : string) :
  trimStart pre = "" -> trimStart post = "" -> trim (pre ++ s ++ post) = trim s.
Proof.
  intros Hpre Hpost. unfold trim. rewrite (trimStart_blank_app pre _ Hpre).
  destruct (string_dec (trimStart s) "") as [Hs|Hs].
  - rewrite Hs. rewrite (trimStart_blank_app s post Hs), Hpost. reflexivity.
  - rewrite (trimStart_app s post Hs). by apply trimEnd_app_blank.
Qed.

Section MoreGrading.
Context `{Builtins} {W : Type} (E : Env W).

(** X9. Whatever the question and the response, points are earned only
    with the mark true, and then they are the question's points; a question
    that is neither multiple-choice nor tickbox gets no mark at all. *)
Theorem points_follow_the_mark (w : W) (question : HomeworkQuestion.t)
    (responseText : string) :
  exists (isCorrect : value) (pointsEarned : number),
    result (run E (grade question responseText) w) = Returned (isCorrect, pointsEarned)
    /\ (isCorrect = VBool true /\ pointsEarned = HomeworkQuestion.points question
        \/ isCorrect <> VBool true /\ pointsEarned = int 0)
    /\ (isCorrect = VUndefined
        <-> HomeworkQuestion.question_type question <> multiple_choice
            /\ HomeworkQuestion.question_type question <> tickbox).
Proof.
  unfold grade. destruct (HomeworkQuestion.question_type question) eqn:Hty.
  - match goal with |- context [VBool ?b] => destruct b end;
      eexists _, _; (split; [reflexivity |]); split;
        try (split; [discriminate | intros [? _]; congruence]);
        [left | right]; split; congruence.
  - eexists _, _; split; [reflexivity |]. split; [right; split; congruence |].
    split; [split; discriminate | reflexivity].
  - eexists _, _; split; [reflexivity |]. split; [right; split; congruence |].
    split; [split; discriminate | reflexivity].
  - destruct (gradeTickbox question responseText) as [[]|];
      eexists _, _; (split; [reflexivity |]); split;
        try (split; [discriminate | intros [_ ?]; congruence]);
        first [left; split; congruence | right; split; congruence].
  - eexists _, _; split; [reflexivity |]. split; [right; split; congruence |].
    split; [split; discriminate | reflexivity].
Qed.

(** X10. A multiple-choice question with no usable correct answer (none,
    not a string, or a blank string) gives its points to the blank
    responses and to no other. *)
Theorem multiple_choice_without_answer_rewards_blank (w : W)
    (question : HomeworkQuestion.t) (responseText : string) :
  HomeworkQuestion.question_type question = multiple_choice ->
  (forall s, HomeworkQuestion.correct_answer question = VStr s -> trim s = "") ->
  exists isCorrect : bool,
    result (run E (grade question responseText) w)
    = Returned (VBool isCorrect,
                if isCorrect then HomeworkQuestion.points question else int 0)
    /\ (isCorrect = true <-> trim responseText = "").
Proof.
  intros Hty Hblank. unfold grade. rewrite Hty.
  eexists. split; [reflexivity |]. rewrite String.eqb_eq.
  assert (Hc : toLowerCase (trim match HomeworkQuestion.correct_answer question with
                                 | VStr s => s | _ => "" end) = "").
  { destruct (HomeworkQuestion.correct_answer question); try reflexivity.
    by rewrite (Hblank _ eq_refl). }
  rewrite Hc. apply toLowerCase_empty.
Qed.

(** X11. A multiple-choice response is graded the same with white space
    around it, and the same once lowercased. *)
Theorem multiple_choice_ignores_padding_and_case (w : W)
    (question : HomeworkQuestion.t) (pre responseText post : string) :
  HomeworkQuestion.question_type question = multiple_choice ->
  trimStart pre = "" ->
  trimStart post = "" ->
  run E (grade question (pre ++ responseText ++ post)) w
  = run E (grade question responseText) w
  /\ run E (grade question (toLowerCase responseText)) w
     = run E (grade question responseText) w.
Proof.
  intros Hty Hpre Hpost. unfold grade. rewrite Hty.
  rewrite (trim_padded pre responseText post Hpre Hpost).
  by rewrite trim_toLowerCase, toLowerCase_idempotent.
Qed.

(** X12. A tickbox response that is not the JSON text of an array is
    marked false with no points, and the failure is only logged. *)
Theorem tickbox_response_not_an_array (w : W) (question : HomeworkQuestion.t)
    (responseText : string) :
  HomeworkQuestion.question_type question = tickbox ->
  (forall l, JSON_parse responseText <> Some (VArr l)) ->
  run E (grade question responseText) w
  = {| trace := [Logged console_error "Error auto-grading tickbox question:"];
       world := w; result := Returned (VBool false, int 0) |}.
Proof.
  intros Hty Hparse. unfold grade. rewrite Hty.
  assert (Hnone : gradeTickbox question responseText = None).
  { unfold gradeTickbox. destruct (JSON_parse responseText) as [v|]; [| reflexivity].
    simpl. destruct (correctAnswers question) as [c|]; [| reflexivity]. simpl.
    destruct (new_Set v) as [ss|]; [| reflexivity]. simpl.
    destruct (new_Set c) as [cs|]; [| reflexivity]. simpl.
    destruct (every c _) as [b|]; [| reflexivity]. simpl.
    destruct v as [| | b'|n|s|l|o]; try reflexivity. by destruct (Hparse l). }
  by rewrite Hnone.
Qed.

(** X13. A tickbox question whose correct answer is neither an array nor a
    string has no correct option: the response is marked true exactly when
    nothing is ticked. *)
Theorem tickbox_without_answer_rewards_nothing_ticked (w : W)
    (question : HomeworkQuestion.t) (responseText : string) (ticked : list value) :
  HomeworkQuestion.question_type question = tickbox ->
  (forall l, HomeworkQuestion.correct_answer question <> VArr l) ->
  (forall s, HomeworkQuestion.correct_answer question <> VStr s) ->
  JSON_parse responseText = Some (VArr ticked) ->
  exists isCorrect : bool,
    run E (grade question responseText) w
    = {| trace := []; world := w;
         result := Returned (VBool isCorrect,
                             if isCorrect then HomeworkQuestion.points question
                             else int 0) |}
    /\ (isCorrect = true <-> ticked = []).
Proof.
  intros Hty Harr Hstr Hparse. unfold grade. rewrite Hty.
  assert (Hg : gradeTickbox question responseText
               = Some (match ticked with [] => true | _ => false end)).
  { unfold gradeTickbox, correctAnswers. rewrite Hparse. simpl.
    destruct (HomeworkQuestion.correct_answer question) as [| | b|n|s|l|o] eqn:Hc.
    all: try (by destruct ticked).
    - by destruct (Hstr s).
    - by destruct (Harr l). }
  rewrite Hg. eexists. split; [reflexivity |]. destruct ticked; split; congruence.
Qed.
End MoreGrading.

Lemma multiple_choice_without_answer_rewards_blank_witness :
  HomeworkQuestion.question_type (without_answer mockQuestion1) = multiple_choice
  /\ exists isCorrect : bool,
       result (run (mock (H:=string_arrays))
                 (grade (H:=string_arrays) (without_answer mockQuestion1) "  ") fresh)
       = Returned (VBool isCorrect, if isCorrect then int 5 else int 0)
       /\ (isCorrect = true <-> trim "  " = "").
Proof.
  split; [reflexivity |].
  apply (multiple_choice_without_answer_rewards_blank (H:=string_arrays)
           (mock (H:=string_arrays)) fresh (without_answer mockQuestion1) "  ");
    [reflexivity | intros s Hs; discriminate Hs].
Defined.

Lemma multiple_choice_ignores_padding_and_case_witness :
  HomeworkQuestion.question_type mockQuestion1 = multiple_choice
  /\ trimStart "  " = "" /\ trimStart " " = ""
  /\ run (mock (H:=string_arrays))
         (grade (H:=string_arrays) mockQuestion1 ("  " ++ "Water and Sunlight" ++ " "))
         fresh
     = run (mock (H:=string_arrays))
           (grade (H:=string_arrays) mockQuestion1 "Water and Sunlight") fresh.
Proof.
  split; [reflexivity |]. split; [reflexivity |]. split; [reflexivity |].
  apply (multiple_choice_ignores_padding_and_case (H:=string_arrays)
           (mock (H:=string_arrays)) fresh mockQuestion1 "  " "Water and Sunlight" " ");
    reflexivity.
Defined.

Lemma tickbox_response_not_an_array_witness :
  HomeworkQuestion.question_type mockQuestion3 = tickbox
  /\ JSON_parse (Builtins:=string_arrays) "Tree" = None
  /\ result (run (mock (H:=string_arrays))
               (grade (H:=string_arrays) mockQuestion3 "Tree") fresh)
     = Returned (VBool false, int 0).
Proof.
  split; [reflexivity |]. split; [reflexivity |].
  rewrite (tickbox_response_not_an_array (H:=string_arrays) (mock (H:=string_arrays))
             fresh mockQuestion3 "Tree" eq_refl);
    [reflexivity | intros l Hl; discriminate Hl].
Defined.

Lemma tickbox_without_answer_rewards_nothing_ticked_witness :
  HomeworkQuestion.question_type (without_answer mockQuestion3) = tickbox
  /\ JSON_parse (Builtins:=string_arrays) "[]" = Some (VArr [])
  /\ exists isCorrect : bool,
       run (mock (H:=string_arrays))
           (grade (H:=string_arrays) (without_answer mockQuestion3) "[]") fresh
       = {| trace := []; world := fresh;
            result := Returned (VBool isCorrect,
                                if isCorrect then int 10 else int 0) |}
       /\ (isCorrect = true <-> @nil value = []).
Proof.
  split; [reflexivity |]. split; [reflexivity |].
  apply (tickbox_without_answer_rewards_nothing_ticked (H:=string_arrays)
           (mock (H:=string_arrays)) fresh (without_answer mockQuestion3) "[]" []);
    [reflexivity | intros l Hl; discriminate Hl | intros s Hs; discriminate Hs
    | reflexivity].
Defined.

(** ** What the utilities send *)

Section Sending.
Context {W : Type} (E : Env W).


Lemma run_sends_within {A : Type} (Q : Query -> bool) (n : nat) (p : Prog A) (w : W) :
  sends_within Q n p ->
  forallb Q (sent (trace (run E p w))) = true
  /\ length (sent (trace (run E p w))) <= n.
Proof.
  revert n w. induction p as [a|e|q k IH|k IH|l msg k IH|k IH]; simpl; intros n w Hp.
  - split; [reflexivity | lia].
  - split; [reflexivity | lia].
  - destruct Hp as [Hq Hk]. destruct n as [|n]; [contradiction |].
    destruct (send E q w) as [o w']. simpl. rewrite Hq.
    destruct (IH o n w' (Hk o)) as [Hall Hlen]. split; [exact Hall | lia].
  - apply IH, Hp.
  - apply IH, Hp.
  - apply IH, Hp.
Qed.
End Sending.

(** Walks through a program given by its code. *)
Ltac walk :=
  repeat (simpl; intros;
          match goal with
          | |- _ /\ _ => split
          | |- True => exact I
          | |- ?x = ?x => reflexivity
          | |- context [match ?o with Fulfilled _ => _ | Rejected _ => _ end] =>
              destruct o
          | |- context [if ?b then _ else _] => destruct b
          end).

Section Tables.
Context `{Builtins}.

Lemma getHomeworkAssignment_sends (assignmentId : AssignmentId) :
  sends_within (on_tables ["assignments"]) 1 (getHomeworkAssignment assignmentId).
Proof. unfold getHomeworkAssignment. walk. Qed.

Lemma getOrCreate_sends (studentId : value) (assignmentId : AssignmentId) :
  sends_within (on_tables ["homework_sessions"]) 2
    (getOrCreateHomeworkSession studentId assignmentId).
Proof. unfold getOrCreateHomeworkSession. walk. Qed.


Lemma updateProgress_sends (sessionId : value) (index : number) (isCompleted : bool) :
  sends_within (on_tables ["homework_sessions"]) 1
    (updateHomeworkSessionProgress sessionId index isCompleted).
Proof. unfold updateHomeworkSessionProgress. walk. Qed.

Lemma responsesMap_sends (studentId : value) (assignmentId : AssignmentId) :
  sends_within (on_tables []) 0 (getStudentHomeworkResponsesMap studentId assignmentId).
Proof. unfold getStudentHomeworkResponsesMap. walk. Qed.

Lemma submit_sends (studentId : value) (assignmentId : AssignmentId) :
  sends_within (on_tables ["homework_sessions"; "submissions"]) 2
    (submitHomeworkAssignment studentId assignmentId).
Proof. unfold submitHomeworkAssignment. walk. Qed.

End Tables.

(** ** The mock gateway *)

Section MockFrame.
Context `{Builtins}.

Lemma invoke_never_query (b b' : builder) (c : call) (s : object) :
  fst (invoke b c s) = inl b' -> forall t, b' <> queryBuilder t.
Proof.
  destruct b, c; simpl; try discriminate;
    try (intros Hb t; injection Hb as <-; discriminate).
  destruct (mock_upsert _ _ _). simpl.
  intros Hb t. injection Hb as <-. discriminate.
Qed.

Lemma invoke_frame (b : builder) (c : call) (s : object) :
  (forall t, b <> queryBuilder t) -> snd (invoke b c s) = s.
Proof.
  intros Hb. destruct b, c; simpl; try reflexivity; exfalso; eapply Hb; reflexivity.
Qed.

Lemma chain_frame (b : builder) (cs : list call) (s : object) :
  (forall t, b <> queryBuilder t) -> snd (chain b cs s) = s.
Proof.
  revert b. induction cs as [|c cs IH]; intros b Hb; simpl; [reflexivity |].
  pose proof (invoke_frame b c s Hb) as Hs.
  pose proof (fun b' => invoke_never_query b b' c s) as Hq.
  destruct (invoke b c s) as [[b'|e] s']; simpl in *; subst s'; [| reflexivity].
  apply IH. exact (Hq b' eq_refl).
Qed.

Lemma assign_other (k k' : string) (v : value) (s : object) :
  k <> k' -> assign k' v s !! k = s !! k.
Proof.
  intros Hk. unfold assign. destruct (String.eqb k' "__proto__"); [reflexivity |].
  by apply lookup_insert_ne.
Qed.

(** The storage after a request, entry by entry. *)
Lemma mock_send_storage (q : Query) (w : MockWorld) :
  clock (snd (send mock q w)) = clock w
  /\ (is_response_upsert q = false ->
      mockResponsesStorage (snd (send mock q w)) = mockResponsesStorage w)
  /\ (forall t d o rest k,
        q = from t (dot_upsert d o :: rest) ->
        k <> to_property_key (get d "question_id") ->
        mockResponsesStorage (snd (send mock q w)) !! k = mockResponsesStorage w !! k).
Proof.
  destruct w as [s t0]. unfold send, mock. cbn [mockResponsesStorage clock].
  destruct (mockSupabase q s) as [o s'] eqn:Hq. cbn [snd mockResponsesStorage clock].
  split; [reflexivity |].
  assert (Hs' : s' = snd (mockSupabase q s)) by (by rewrite Hq). clear Hq. subst s'.
  split.
  - intros Hnot. destruct q as [t cs|]; [| reflexivity]. simpl.
    destruct cs as [|c cs]; [reflexivity |]. simpl.
    destruct c; simpl in *;
      try (apply chain_frame; discriminate); try reflexivity.
    unfold mock_upsert. rewrite Hnot. simpl. apply chain_frame. discriminate.
  - intros t d opts rest k -> Hk. simpl.
    destruct (mock_upsert t d s) as [o' s'] eqn:Hu. rewrite chain_frame by discriminate.
    unfold mock_upsert in Hu.
    destruct (String.eqb t "homework_responses");
      [| by injection Hu as _ <-].
    destruct d; injection Hu as _ <-; try reflexivity; by apply assign_other.
Qed.

Lemma mock_send_frame (q : Query) (w : MockWorld) :
  is_response_upsert q = false -> snd (send mock q w) = w.
Proof.
  intros Hq. destruct (mock_send_storage q w) as (Hclock & Hstore & _).
  specialize (Hstore Hq). destruct (snd (send mock q w)) as [s' t']. destruct w as [s t].
  simpl in *. by subst.
Qed.

(** X15. The mock's storage is written by one chain only, an upsert on
    homework_responses: any other request leaves the mock as it was, no
    request moves its clock, and an upsert leaves every entry of the
    storage but the one of its question id as it was. *)
Theorem mock_writes_one_entry_per_response_upsert (q : Query) (w : MockWorld) :
  clock (snd (send mock q w)) = clock w
  /\ (is_response_upsert q = false -> snd (send mock q w) = w)
  /\ (forall t d o rest k,
        q = from t (dot_upsert d o :: rest) ->
        k <> to_property_key (get d "question_id") ->
        mockResponsesStorage (snd (send mock q w)) !! k = mockResponsesStorage w !! k).
Proof.
  destruct (mock_send_storage q w) as (Hclock & _ & Hother).
  split; [exact Hclock |]. split; [apply mock_send_frame | exact Hother].
Qed.

Lemma run_frame {W A : Type} (E : Env W) (Q : Query -> bool) (p : Prog A) (w : W) :
  (forall q w, Q q = true -> snd (send E q w) = w) ->
  forallb Q (sent (trace (run E p w))) = true ->
  world (run E p w) = w.
Proof.
  intros Hframe. revert w.
  induction p as [a|e|q k IH|k IH|l msg k IH|k IH]; intros w; simpl;
    try reflexivity; try apply IH.
  pose proof (Hframe q w) as Hq.
  destruct (send E q w) as [o w']. simpl in *.
  destruct (Q q); simpl; [| intros Hf; discriminate Hf].
  intros Hrest. rewrite (IH o w' Hrest). by apply Hq.
Qed.

Lemma run_mock_frame {A : Type} (p : Prog A) (w : MockWorld) (tables : list string) :
  existsb (String.eqb "homework_responses") tables = false ->
  forallb (on_tables tables) (sent (trace (run mock p w))) = true ->
  world (run mock p w) = w.
Proof.
  intros Htables. apply run_frame. intros q w' Hq. apply mock_send_frame.
  destruct q as [t cs|]; [| reflexivity]. unfold on_tables in Hq. simpl.
  destruct cs as [|[] cs]; try reflexivity.
  destruct (String.eqb_spec t "homework_responses") as [->|]; [| reflexivity].
  by rewrite Htables in Hq.
Qed.

(** X16. On the mock only a save writes: loading an assignment, finding
    or creating a session, updating the progress, reading the responses
    and submitting all leave the mock exactly as it was. *)
Theorem only_saves_write_on_the_mock (w : MockWorld) (studentId sessionId : value)
    (assignmentId : AssignmentId) (index : number) (isCompleted : bool) :
  world (run mock (getHomeworkAssignment assignmentId) w) = w
  /\ world (run mock (getOrCreateHomeworkSession studentId assignmentId) w) = w
  /\ world (run mock (updateHomeworkSessionProgress sessionId index isCompleted) w) = w
  /\ world (run mock (getStudentHomeworkResponsesMap studentId assignmentId) w) = w
  /\ world (run mock (submitHomeworkAssignment studentId assignmentId) w) = w.
Proof.
  refine (conj _ (conj _ (conj _ (conj _ _)))).
  - apply (run_mock_frame _ w ["assignments"] eq_refl).
    apply run_sends_within with (n := 1), getHomeworkAssignment_sends.
  - apply (run_mock_frame _ w ["homework_sessions"] eq_refl).
    apply run_sends_within with (n := 2), getOrCreate_sends.
  - apply (run_mock_frame _ w ["homework_sessions"] eq_refl).
    apply run_sends_within with (n := 1), updateProgress_sends.
  - apply (run_mock_frame _ w [] eq_refl).
    apply run_sends_within with (n := 0), responsesMap_sends.
  - apply (run_mock_frame _ w ["homework_sessions"; "submissions"] eq_refl).
    apply run_sends_within with (n := 2), submit_sends.
Qed.
End MockFrame.

Section MockInsert.
Context `{Builtins}.

(** X17. An insert followed by select and single answers with a row that
    has every member of the data it was given, the data winning over the
    defaults: the members of the mock session on homework_sessions, the id
    new-id elsewhere; nothing is stored. *)
Theorem mock_insert_returns_the_data (t columns : string) (d : value) (w : MockWorld) :
  exists row : object,
    send mock (from t [dot_insert d; dot_select columns; dot_single]) w
    = (ok (VObj row), w)
    /\ (forall k v, spread d !! k = Some v -> row !! k = Some v)
    /\ (forall k, spread d !! k = None ->
          row !! k = if String.eqb t "homework_sessions" then mockSession !! k
                     else if String.eqb k "id" then Some (VStr "new-id") else None).
Proof.
  unfold send, mock. cbn [mockSupabase chain invoke settle].
  destruct (String.eqb t "homework_sessions"); eexists; (split; [| split]).
  - by rewrite mock_world_eta.
  - intros k v Hk. by apply lookup_union_Some_l.
  - intros k Hk. by rewrite lookup_union_r.
  - by rewrite mock_world_eta.
  - intros k v Hk. by apply lookup_union_Some_l.
  - intros k Hk. rewrite lookup_union_r by done.
    destruct (String.eqb_spec k "id") as [->|Hne]; [by rewrite lookup_singleton_eq |].
    by rewrite lookup_singleton_ne.
Qed.
End MockInsert.

(** ** Option images *)

Section OptionImage.
Context {W : Type} (E : Env W).

(** X18. A URL returned for an option is the trimmed image_url of the
    option, it begins with http://, https://, / or data:, and trimming it
    again changes nothing; the function sends nothing. *)
Theorem getOptionImageUrl_returns_a_clean_url (w : W) (option : value) (url : string) :
  result (run E (getOptionImageUrl option) w) = Returned (VStr url) ->
  image_url_accepted url = true
  /\ trim url = url
  /\ (exists image_url, get option "image_url" = VStr image_url /\ url = trim image_url)
  /\ run E (getOptionImageUrl option) w
     = {| trace := []; world := w; result := Returned (VStr url) |}.
Proof.
  unfold getOptionImageUrl.
  destruct (isOptionWithImage option && truthy (get option "image_url"));
    [| intros Hr; discriminate Hr].
  destruct (get option "image_url") as [| | b|n|s|l|o]; try (intros Hr; discriminate Hr).
  destruct (image_url_accepted (trim s)) eqn:Hok; simpl; intros Hr;
    [| discriminate Hr].
  injection Hr as <-. split; [exact Hok |]. split; [apply trim_idempotent |].
  split; [by exists s | reflexivity].
Qed.

(** X19. An option whose image_url is set to something that is not a
    string makes the function throw: nothing is returned for it. *)
Theorem getOptionImageUrl_throws_on_other_values (w : W) (option : value) :
  isOptionWithImage option = true ->
  truthy (get option "image_url") = true ->
  (forall s, get option "image_url" <> VStr s) ->
  exists e, run E (getOptionImageUrl option) w
            = {| trace := []; world := w; result := Threw e |}.
Proof.
  intros Hoption Htruthy Hother. unfold getOptionImageUrl. rewrite Hoption, Htruthy.
  destruct (get option "image_url") as [| | b|n|s|l|o]; simpl; eauto.
  by destruct (Hother s).
Qed.
End OptionImage.

(** ** The page's handlers *)

Lemma returns_only_then {A B : Type} (Q : B -> Prop) (p : Prog A) (f : A -> Prog B) :
  (forall a, returns_only Q (f a)) -> returns_only Q (p ≫= f).
Proof.
  intros Hf. apply returns_only_bind.
  apply (returns_only_weaken (fun _ => True)); [auto | apply returns_only_True].
Qed.




Section Handlers.
Context `{Builtins} `{Stringify} {W : Type} (E : Env W).

#[local] Arguments saveHomeworkResponse : simpl never.
#[local] Arguments updateHomeworkSessionProgress : simpl never.
#[local] Arguments submitHomeworkAssignment : simpl never.

(** The [try] block of the two answer handlers: whatever happens in it,
    the handler returns the state it had set before. *)
Lemma answer_saved_or_not (st' : Page.State) (save : value -> Prog bool)
    (warning caught : string) :
  settles (fun x => x = st')
    (try_catch
       (r ← await auth_getUser;
        user ← Page.member (data r) "user";
        if truthy user then
          success ← save user;
          if negb success then log console_warn warning;; mret st'
          else mret st'
        else mret st')
       (fun _ => log console_error caught;; mret st')).
Proof.
  apply settles_try_catch; [| intros e; reflexivity].
  simpl. intros [r|e]; simpl; [| exact I].
  destruct (data r); simpl; try exact I;
    try match goal with |- context [if ?c then _ else _] => destruct c end;
    try reflexivity; apply returns_only_then; intros [|]; reflexivity.
Qed.


Lemma handleTickboxAnswer_result (w : W) (st : Page.State) (option : value)
    (question : HomeworkQuestion.t) (assignment : AssignmentWithQuestions.t)
    (newAnswers : list value) :
  Page.question st = Some question ->
  Page.assignment st = Some assignment ->
  truthy (Page.session st) = true ->
  toggled (get (VObj (Page.answers st)) (HomeworkQuestion.id question))
          (getOptionText option) = Some newAnswers ->
  result (run E (handleTickboxAnswer st option) w)
  = Returned (Page.setAnswers (<[HomeworkQuestion.id question := VArr newAnswers]>
                                 (Page.answers st)) st).
Proof.
  intros Hq Ha Hs Ht. unfold handleTickboxAnswer. rewrite Hq, Ha, Hs, Ht.
  match goal with |- result (run E ?p w) = Returned ?st' =>
    destruct (run_settles E (fun x => x = st') p w) as (a & -> & ->); [| reflexivity]
  end.
  apply (answer_saved_or_not _
           (fun user => saveHomeworkResponse (get user "id") _ _ _ _ _)).
Qed.


(** X21. A tickbox answer restored from the responses map is the text
    that was saved, a string: the handler then throws when the text
    includes the option clicked, before anything is sent, and otherwise
    answers with the characters of the text followed by the option. *)
Theorem handleTickboxAnswer_on_a_restored_answer (w : W) (st : Page.State)
    (option : value) (question : HomeworkQuestion.t)
    (assignment : AssignmentWithQuestions.t) (saved : string) :
  Page.question st = Some question ->
  Page.assignment st = Some assignment ->
  truthy (Page.session st) = true ->
  Page.answers st !! HomeworkQuestion.id question = Some (VStr saved) ->
  saved <> "" ->
  let ran := run E (handleTickboxAnswer st option) w in
  if String_includes (getOptionText option) saved
  then exists e, ran = {| trace := []; world := w; result := Threw e |}
  else result ran
       = Returned (Page.setAnswers
                     (<[HomeworkQuestion.id question
                        := VArr (map (fun c => VStr (String c EmptyString))
                                     (list_ascii_of_string saved)
                                 ++ [VStr (getOptionText option)])]>
                        (Page.answers st)) st).
Proof.
  intros Hq Ha Hs Hsaved Hne ran.
  assert (Ht : toggled (get (VObj (Page.answers st)) (HomeworkQuestion.id question))
                       (getOptionText option)
               = if String_includes (getOptionText option) saved then None
                 else Some (map (fun c => VStr (String c EmptyString))
                                (list_ascii_of_string saved)
                            ++ [VStr (getOptionText option)])).
  { unfold toggled. simpl. rewrite Hsaved. simpl.
    destruct (String.eqb_spec saved ""); [done | reflexivity]. }
  destruct (String_includes (getOptionText option) saved).
  - subst ran. unfold handleTickboxAnswer. rewrite Hq, Ha, Hs, Ht. eauto.
  - apply (handleTickboxAnswer_result w st option question assignment _ Hq Ha Hs Ht).
Qed.
(** The [try] block of the two navigation handlers. *)
Lemma progress_updated_or_not (st' : Page.State) (update : Prog bool) :
  settles (fun x => x = st')
    (try_catch (update;; mret st')
       (fun _ => log console_error "Error updating session progress:";; mret st')).
Proof.
  apply settles_try_catch; [| intros e; reflexivity].
  apply returns_only_then. intros _. reflexivity.
Qed.

Lemma setCurrentQuestion_same (st : Page.State) :
  setCurrentQuestion (Page.currentQuestion st) st = st.
Proof. by destruct st. Qed.

(** Next followed by Previous brings the page back to the state it was
    in. *)
Lemma previous_undoes_next (w w' : W) (st st1 : Page.State) :
  truthy (Page.session st) = true ->
  (Page.currentQuestion st + 1 < totalQuestions st)%nat ->
  result (run E (handleNext st) w) = Returned st1 ->
  result (run E (handlePrevious st1) w') = Returned st.
Proof.
  intros Hs Hin Hnext.
  assert (Hst1 : st1 = setCurrentQuestion (Page.currentQuestion st + 1) st).
  { revert Hnext. unfold handleNext. rewrite Hs.
    destruct (Z.ltb_spec (Z.of_nat (Page.currentQuestion st))
                         (Z.of_nat (totalQuestions st) - 1)); [| lia].
    simpl andb. cbv iota.
    match goal with |- result (run E ?p w) = _ -> _ =>
      destruct (run_settles E (fun x => x = setCurrentQuestion
                                         (Page.currentQuestion st + 1) st) p w)
        as (a & -> & ->); [apply progress_updated_or_not |]
    end.
    intros Heq. by injection Heq. }
  assert (Hcursor : Page.currentQuestion st1 = (Page.currentQuestion st + 1)%nat)
    by (by subst st1).
  assert (Hsession : Page.session st1 = Page.session st) by (by subst st1).
  assert (Hback : setCurrentQuestion (Page.currentQuestion st1 - 1) st1 = st)
    by (subst st1; rewrite Hcursor, Nat.add_sub; by destruct st).
  clear Hst1 Hnext. unfold handlePrevious. rewrite Hback, Hsession, Hs, Hcursor.
  replace (0 <? Page.currentQuestion st + 1)%nat with true
    by (symmetry; apply Nat.ltb_lt; lia).
  simpl andb. cbv iota.
  match goal with |- result (run E ?p w') = _ =>
    destruct (run_settles E (fun x => x = st) p w') as (a & -> & ->); [| reflexivity]
  end.
  apply progress_updated_or_not.
Qed.

(** X22. Next and Previous return with the cursor moved by one exactly
    when there is a session and a question on that side, whatever the
    gateway does with the progress update; nothing else of the state
    changes, a cursor within the questions stays within them, and Previous
    after a Next that moved brings the page back to the state it was in. *)
Theorem navigation_moves_the_cursor_by_one (w : W) (st : Page.State) :
  let cursor := Page.currentQuestion st in
  let forward := (cursor + 1 <? totalQuestions st)%nat && truthy (Page.session st) in
  let back := (0 <? cursor)%nat && truthy (Page.session st) in
  result (run E (handleNext st) w)
  = Returned (setCurrentQuestion (if forward then cursor + 1 else cursor) st)
  /\ result (run E (handlePrevious st) w)
     = Returned (setCurrentQuestion (if back then cursor - 1 else cursor) st)
  /\ ((cursor < totalQuestions st)%nat ->
      ((if forward then cursor + 1 else cursor) < totalQuestions st)%nat
      /\ ((if back then cursor - 1 else cursor) < totalQuestions st)%nat)
  /\ (forward = true ->
      forall w' st1,
        result (run E (handleNext st) w) = Returned st1 ->
        result (run E (handlePrevious st1) w') = Returned st).
Proof.
  intros cursor forward back. split; [| split; [| split]].
  - unfold handleNext. fold cursor.
    replace (Z.of_nat cursor <? Z.of_nat (totalQuestions st) - 1)%Z
      with (cursor + 1 <? totalQuestions st)%nat
      by (destruct (Nat.ltb_spec (cursor + 1) (totalQuestions st));
          destruct (Z.ltb_spec (Z.of_nat cursor) (Z.of_nat (totalQuestions st) - 1));
          (reflexivity || lia)).
    fold forward. destruct forward;
      [| unfold cursor; by rewrite setCurrentQuestion_same].
    match goal with |- result (run E ?p w) = Returned ?st' =>
      destruct (run_settles E (fun x => x = st') p w) as (a & -> & ->); [| reflexivity]
    end.
    apply progress_updated_or_not.
  - unfold handlePrevious. fold cursor back.
    destruct back; [| unfold cursor; by rewrite setCurrentQuestion_same].
    match goal with |- result (run E ?p w) = Returned ?st' =>
      destruct (run_settles E (fun x => x = st') p w) as (a & -> & ->); [| reflexivity]
    end.
    apply progress_updated_or_not.
  - intros Hin. subst forward back.
    destruct (Nat.ltb_spec (cursor + 1) (totalQuestions st));
      destruct (Nat.ltb_spec 0 cursor); destruct (truthy (Page.session st));
      simpl; lia.
  - intros Hforward w' st1 Hnext. subst forward.
    apply andb_true_iff in Hforward as [Hin Hs]. apply Nat.ltb_lt in Hin.
    by apply (previous_undoes_next w w' st st1).
Qed.

End Handlers.

(** ** Ticking and unticking *)

Lemma sameValueZero_string (o : string) (x : value) :
  sameValueZero (VStr o) x = true <-> x = VStr o.
Proof.
  destruct x; simpl; try (split; [discriminate | congruence]).
  rewrite String.eqb_eq. split; [by intros -> | congruence].
Qed.

Lemma is_string_spec (x : value) (o : string) : is_string x o = true <-> x = VStr o.
Proof.
  destruct x; simpl; try (split; [discriminate | congruence]).
  rewrite String.eqb_eq. split; [by intros -> | congruence].
Qed.

Lemma includes_string (o : string) (l : list value) :
  existsb (sameValueZero (VStr o)) l = true <-> VStr o ∈ l.
Proof.
  rewrite existsb_exists, list_elem_of_In. split.
  - intros (x & Hx & Hsame). apply sameValueZero_string in Hsame. by subst.
  - intros Hin. exists (VStr o). split; [exact Hin | by apply sameValueZero_string].
Qed.

Lemma kept_by_filter (o : string) (x : value) :
  Is_true (negb (is_string x o)) <-> x <> VStr o.
Proof. rewrite negb_True, Is_true_true, is_string_spec. tauto. Qed.

(** X24. A click on a tickbox option flips that option and no other: it
    is in the new list exactly when it was not in the old one, every other
    entry is kept, and a second click on an option that was not ticked
    gives the old list back. *)
Theorem toggled_flips_the_option (l : list value) (optionText : string) :
  exists l',
    toggled (VArr l) optionText = Some l'
    /\ (VStr optionText ∈ l' <-> VStr optionText ∉ l)
    /\ (forall x, x <> VStr optionText -> x ∈ l' <-> x ∈ l)
    /\ (VStr optionText ∉ l -> toggled (VArr l') optionText = Some l).
Proof.
  unfold toggled. cbn [truthy].
  destruct (existsb (sameValueZero (VStr optionText)) l) eqn:Hin.
  - apply includes_string in Hin. eexists. split; [reflexivity |]. split; [| split].
    + rewrite list_elem_of_filter, kept_by_filter. tauto.
    + intros x Hx. rewrite list_elem_of_filter, kept_by_filter. tauto.
    + contradiction.
  - assert (Hnot : VStr optionText ∉ l).
    { intros Hl. apply includes_string in Hl. congruence. }
    eexists. split; [reflexivity |]. split; [| split].
    + rewrite elem_of_app, list_elem_of_singleton. tauto.
    + intros x Hx. rewrite elem_of_app, list_elem_of_singleton. tauto.
    + intros _.
      assert (Hnow : existsb (sameValueZero (VStr optionText)) (l ++ [VStr optionText])
                     = true).
      { apply includes_string, elem_of_app. right. apply list_elem_of_singleton.
        reflexivity. }
      rewrite Hnow. f_equal. rewrite filter_app.
      rewrite (filter_singleton_False _ (VStr optionText) [])
        by (rewrite kept_by_filter; tauto).
      rewrite app_nil_r. clear Hin Hnow.
      induction l as [|x l IH]; [reflexivity |].
      apply not_elem_of_cons in Hnot as [Hx Hl].
      rewrite filter_cons_True by (by apply kept_by_filter).
      f_equal. by apply IH.
Qed.

(** ** Loading the page *)

Section Ends.
Context {W : Type} (E : Env W).

Lemma ends_ret {A : Type} (a : A) (w : W) : ends E (mret a) w a w.
Proof. by split. Qed.

Lemma ends_bind {A B : Type} (p : Prog A) (f : A -> Prog B) (w w1 w2 : W) (a : A)
    (b : B) :
  ends E p w a w1 -> ends E (f a) w1 b w2 -> ends E (p ≫= f) w b w2.
Proof.
  unfold ends. intros [Hr Hw] [Hr' Hw']. rewrite (run_bind E p f w). unfold after.
  cbn [result world]. by rewrite Hr, Hw.
Qed.

Lemma ends_try_catch {A : Type} (p : Prog A) (h : exn -> Prog A) (w w1 : W) (a : A) :
  ends E p w a w1 -> ends E (try_catch p h) w a w1.
Proof.
  unfold ends. intros [Hr Hw]. rewrite (run_try_catch E p h w). unfold after.
  cbn [result world]. by rewrite Hr.
Qed.

Lemma ends_await (q : Query) (w w1 : W) (r : Reply) :
  send E q w = (Fulfilled r, w1) -> ends E (await q) w r w1.
Proof. unfold ends. intros Hq. rewrite (run_await E q w), Hq. by split. Qed.

Lemma ends_log {A : Type} (l : level) (msg : string) (p : Prog A) (w w1 : W) (a : A) :
  ends E p w a w1 -> ends E (log l msg;; p) w a w1.
Proof. unfold ends. simpl. tauto. Qed.
End Ends.

Section MockPage.
Context `{Builtins} `{Stringify}.

Lemma mock_getUser (w : MockWorld) :
  ends mock (await auth_getUser) w
       {| data := VObj {["user" := VObj mockUser]}; error := VNull |} w.
Proof. apply ends_await. unfold send, mock. simpl. by rewrite mock_world_eta. Qed.

Lemma mock_getHomeworkAssignment (w : MockWorld) (assignmentId : AssignmentId) :
  ends mock (getHomeworkAssignment assignmentId) w
       (if isNaN (assignmentIdNum assignmentId) then None else Some mockAssignment) w.
Proof.
  split; [| apply (run_mock_frame _ w ["assignments"] eq_refl),
              run_sends_within with (n := 1), getHomeworkAssignment_sends].
  destruct (isNaN (assignmentIdNum assignmentId)) eqn:Hid.
  - by rewrite (getHomeworkAssignment_invalid mock w assignmentId Hid).
  - unfold getHomeworkAssignment. rewrite Hid. reflexivity.
Qed.

Lemma mock_getOrCreate_ends (w : MockWorld) (studentId : value)
    (assignmentId : AssignmentId) :
  ends mock (getOrCreateHomeworkSession studentId assignmentId) w VNull w.
Proof.
  split; [apply mock_getOrCreate |].
  apply (run_mock_frame _ w ["homework_sessions"] eq_refl),
    run_sends_within with (n := 2), getOrCreate_sends.
Qed.

Lemma mock_responsesMap (w : MockWorld) (studentId : value)
    (assignmentId : AssignmentId) :
  ends mock (getStudentHomeworkResponsesMap studentId assignmentId) w
       (mockResponsesStorage w) w.
Proof. by split. Qed.

Lemma mock_load (w : MockWorld) (st : Page.State) (id : string) :
  id <> "" ->
  ends mock (loadAssignmentData id st) w
       (if isNaN (parseInt id)
        then setLoading false (setError (Some "Assignment not found.") st)
        else setLoading false
               (Page.setAnswers (mockResponsesStorage w)
                                (setAssignment (Some mockAssignment) st)),
        []) w.
Proof.
  intros Hid. unfold loadAssignmentData.
  destruct (String.eqb_spec id ""); [done |].
  apply ends_try_catch. eapply ends_bind; [apply mock_getUser |].
  cbn [data Page.member]. eapply ends_bind; [apply ends_ret |].
  replace (truthy (get (VObj {["user" := VObj mockUser]}) "user")) with true
    by reflexivity.
  cbn [negb]. cbv iota. unfold canStudentAccessAssignment.
  eapply ends_bind; [apply ends_ret |]. cbn [negb]. cbv iota.
  eapply ends_bind; [apply mock_getHomeworkAssignment |].
  cbn [assignmentIdNum]. destruct (isNaN (parseInt id)); [apply ends_ret |].
  apply ends_try_catch. eapply ends_bind; [apply mock_getOrCreate_ends |].
  cbn [truthy]. cbv iota. apply ends_try_catch.
  eapply ends_bind; [apply ends_try_catch, mock_responsesMap |]. apply ends_ret.
Qed.

(** Without a session every handler returns at once. *)
Lemma handlers_wait_for_a_session {W : Type} (E : Env W) (w : W) (st : Page.State)
    (option : value) :
  truthy (Page.session st) = false ->
  let at_once {A : Type} (p : Prog A) (a : A) :=
    run E p w = {| trace := []; world := w; result := Returned a |} in
  at_once (Page.handleAnswer st option) st
  /\ at_once (handleTickboxAnswer st option) st
  /\ at_once (handleNext st) st
  /\ at_once (handlePrevious st) st
  /\ at_once (handleSubmit st) (st, []).
Proof.
  intros Hs at_once. subst at_once. cbv beta.
  unfold Page.handleAnswer, handleTickboxAnswer, handleNext, handlePrevious,
    handleSubmit.
  rewrite Hs, !andb_false_r.
  destruct (Page.question st), (Page.assignment st); repeat split.
Qed.

(** X25. On the mock the page loads the mock assignment for every id
    that parses to a number, with the stored responses as answers, and
    reports that the assignment was not found for any other non-empty id.
    A session is never set, so on a page that had none no handler does
    anything afterwards: no answer is taken, the cursor does not move and
    nothing is submitted. *)
Theorem the_page_on_the_mock_has_no_session (w w' : MockWorld) (st : Page.State)
    (id : string) (option : value) :
  id <> "" ->
  truthy (Page.session st) = false ->
  exists st',
    run mock (loadAssignmentData id st) w
    = {| trace := trace (run mock (loadAssignmentData id st) w); world := w;
         result := Returned (st', []) |}
    /\ st' = (if isNaN (parseInt id)
              then setLoading false (setError (Some "Assignment not found.") st)
              else setLoading false
                     (Page.setAnswers (mockResponsesStorage w)
                                      (setAssignment (Some mockAssignment) st)))
    /\ Page.session st' = Page.session st
    /\ run mock (Page.handleAnswer st' option) w'
       = {| trace := []; world := w'; result := Returned st' |}
    /\ run mock (handleTickboxAnswer st' option) w'
       = {| trace := []; world := w'; result := Returned st' |}
    /\ run mock (handleNext st') w'
       = {| trace := []; world := w'; result := Returned st' |}
    /\ run mock (handlePrevious st') w'
       = {| trace := []; world := w'; result := Returned st' |}
    /\ run mock (handleSubmit st') w'
       = {| trace := []; world := w'; result := Returned (st', []) |}.
Proof.
  intros Hid Hs. eexists. split; [| split; [reflexivity |]].
  - destruct (mock_load w st id Hid) as [Hr Hw].
    destruct (run mock (loadAssignmentData id st) w) as [t w1 r]. simpl in *.
    by subst.
  - assert (Hsame : Page.session (if isNaN (parseInt id)
                      then setLoading false (setError (Some "Assignment not found.") st)
                      else setLoading false
                             (Page.setAnswers (mockResponsesStorage w)
                                (setAssignment (Some mockAssignment) st)))
                    = Page.session st) by (by destruct (isNaN (parseInt id))).
    split; [exact Hsame |].
    apply (handlers_wait_for_a_session mock w' _ option). by rewrite Hsame.
Qed.
End MockPage.
Lemma settles_try_catch_unused {A : Type} (P : A -> Prop) (p : Prog A)
    (h : exn -> Prog A) :
  settles P p -> settles P (try_catch p h).
Proof. induction p; simpl; auto. contradiction. Qed.

Lemma settles_then {A B : Type} (Q : B -> Prop) (p : Prog A) (f : A -> Prog B) :
  settles (fun _ => True) p -> (forall a, settles Q (f a)) -> settles Q (p ≫= f).
Proof.
  intros Hp Hf. apply settles_bind. apply (settles_weaken (fun _ => True)); auto.
Qed.

Lemma settles_guarded {A : Type} (p : Prog A) (h : exn -> Prog A) :
  (forall e, settles (fun _ => True) (h e)) -> settles (fun _ => True) (try_catch p h).
Proof. intros Hh. apply settles_try_catch; [apply returns_only_True | exact Hh]. Qed.

Section Loading.
Context {W : Type} (E : Env W).

(** X26. Loading the page never throws, whatever the gateway does, and
    ends in one of four ways: a navigation to the landing page with the
    state untouched when there is no user, the failure message when the
    user could not be read, the message that the assignment was not found,
    or the mock assignment set with the spinner off.  The failure message
    never comes with an assignment that was set on the way. *)
Theorem loadAssignmentData_ends_in_four_ways (w : W) (st : Page.State) (id : string) :
  id <> "" ->
  exists st' effects,
    result (run E (loadAssignmentData id st) w) = Returned (st', effects)
    /\ (st' = st /\ effects = [router_push "/"]
        \/ st' = setLoading false (setError (Some load_failed) st) /\ effects = []
        \/ st' = setLoading false (setError (Some "Assignment not found.") st)
           /\ effects = []
        \/ Page.assignment st' = Some mockAssignment /\ Page.loading st' = false
           /\ Page.error st' = Page.error st).
Proof.
  intros Hid. unfold loadAssignmentData. destruct (String.eqb_spec id ""); [done |].
  match goal with |- exists st' effects, result (run E ?p w) = _ /\ @?P st' effects =>
    destruct (run_settles E (fun x => P (fst x) (snd x)) p w) as ([st' effects] & Hr & HP)
  end; [| by exists st', effects].
  apply settles_try_catch; [| intros e; simpl; tauto].
  simpl. intros [r|e]; [| exact I]. simpl.
  assert (Hloaded : returns_only
    (fun x : Page.State * list ui =>
       x.1 = st /\ x.2 = [router_push "/"]
       \/ x.1 = setLoading false (setError (Some load_failed) st) /\ x.2 = []
       \/ x.1 = setLoading false (setError (Some "Assignment not found.") st)
          /\ x.2 = []
       \/ Page.assignment x.1 = Some mockAssignment /\ Page.loading x.1 = false
          /\ Page.error x.1 = Page.error st)
    (assignmentData ← getHomeworkAssignment (id_string id);
     match assignmentData with
     | None => mret (setLoading false (setError (Some "Assignment not found.") st), [])
     | Some a =>
         try_catch
           (sessionData ← getOrCreateHomeworkSession
                            (get (get (data r) "user") "id") (id_string id);
            let '(st2, effects) :=
              if truthy sessionData
              then resumed sessionData (setAssignment (Some a) st)
              else (setAssignment (Some a) st, []) in
            try_catch
              (responses ←
                 try_catch
                   (getStudentHomeworkResponsesMap (get (get (data r) "user") "id")
                                                   (id_string id))
                   (fun _ => log console_error "Error loading existing responses:";;
                             mret ∅);
               mret (setLoading false (Page.setAnswers responses st2), effects))
              (fun _ => log console_error "Error loading assignment:";;
                        mret (setLoading false (setError (Some load_failed) st2), [])))
           (fun _ => log console_error "Error loading assignment:";;
                     mret (setLoading false
                             (setError (Some load_failed) (setAssignment (Some a) st)),
                           []))
     end)).
  { apply returns_only_bind.
    apply (returns_only_weaken (fun a => a = None \/ a = Some mockAssignment)).
    - intros a [->| ->]; [simpl; tauto |].
      apply settles_returns_only, settles_try_catch_unused.
      apply settles_then; [apply settles_guarded; intros e; exact I |].
      intros sessionData.
      destruct (truthy sessionData); [unfold resumed |];
        apply settles_try_catch_unused;
        (apply settles_then;
         [apply settles_guarded; intros e; exact I | intros responses; simpl]).
      + destruct (cursor_of _), (truthy (get sessionData "is_completed")); simpl; tauto.
      + tauto.
    - unfold getHomeworkAssignment. apply returns_only_try_catch; [| simpl; tauto].
      destruct (isNaN _); simpl; [tauto |]. intros [r0|e]; simpl; [| exact I].
      destruct (truthy (error r0)); simpl; [tauto |].
      destruct (truthy (data r0)); simpl; tauto. }
  destruct (data r); simpl; try exact I;
    try match goal with |- context [if ?c then _ else _] => destruct c end;
    simpl; try tauto; try exact Hloaded.
Qed.
End Loading.

(** ** The image component *)

Lemma prefix_app (s x : string) : String.prefix s (s ++ x) = true.
Proof.
  induction s as [|c s IH]; simpl; [by destruct x |].
  by destruct (ascii_dec c c).
Qed.

Lemma https_accepted (x : string) :
  ReliableImage.accepted ("https://" ++ x) = true.
Proof. unfold ReliableImage.accepted. by rewrite (prefix_app "https://" x). Qed.

(** X27. A URL that passes validation is not empty and begins with one of
    the six accepted prefixes; it is the trimmed input itself unless
    https:// was put in front. *)
Theorem validateAndCleanUrl_returns_an_accepted_url (url cleaned : string) :
  ReliableImage.validateAndCleanUrl url = Some cleaned ->
  ReliableImage.accepted cleaned = true
  /\ cleaned <> ""
  /\ (cleaned = trim url \/ String.prefix "https://" cleaned = true).
Proof.
  unfold ReliableImage.validateAndCleanUrl.
  destruct (String.eqb url ""); [discriminate |].
  destruct (String.eqb_spec (trim url) "") as [|Hne]; [discriminate |].
  destruct (ReliableImage.accepted (trim url)) eqn:Hok.
  { intros Hc. injection Hc as <-. auto. }
  destruct (_ && _).
  { intros Hc. injection Hc as <-. split; [apply https_accepted |].
    split; [discriminate | right; apply prefix_app]. }
  destruct (_ && _); [| discriminate].
  intros Hc. injection Hc as <-. split; [apply https_accepted |].
  split; [discriminate | right; apply prefix_app].
Qed.

Section Image.
Variable PLACEHOLDER_IMAGE_DATA_URI : string.

(** X28. An error on a mounted image moves the fallback level up, to 1, 2
    or 3 and never past 3: after three errors at most the text fallback
    is shown, whatever the source.  The onError prop is called exactly
    when the text fallback is reached; an unmounted image is left as it
    is. *)
Theorem handleError_climbs_to_the_text_fallback (p : ReliableImage.Props)
    (st : ReliableImage.State) :
  let handled := ReliableImage.handleError PLACEHOLDER_IMAGE_DATA_URI p in
  let level s := ReliableImage.fallbackLevel s in
  (ReliableImage.mounted st = false -> ReliableImage.next (handled st) = st)
  /\ (ReliableImage.mounted st = true ->
      (level st < level (ReliableImage.next (handled st))
       \/ level (ReliableImage.next (handled st)) = 3)
      /\ level (ReliableImage.next (handled st)) <= 3
      /\ (ReliableImage.onError_called (handled st) = true
          <-> 2 <= level st)
      /\ (ReliableImage.onError_called (handled st) = true ->
          ReliableImage.shows_text (ReliableImage.next (handled st)) = true)
      /\ ReliableImage.shows_text
           (ReliableImage.next
              (handled (ReliableImage.next
                          (handled (ReliableImage.next (handled st)))))) = true).
Proof.
  intros handled level. subst handled level. split.
  - intros Hm. unfold ReliableImage.handleError. by rewrite Hm.
  - intros Hm.
    assert (Hstep : forall s, ReliableImage.mounted s = true ->
      let s' := ReliableImage.next
                  (ReliableImage.handleError PLACEHOLDER_IMAGE_DATA_URI p s) in
      ReliableImage.mounted s' = true
      /\ (ReliableImage.fallbackLevel s = 0 ->
          ReliableImage.fallbackLevel s' = 1 \/ ReliableImage.fallbackLevel s' = 2)
      /\ (ReliableImage.fallbackLevel s = 1 -> ReliableImage.fallbackLevel s' = 2)
      /\ (2 <= ReliableImage.fallbackLevel s ->
          ReliableImage.fallbackLevel s' = 3 /\ ReliableImage.hasError s' = true)
      /\ (ReliableImage.onError_called
            (ReliableImage.handleError PLACEHOLDER_IMAGE_DATA_URI p s) = true
          <-> 2 <= ReliableImage.fallbackLevel s)).
    { intros s Hs. unfold ReliableImage.handleError. rewrite Hs. cbn [negb].
      destruct s as [cs [|[|n]] he iv m]; cbn [ReliableImage.fallbackLevel];
        destruct (ReliableImage.src p) as [src|]; simpl;
        repeat match goal with |- context [if ?c then _ else _] => destruct c; simpl end;
        simpl in *; repeat split; auto; try lia; try discriminate;
        intros; try lia; try discriminate. }
    destruct (Hstep st Hm) as (Hm1 & H0 & H1 & H2 & Hcalled).
    set (s1 := ReliableImage.next
                 (ReliableImage.handleError PLACEHOLDER_IMAGE_DATA_URI p st)) in *.
    destruct (Hstep s1 Hm1) as (Hm2 & H0' & H1' & H2' & _).
    set (s2 := ReliableImage.next
                 (ReliableImage.handleError PLACEHOLDER_IMAGE_DATA_URI p s1)) in *.
    destruct (Hstep s2 Hm2) as (Hm3 & H0'' & H1'' & H2'' & _).
    set (s3 := ReliableImage.next
                 (ReliableImage.handleError PLACEHOLDER_IMAGE_DATA_URI p s2)) in *.
    assert (Hcases : ReliableImage.fallbackLevel st = 0
                     \/ ReliableImage.fallbackLevel st = 1
                     \/ 2 <= ReliableImage.fallbackLevel st) by lia.
    split; [| split; [| split; [exact Hcalled | split]]].
    + destruct Hcases as [Hl|[Hl|Hl]]; [destruct (H0 Hl) | specialize (H1 Hl) |
                                         destruct (H2 Hl)]; lia.
    + destruct Hcases as [Hl|[Hl|Hl]]; [destruct (H0 Hl) | specialize (H1 Hl) |
                                         destruct (H2 Hl)]; lia.
    + intros Hc. apply Hcalled in Hc. destruct (H2 Hc) as [_ He].
      unfold ReliableImage.shows_text. by rewrite He.
    + unfold ReliableImage.shows_text.
      assert (Hlast : ReliableImage.hasError s3 = true).
      { destruct Hcases as [Hl|[Hl|Hl]].
        - destruct (H0 Hl) as [Hl1|Hl1].
          + specialize (H1' Hl1). apply H2''. lia.
          + destruct H2' as [Hl2 _]; [lia |]. apply H2''. lia.
        - specialize (H1 Hl). destruct H2' as [Hl2 _]; [lia |]. apply H2''. lia.
        - destruct (H2 Hl) as [Hl1 _]. destruct H2' as [Hl2 _]; [lia |].
          apply H2''. lia. }
      by rewrite Hlast.
Qed.
End Image.

(** ** Answered questions and images *)

Lemma isQuestionAnswered_not_blank (st : Page.State) (questionId : string) :
  isQuestionAnswered st questionId = true ->
  let answer := answer_of (Page.answers st) questionId in
  answer <> VUndefined /\ answer <> VStr "" /\ answer <> VArr [].
Proof.
  unfold isQuestionAnswered. cbv zeta.
  destruct (answer_of (Page.answers st) questionId) as [| | b|n|s|l|o] eqn:Hanswer;
    try (intros _; repeat split; discriminate).
  - destruct (_ ≫= _) as [q|]; discriminate.
  - intros Hs. repeat split; try discriminate. intros Heq. injection Heq as ->.
    revert Hs. destruct (_ ≫= _) as [q|]; discriminate.
  - intros Hl. repeat split; try discriminate. intros Heq. injection Heq as ->.
    discriminate Hl.
Qed.

(** X29. When all questions count as answered there is an assignment, and
    every question of it has an answer that is neither undefined, nor the
    empty string, nor an empty list; an answer that is not an object
    counts as soon as it is none of these. *)
Theorem all_answered_leaves_no_question_blank (st : Page.State) :
  areAllQuestionsAnswered st = true ->
  exists a,
    Page.assignment st = Some a
    /\ (forall q, q ∈ AssignmentWithQuestions.questions a ->
          let answer := answer_of (Page.answers st) (HomeworkQuestion.id q) in
          answer <> VUndefined /\ answer <> VStr "" /\ answer <> VArr [])
    /\ (forall questionId,
          let answer := answer_of (Page.answers st) questionId in
          (forall o, answer <> VObj o) ->
          answer <> VUndefined -> answer <> VStr "" -> answer <> VArr [] ->
          isQuestionAnswered st questionId = true).
Proof.
  unfold areAllQuestionsAnswered. destruct (Page.assignment st) as [a|] eqn:Ha;
    [| discriminate].
  intros Hall. exists a. split; [reflexivity |]. split.
  - intros q Hq. apply isQuestionAnswered_not_blank.
    rewrite forallb_forall in Hall. apply Hall. by apply list_elem_of_In.
  - intros questionId. cbv zeta. intros Hobj Hu Hs Hl.
    unfold isQuestionAnswered. rewrite Ha. cbv zeta.
    destruct (answer_of (Page.answers st) questionId) as [| | b|n|s|l|o];
      try (by destruct (_ ≫= _)); try done.
    + assert (Hne : is_string (VStr s) "" = false).
      { simpl. destruct (String.eqb_spec s ""); [by subst | reflexivity]. }
      rewrite Hne. by destruct (_ ≫= _).
    + by destruct l.
    + by destruct (Hobj o).
Qed.

(** X30. The images shown for a question are its image_urls in their
    order, with image_url put in front when it is set and not among them:
    a main image that is set is always shown, and never twice because of
    the merge. *)
Theorem allImages_puts_the_main_image_first (question : HomeworkQuestion.t)
    (urls : list value) :
  HomeworkQuestion.image_urls question = VArr urls ->
  (truthy (HomeworkQuestion.image_url question) = false ->
   allImages question = Some urls)
  /\ (forall u, HomeworkQuestion.image_url question = VStr u -> u <> "" ->
      exists images,
        allImages question = Some images
        /\ VStr u ∈ images
        /\ (images = urls /\ VStr u ∈ urls
            \/ images = VStr u :: urls /\ VStr u ∉ urls)).
Proof.
  intros Hurls. unfold allImages. rewrite Hurls. cbn [truthy mbind option_bind]. split.
  - by intros ->.
  - intros u -> Hu.
    assert (Ht : truthy (VStr u) = true).
    { simpl. by destruct (String.eqb_spec u ""). }
    rewrite Ht. cbn [andb].
    destruct (existsb (sameValueZero (VStr u)) urls) eqn:Hin; cbn [negb].
    + apply includes_string in Hin. eexists. split; [reflexivity |]. auto.
    + assert (Hnot : VStr u ∉ urls).
      { intros Hl. apply includes_string in Hl. congruence. }
      eexists. split; [reflexivity |]. split; [apply list_elem_of_here |]. auto.
Qed.

(** ** The properties at work *)

Lemma mock_writes_one_entry_per_response_upsert_witness :
  is_response_upsert (from "homework_sessions" [dot_update VNull; dot_eq "id" session_id])
  = false
  /\ snd (send (mock (H:=string_arrays))
               (from "homework_sessions" [dot_update VNull; dot_eq "id" session_id])
               fresh) = fresh.
Proof.
  split; [reflexivity |].
  apply (mock_writes_one_entry_per_response_upsert (H:=string_arrays)
           (from "homework_sessions" [dot_update VNull; dot_eq "id" session_id]) fresh).
  reflexivity.
Defined.

Lemma getOptionImageUrl_returns_a_clean_url_witness :
  result (run (mock (H:=string_arrays))
            (getOptionImageUrl (pictured "Tree" (VStr " https://example.org/tree.png ")))
            fresh)
  = Returned (VStr "https://example.org/tree.png")
  /\ image_url_accepted "https://example.org/tree.png" = true
  /\ trim "https://example.org/tree.png" = "https://example.org/tree.png".
Proof.
  split; [vm_compute; reflexivity |].
  destruct (getOptionImageUrl_returns_a_clean_url (mock (H:=string_arrays)) fresh
              (pictured "Tree" (VStr " https://example.org/tree.png "))
              "https://example.org/tree.png")
    as (Hok & Htrim & _); [vm_compute; reflexivity |].
  split; [exact Hok | exact Htrim].
Defined.

Lemma getOptionImageUrl_throws_on_other_values_witness :
  isOptionWithImage (pictured "Tree" (VNum (int 1))) = true
  /\ truthy (get (pictured "Tree" (VNum (int 1))) "image_url") = true
  /\ exists e, run (mock (H:=string_arrays))
                   (getOptionImageUrl (pictured "Tree" (VNum (int 1)))) fresh
               = {| trace := []; world := fresh; result := Threw e |}.
Proof.
  split; [reflexivity |]. split; [reflexivity |].
  apply (getOptionImageUrl_throws_on_other_values (mock (H:=string_arrays)) fresh
           (pictured "Tree" (VNum (int 1)))); [reflexivity | reflexivity |].
  intros s Hs. vm_compute in Hs. discriminate Hs.
Defined.


Lemma handleTickboxAnswer_on_a_restored_answer_witness :
  Page.answers (page_at 2 restored) !! "q3-uuid-mock" = Some (VStr (stringify ["Tree"]))
  /\ String_includes "Tree" (stringify ["Tree"]) = true
  /\ exists e,
       run (oracle (down_until 0))
           (handleTickboxAnswer (H:=string_arrays) (H0:=stringify_strings)
                                (page_at 2 restored) (VStr "Tree")) midnight
       = {| trace := []; world := midnight; result := Threw e |}.
Proof.
  split; [reflexivity |]. split; [reflexivity |].
  apply (handleTickboxAnswer_on_a_restored_answer (H:=string_arrays)
           (H0:=stringify_strings) (oracle (down_until 0)) midnight (page_at 2 restored)
           (VStr "Tree") mockQuestion3 mockAssignment (stringify ["Tree"])
           eq_refl eq_refl eq_refl eq_refl).
  intros Heq. vm_compute in Heq. discriminate Heq.
Defined.

Lemma navigation_moves_the_cursor_by_one_witness :
  result (run (oracle (down_until 5)) (handleNext answering_page) midnight)
  = Returned (setCurrentQuestion 1 answering_page)
  /\ result (run (oracle (down_until 5))
               (handlePrevious (setCurrentQuestion 1 answering_page)) one_request_later)
     = Returned answering_page.
Proof.
  assert (Hnext : result (run (oracle (down_until 5)) (handleNext answering_page)
                              midnight)
                  = Returned (setCurrentQuestion 1 answering_page))
    by (vm_compute; reflexivity).
  split; [exact Hnext |].
  destruct (navigation_moves_the_cursor_by_one (oracle (down_until 5)) midnight
              answering_page) as (_ & _ & _ & Hback).
  apply (Hback eq_refl one_request_later (setCurrentQuestion 1 answering_page) Hnext).
Defined.


Lemma the_page_on_the_mock_has_no_session_witness :
  "1" <> ""
  /\ truthy (Page.session initial_page) = false
  /\ exists st',
       result (run (mock (H:=string_arrays)) (loadAssignmentData "1" initial_page) fresh)
       = Returned (st', [])
       /\ Page.assignment st' = Some mockAssignment
       /\ Page.session st' = VNull
       /\ run (mock (H:=string_arrays))
              (Page.handleAnswer (H:=string_arrays) st' (VStr "Only water")) fresh
          = {| trace := []; world := fresh; result := Returned st' |}.
Proof.
  assert (Hid : "1" <> "") by discriminate.
  split; [exact Hid |]. split; [reflexivity |].
  destruct (the_page_on_the_mock_has_no_session (H:=string_arrays)
              (H0:=stringify_strings) fresh fresh initial_page "1" (VStr "Only water")
              Hid eq_refl)
    as (st' & Hrun & Hst' & Hsession & Hanswer & _).
  exists st'. split; [by rewrite Hrun |]. split; [by rewrite Hst' |].
  split; [exact Hsession | exact Hanswer].
Defined.

Lemma loadAssignmentData_ends_in_four_ways_witness :
  "1" <> ""
  /\ exists st' effects,
       result (run (oracle (down_until 1)) (loadAssignmentData "1" initial_page) midnight)
       = Returned (st', effects).
Proof.
  assert (Hid : "1" <> "") by discriminate.
  split; [exact Hid |].
  destruct (loadAssignmentData_ends_in_four_ways (oracle (down_until 1)) midnight
              initial_page "1" Hid) as (st' & effects & Hr & _).
  by exists st', effects.
Defined.

Lemma validateAndCleanUrl_returns_an_accepted_url_witness :
  ReliableImage.validateAndCleanUrl " example.org/tree.png "
  = Some "https://example.org/tree.png"
  /\ ReliableImage.accepted "https://example.org/tree.png" = true.
Proof.
  split; [reflexivity |].
  apply (validateAndCleanUrl_returns_an_accepted_url " example.org/tree.png "
           "https://example.org/tree.png" eq_refl).
Defined.

Lemma all_answered_leaves_no_question_blank_witness :
  areAllQuestionsAnswered (page_at 0 all_answered) = true
  /\ exists a, Page.assignment (page_at 0 all_answered) = Some a.
Proof.
  split; [reflexivity |].
  destruct (all_answered_leaves_no_question_blank (page_at 0 all_answered) eq_refl)
    as (a & Ha & _).
  by exists a.
Defined.

Lemma allImages_puts_the_main_image_first_witness :
  HomeworkQuestion.image_urls mockQuestion1 = VArr []
  /\ allImages mockQuestion1
     = Some [VStr "https://images.unsplash.com/photo-1416339442236-8ceb164046f8?w=500"].
Proof.
  split; [reflexivity |].
  destruct (allImages_puts_the_main_image_first mockQuestion1 [] eq_refl)
    as [_ Hmain].
  destruct (Hmain "https://images.unsplash.com/photo-1416339442236-8ceb164046f8?w=500"
                  eq_refl) as (images & Himages & _); [discriminate |].
  reflexivity.
Defined.
